(** * NYC 311 service requests: ingestion, transform and summaries

    A shallow embedding of the batch pipeline of the repository:

    - [Pandas]    : the few pandas / pytz notions the scripts rely on
                    (datetime64[ns] values, time zones, calendar fields);
    - [Process]   : [process_311.py] (engineer, the schema guard, main);
    - [Ingest]    : [ingest_311.py] (get_with_retry and the paging loop);
    - [Summaries] : [scripts/precompute_summaries.py] (the SQL aggregates).

    Conventions.  A nullable cell is an [option]; [None] stands for
    None / NaN / NaT / SQL NULL.  float64 quantities (response_hours, the
    SLA threshold, the rates) are exact rationals [Q]: rounding is not
    modelled.  Python exceptions are values of [Exn]; a fallible function
    returns a [Result]. *)

From Stdlib Require Import ZArith QArith Qreduction List String Bool Lia.
From stdpp Require Import base option list gmap strings pretty.
Import ListNotations.

Local Open Scope string_scope.
Local Open Scope Z_scope.

(** ** Exceptions *)

Inductive Exn : Type :=
| KeyError (column : string)
| TypeError (msg : string)
| SystemExit (msg : string)
| AssertionError (msg : string)
| ZeroDivisionError
| RequestException (cause : string)
| OtherError (cause : string).

Inductive Result (A : Type) : Type :=
| Ok (a : A)
| Raise (e : Exn).
Arguments Ok {A} a.
Arguments Raise {A} e.

Definition bind {A B : Type} (r : Result A) (k : A -> Result B) : Result B :=
  match r with
  | Ok a => k a
  | Raise e => Raise e
  end.

Notation "'let*' x ':=' r 'in' k" := (bind r (fun x => k))
  (at level 10, x name, r at level 100, k at level 200).

Definition is_ok {A : Type} (r : Result A) : bool :=
  match r with Ok _ => true | Raise _ => false end.

(** Python's [c in df.columns]. *)
Definition has_column (c : string) (columns : list string) : bool :=
  existsb (String.eqb c) columns.

(** [df[c]] raises KeyError when the column is absent. *)
Definition require_column (c : string) (columns : list string) : Result unit :=
  if has_column c columns then Ok tt else Raise (KeyError c).

(** ** pandas datetimes and pytz zones *)

Module Pandas.

(** A datetime64[ns] cell is an integer count of nanoseconds since the epoch.
    In a timezone-naive column it counts wall-clock time; in a timezone-aware
    column it is the UTC instant and the zone lives in the column's dtype. *)
Definition NS_PER_SECOND : Z := 1000000000.
Definition SECONDS_PER_DAY : Z := 86400.

Inductive Tz : Type :=
| UTC
| America_New_York
| FixedOffset (seconds : Z).

Record Date : Type := mkDate { d_year : Z; d_month : Z; d_day : Z }.

#[global] Instance Date_eq_dec : EqDecision Date.
Proof. solve_decision. Defined.

(** Proleptic Gregorian calendar: days since 1970-01-01 <-> (y, m, d). *)
Definition civil_from_days (z0 : Z) : Date :=
  let z := z0 + 719468 in
  let era := z / 146097 in
  let doe := z - era * 146097 in
  let yoe := (doe - doe / 1460 + doe / 36524 - doe / 146096) / 365 in
  let y := yoe + era * 400 in
  let doy := doe - (365 * yoe + yoe / 4 - yoe / 100) in
  let mp := (5 * doy + 2) / 153 in
  let d := doy - (153 * mp + 2) / 5 + 1 in
  let m := if mp <? 10 then mp + 3 else mp - 9 in
  mkDate (if m <=? 2 then y + 1 else y) m d.

Definition days_from_civil (y0 m d : Z) : Z :=
  let y := if m <=? 2 then y0 - 1 else y0 in
  let era := y / 400 in
  let yoe := y - era * 400 in
  let mp := if 2 <? m then m - 3 else m + 9 in
  let doy := (153 * mp + 2) / 5 + d - 1 in
  let doe := yoe * 365 + yoe / 4 - yoe / 100 + doy in
  era * 146097 + doe - 719468.

(** Monday = 0 ... Sunday = 6, as pandas' [day_of_week]; 1970-01-01 was a
    Thursday. *)
Definition weekday_of_days (days : Z) : Z := (days + 3) mod 7.

Definition day_name_of (dow : Z) : string :=
  match dow with
  | 0 => "Monday" | 1 => "Tuesday" | 2 => "Wednesday" | 3 => "Thursday"
  | 4 => "Friday" | 5 => "Saturday" | _ => "Sunday"
  end.

Definition month_name_of (m : Z) : string :=
  match m with
  | 1 => "January" | 2 => "February" | 3 => "March" | 4 => "April"
  | 5 => "May" | 6 => "June" | 7 => "July" | 8 => "August"
  | 9 => "September" | 10 => "October" | 11 => "November" | _ => "December"
  end.

(** pytz's table for America/New_York, as pandas reads it off the zone
    object ([_utc_transition_times] and the UTC offsets of
    [_transition_info]): the 236 transitions of the tz database from
    1883-11-18 to 2037-11-01, each a UTC instant in seconds since the epoch
    with the offset from UTC, in seconds, that holds from that instant on.
    The table stops in 2037: pytz has no rule for later years. *)
Definition ny_transitions : list (Z * Z) :=
  [(-2717650800, -18000); (-1633280400, -14400); (-1615140000, -18000);
   (-1601830800, -14400); (-1583690400, -18000); (-1570381200, -14400);
   (-1551636000, -18000); (-1536512400, -14400); (-1523210400, -18000);
   (-1504458000, -14400); (-1491760800, -18000); (-1473008400, -14400);
   (-1459706400, -18000); (-1441558800, -14400); (-1428256800, -18000);
   (-1410109200, -14400); (-1396807200, -18000); (-1378659600, -14400);
   (-1365357600, -18000); (-1347210000, -14400); (-1333908000, -18000);
   (-1315155600, -14400); (-1301853600, -18000); (-1283706000, -14400);
   (-1270404000, -18000); (-1252256400, -14400); (-1238954400, -18000);
   (-1220806800, -14400); (-1207504800, -18000); (-1189357200, -14400);
   (-1176055200, -18000); (-1157302800, -14400); (-1144605600, -18000);
   (-1125853200, -14400); (-1112551200, -18000); (-1094403600, -14400);
   (-1081101600, -18000); (-1062954000, -14400); (-1049652000, -18000);
   (-1031504400, -14400); (-1018202400, -18000); (-1000054800, -14400);
   (-986752800, -18000); (-968000400, -14400); (-955303200, -18000);
   (-936550800, -14400); (-923248800, -18000); (-905101200, -14400);
   (-891799200, -18000); (-880218000, -14400); (-769395600, -14400);
   (-765396000, -18000); (-747248400, -14400); (-733946400, -18000);
   (-715798800, -14400); (-702496800, -18000); (-684349200, -14400);
   (-671047200, -18000); (-652899600, -14400); (-639597600, -18000);
   (-620845200, -14400); (-608148000, -18000); (-589395600, -14400);
   (-576093600, -18000); (-557946000, -14400); (-544644000, -18000);
   (-526496400, -14400); (-513194400, -18000); (-495046800, -14400);
   (-481744800, -18000); (-463597200, -14400); (-447271200, -18000);
   (-431542800, -14400); (-415821600, -18000); (-400093200, -14400);
   (-384372000, -18000); (-368643600, -14400); (-352922400, -18000);
   (-337194000, -14400); (-321472800, -18000); (-305744400, -14400);
   (-289418400, -18000); (-273690000, -14400); (-257968800, -18000);
   (-242240400, -14400); (-226519200, -18000); (-210790800, -14400);
   (-195069600, -18000); (-179341200, -14400); (-163620000, -18000);
   (-147891600, -14400); (-131565600, -18000); (-116442000, -14400);
   (-100116000, -18000); (-84387600, -14400); (-68666400, -18000);
   (-52938000, -14400); (-37216800, -18000); (-21488400, -14400);
   (-5767200, -18000); (9961200, -14400); (25682400, -18000);
   (41410800, -14400); (57736800, -18000); (73465200, -14400);
   (89186400, -18000); (104914800, -14400); (120636000, -18000);
   (126687600, -14400); (152085600, -18000); (162370800, -14400);
   (183535200, -18000); (199263600, -14400); (215589600, -18000);
   (230713200, -14400); (247039200, -18000); (262767600, -14400);
   (278488800, -18000); (294217200, -14400); (309938400, -18000);
   (325666800, -14400); (341388000, -18000); (357116400, -14400);
   (372837600, -18000); (388566000, -14400); (404892000, -18000);
   (420015600, -14400); (436341600, -18000); (452070000, -14400);
   (467791200, -18000); (483519600, -14400); (499240800, -18000);
   (514969200, -14400); (530690400, -18000); (544604400, -14400);
   (562140000, -18000); (576054000, -14400); (594194400, -18000);
   (607503600, -14400); (625644000, -18000); (638953200, -14400);
   (657093600, -18000); (671007600, -14400); (688543200, -18000);
   (702457200, -14400); (719992800, -18000); (733906800, -14400);
   (752047200, -18000); (765356400, -14400); (783496800, -18000);
   (796806000, -14400); (814946400, -18000); (828860400, -14400);
   (846396000, -18000); (860310000, -14400); (877845600, -18000);
   (891759600, -14400); (909295200, -18000); (923209200, -14400);
   (941349600, -18000); (954658800, -14400); (972799200, -18000);
   (986108400, -14400); (1004248800, -18000); (1018162800, -14400);
   (1035698400, -18000); (1049612400, -14400); (1067148000, -18000);
   (1081062000, -14400); (1099202400, -18000); (1112511600, -14400);
   (1130652000, -18000); (1143961200, -14400); (1162101600, -18000);
   (1173596400, -14400); (1194156000, -18000); (1205046000, -14400);
   (1225605600, -18000); (1236495600, -14400); (1257055200, -18000);
   (1268550000, -14400); (1289109600, -18000); (1299999600, -14400);
   (1320559200, -18000); (1331449200, -14400); (1352008800, -18000);
   (1362898800, -14400); (1383458400, -18000); (1394348400, -14400);
   (1414908000, -18000); (1425798000, -14400); (1446357600, -18000);
   (1457852400, -14400); (1478412000, -18000); (1489302000, -14400);
   (1509861600, -18000); (1520751600, -14400); (1541311200, -18000);
   (1552201200, -14400); (1572760800, -18000); (1583650800, -14400);
   (1604210400, -18000); (1615705200, -14400); (1636264800, -18000);
   (1647154800, -14400); (1667714400, -18000); (1678604400, -14400);
   (1699164000, -18000); (1710054000, -14400); (1730613600, -18000);
   (1741503600, -14400); (1762063200, -18000); (1772953200, -14400);
   (1793512800, -18000); (1805007600, -14400); (1825567200, -18000);
   (1836457200, -14400); (1857016800, -18000); (1867906800, -14400);
   (1888466400, -18000); (1899356400, -14400); (1919916000, -18000);
   (1930806000, -14400); (1951365600, -18000); (1962860400, -14400);
   (1983420000, -18000); (1994310000, -14400); (2014869600, -18000);
   (2025759600, -14400); (2046319200, -18000); (2057209200, -14400);
   (2077768800, -18000); (2088658800, -14400); (2109218400, -18000);
   (2120108400, -14400); (2140668000, -18000)].

(** The offset of the table's first entry (local mean time, -4:56:02, which
    pytz rounds to the minute): it holds before the first transition. *)
Definition ny_lmt : Z := -17760.

(** [deltas[trans.searchsorted(utc, side="right") - 1]]: the offset of the
    last transition at or before [utc], [current] when there is none.  The
    transitions are in increasing order. *)
Fixpoint offset_at (transitions : list (Z * Z)) (current utc : Z) : Z :=
  match transitions with
  | [] => current
  | (t, off) :: rest =>
      if t <=? utc then offset_at rest off utc else current
  end.

(** Offset from UTC, in seconds, of zone [z] at the UTC instant
    [utc_seconds]. *)
Definition utcoffset (z : Tz) (utc_seconds : Z) : Z :=
  match z with
  | UTC => 0
  | America_New_York => offset_at ny_transitions ny_lmt utc_seconds
  | FixedOffset s => s
  end.

(** [Series.dt.tz_localize('UTC')]: only a naive column can be localized;
    the stored values are unchanged because UTC has offset zero. *)
Definition tz_localize_UTC (dtype : option Tz) : Result Tz :=
  match dtype with
  | None => Ok UTC
  | Some _ => Raise (TypeError "Already tz-aware, use tz_convert to convert.")
  end.

(** [Series.dt.tz_convert(tz)]: only an aware column can be converted; the
    stored instants are unchanged, only the zone of the dtype changes. *)
Definition tz_convert (z : Tz) (dtype : option Tz) : Result Tz :=
  match dtype with
  | Some _ => Ok z
  | None => Raise (TypeError "Cannot convert tz-naive timestamps, use tz_localize to localize")
  end.

(** Wall-clock reading, in whole seconds since the epoch, of the cell
    [value] of a column in zone [z]. *)
Definition wall_seconds (z : Tz) (value : Z) : Z :=
  let utc := value / NS_PER_SECOND in
  utc + utcoffset z utc.

Definition dt_date (z : Tz) (value : Z) : Date :=
  civil_from_days (wall_seconds z value / SECONDS_PER_DAY).
Definition dt_year (z : Tz) (value : Z) : Z := d_year (dt_date z value).
Definition dt_month (z : Tz) (value : Z) : Z := d_month (dt_date z value).
Definition dt_hour (z : Tz) (value : Z) : Z :=
  (wall_seconds z value mod SECONDS_PER_DAY) / 3600.
Definition dt_day_of_week (z : Tz) (value : Z) : Z :=
  weekday_of_days (wall_seconds z value / SECONDS_PER_DAY).
Definition dt_day_name (z : Tz) (value : Z) : string :=
  day_name_of (dt_day_of_week z value).
Definition dt_month_name (z : Tz) (value : Z) : string :=
  month_name_of (dt_month z value).

(** [str.zfill(width)] on the decimal digits of a non-negative number. *)
Definition zfill (width : nat) (s : string) : string :=
  String.concat "" (repeat "0" (width - String.length s)) ++ s.

(** [date.isoformat()]: YYYY-MM-DD. *)
Definition isoformat (d : Date) : string :=
  zfill 4 (pretty (d_year d)) ++ "-" ++ zfill 2 (pretty (d_month d)) ++ "-"
  ++ zfill 2 (pretty (d_day d)).

(** The value of the naive timestamp [y-m-d hh:mm:ss]. *)
Definition naive_timestamp (y m d hh mm ss : Z) : Z :=
  (days_from_civil y m d * SECONDS_PER_DAY + hh * 3600 + mm * 60 + ss)
  * NS_PER_SECOND.

(** [Series.fillna(other)], cell by cell. *)
Definition fillna {A : Type} (x other : option A) : option A :=
  match x with
  | Some v => Some v
  | None => other
  end.

(** [sorted(series.unique())] on integers. *)
Fixpoint insert_sorted (x : Z) (l : list Z) : list Z :=
  match l with
  | [] => [x]
  | y :: l' =>
      if x <? y then x :: y :: l'
      else if x =? y then y :: l'
      else y :: insert_sorted x l'
  end.

Definition sorted_unique (l : list Z) : list Z :=
  fold_right insert_sorted [] l.

End Pandas.

(** ** process_311.py *)

Module Process.
Import Pandas.

(** The columns that pass through the transform: the categorical fields,
    the coordinates and the identifier. *)
Record Attrs : Type := mkAttrs {
  unique_key : option string;
  agency : option string;
  complaint_type : option string;
  descriptor : option string;
  status : option string;
  borough : option string;
  incident_zip : option string;
  city : option string;
  open_data_channel_type : option string;
  latitude : option Q;
  longitude : option Q
}.

(** One row of a raw page file.  A cell of a column the frame does not have
    is [None]. *)
Record RawRow : Type := mkRawRow {
  raw_attrs : Attrs;
  created_date : option Z;
  closed_date : option Z;
  resolution_action_updated_date : option Z
}.

(** The loaded raw table: its column names, the dtype of its timestamp
    columns ([None] = timezone-naive) and its rows. *)
Record RawFrame : Type := mkRawFrame {
  raw_columns : list string;
  raw_tz : option Tz;
  raw_rows : list RawRow
}.

Record CleanRow : Type := mkCleanRow {
  attrs : Attrs;
  created_dt : Z;
  date : Date;
  hour : Z;
  day_of_week : Z;
  dow_name : string;
  month : Z;
  month_name : string;
  is_holiday : bool;
  response_hours : option Q;
  within_sla : bool
}.

Record CleanFrame : Type := mkCleanFrame {
  clean_columns : list string;
  clean_tz : Tz;
  clean_rows : list CleanRow
}.

(** What the module reads from its process and from the libraries it
    imports: the SLA_HOURS environment variable, whether the optional
    packages import, and the library functions that are used as black boxes
    (python-holidays' [US(state, years)] calendar, [str.strip], [str.title],
    [pd.concat]). *)
Record Env : Type := mkEnv {
  SLA_HOURS : Q;
  HOLIDAYS_AVAILABLE : bool;
  pyarrow_available : bool;
  US : string -> list Z -> Date -> bool;
  str_strip : string -> string;
  str_title : string -> string;
  pd_concat : list RawFrame -> RawFrame
}.

Definition holidays_warning : string :=
  "python-holidays not installed; 'is_holiday' will be all False." ++
  "Install the 'holidays' package to enable holiday detection.".

(** The module's top level: [try: from holidays import US ... except:].
    Returns the flag and the warnings emitted while importing. *)
Definition import_holidays (installed : bool) : bool * list string :=
  if installed then (true, []) else (false, [holidays_warning]).

Definition NS_PER_HOUR : positive := 3600000000000.

Definition derived_columns : list string :=
  ["response_hours"; "within_sla"; "created_dt"; "date"; "hour";
   "day_of_week"; "dow_name"; "month"; "month_name"; "is_holiday"].

Definition keep : list string :=
  ["unique_key"; "created_dt"; "date"; "hour"; "day_of_week"; "dow_name";
   "month"; "month_name"; "is_holiday"; "borough"; "complaint_type";
   "descriptor"; "agency"; "status"; "open_data_channel_type";
   "response_hours"; "within_sla"; "latitude"; "longitude"; "incident_zip";
   "city"].

Section Transform.
Variable env : Env.

(** [Series.le(SLA_HOURS)]: a comparison with NaN is False. *)
Definition series_le (x : option Q) (bound : Q) : bool :=
  match x with
  | Some v => Qle_bool v bound
  | None => false
  end.

(** [if df["created_dt"].dt.tz is None: ... else: ...] *)
Definition created_dt_dtype (dtype : option Tz) : Result Tz :=
  match dtype with
  | None =>
      let* utc := tz_localize_UTC dtype in
      tz_convert America_New_York (Some utc)
  | Some _ => tz_convert America_New_York dtype
  end.

(** [df[c] = df[c].astype("string").str.strip()] when the column exists. *)
Definition strip_if (cols : list string) (c : string) (x : option string)
  : option string :=
  if has_column c cols then option_map (str_strip env) x else x.

Definition normalize_city (cols : list string) (city0 borough0 : option string)
  : option string :=
  if has_column "city" cols then
    let c1 := if has_column "borough" cols then fillna city0 borough0 else city0 in
    let c2 := option_map (fun s => str_strip env (str_title env s)) c1 in
    fillna c2 (Some "Unknown")
  else city0.

Definition cleanup (cols : list string) (a : Attrs) : Attrs :=
  let borough' := strip_if cols "borough" (borough a) in
  let city' := strip_if cols "city" (city a) in
  {| unique_key := unique_key a;
     agency := strip_if cols "agency" (agency a);
     complaint_type := strip_if cols "complaint_type" (complaint_type a);
     descriptor := strip_if cols "descriptor" (descriptor a);
     status := strip_if cols "status" (status a);
     borough := borough';
     incident_zip := strip_if cols "incident_zip" (incident_zip a);
     city := normalize_city cols city' borough';
     open_data_channel_type :=
       strip_if cols "open_data_channel_type" (open_data_channel_type a);
     latitude := latitude a;
     longitude := longitude a |}.

(** The hours between two datetime64[ns] values:
    [(end - created).dt.total_seconds() / 3600.0], as an exact rational.
    The difference is taken in unbounded integers and the quotient is not
    rounded: pandas holds the difference in int64 nanoseconds (it raises
    OverflowError for a span of more than about 292 years) and the hours in
    a float64; neither limit is modelled. *)
Definition hours_between (created finish : Z) : Q :=
  (finish - created) # NS_PER_HOUR.

(** The work [engineer] does on one row; a row without a creation timestamp
    is dropped. *)
Definition engineer_row (cols : list string) (tz : Tz)
    (ny_holidays : Date -> bool) (r : RawRow) : option CleanRow :=
  match created_date r with
  | None => None
  | Some created =>
      let response_end :=
        fillna (closed_date r) (resolution_action_updated_date r) in
      let hours := option_map (hours_between created) response_end in
      Some {| attrs := cleanup cols (raw_attrs r);
              created_dt := created;
              date := dt_date tz created;
              hour := dt_hour tz created;
              day_of_week := dt_day_of_week tz created;
              dow_name := dt_day_name tz created;
              month := dt_month tz created;
              month_name := dt_month_name tz created;
              is_holiday := ny_holidays (dt_date tz created);
              response_hours := hours;
              within_sla := series_le hours (SLA_HOURS env) |}
  end.

Definition engineer (df : RawFrame) : Result CleanFrame :=
  let cols := raw_columns df in
  let* _ := require_column "created_date" cols in
  let* _ := require_column "closed_date" cols in
  let* _ := require_column "resolution_action_updated_date" cols in
  let* tz := created_dt_dtype (raw_tz df) in
  let created := omap created_date (raw_rows df) in
  let ny_holidays :=
    if HOLIDAYS_AVAILABLE env
    then US env "NY" (sorted_unique (map (dt_year tz) created))
    else fun _ => false in
  Ok {| clean_columns :=
          List.filter (fun c => has_column c (cols ++ derived_columns)) keep;
        clean_tz := tz;
        clean_rows := omap (engineer_row cols tz ny_holidays) (raw_rows df) |}.

(** *** The schema guard of [main] *)

Definition expected : list string :=
  ["unique_key"; "created_dt"; "borough"; "complaint_type"; "descriptor";
   "response_hours"; "within_sla"; "hour"; "dow_name"; "month_name"].

Definition missing_columns (columns : list string) : list string :=
  List.filter (fun c => negb (has_column c columns)) expected.

Fixpoint insert_string (s : string) (l : list string) : list string :=
  match l with
  | [] => [s]
  | t :: l' => if String.leb s t then s :: t :: l' else t :: insert_string s l'
  end.

Definition sorted_strings (l : list string) : list string :=
  fold_right insert_string [] l.

(** Python's [repr] of a list of plain strings. *)
Definition repr_list (l : list string) : string :=
  "[" ++ String.concat ", " (map (fun s => "'" ++ s ++ "'") l) ++ "]".

(** [Series.is_unique]; a null key counts as a value. *)
Definition is_unique (keys : list (option string)) : bool :=
  bool_decide (NoDup keys).

(** [Series.dropna().ge(0).all()] *)
Definition all_non_negative (xs : list (option Q)) : bool :=
  forallb (fun x => match x with Some v => Qle_bool 0 v | None => true end) xs.

Definition schema_guard (clean : CleanFrame) : Result unit :=
  let missing := missing_columns (clean_columns clean) in
  match missing with
  | _ :: _ =>
      Raise (AssertionError
               ("Missing columns: " ++ repr_list (sorted_strings missing)))
  | [] =>
      if negb (is_unique (map (fun r => unique_key (attrs r)) (clean_rows clean)))
      then Raise (AssertionError "unique_key has duplicates")
      else if negb (all_non_negative (map response_hours (clean_rows clean)))
      then Raise (AssertionError "negative response_hours found")
      else Ok tt
  end.

(** *** Files *)

Inductive Printed : Type :=
| SavedCleanDataset (rows : nat)
| WrotePartitionedDataset
| SkippingPartitionedWrite.

(** The part of the file system the script touches: the page files found
    by the glob over data/raw, the directory data/processed and the
    consolidated file in it, the partition files under data/processed_part
    keyed by (year, month), and what was printed. *)
Record FS : Type := mkFS {
  raw_files : list RawFrame;
  processed_dir : bool;
  clean_parquet : option CleanFrame;
  processed_part : gmap (Z * Z) (list CleanRow);
  stdout : list Printed
}.

Definition load_raw (fs : FS) : Result RawFrame :=
  match raw_files fs with
  | [] =>
      Raise (SystemExit
        "No raw parquet files found in data/raw/. Run ingest_311.py first.")
  | files => Ok (pd_concat env files)
  end.

Definition partition_key (tz : Tz) (r : CleanRow) : Z * Z :=
  (dt_year tz (created_dt r), dt_month tz (created_dt r)).

(** [ds.write_dataset(..., partitioning=["year","month"],
    existing_data_behavior="overwrite_or_ignore")]: every partition of the
    new table replaces the file of the same key, other keys are left as they
    are.  A partition is given as the list of its rows in the order of the
    table; pyarrow does not promise that order. *)
Definition write_dataset (clean : CleanFrame)
    (existing : gmap (Z * Z) (list CleanRow)) : gmap (Z * Z) (list CleanRow) :=
  let tz := clean_tz clean in
  let rows := clean_rows clean in
  fold_right
    (fun k parts =>
       <[ k := List.filter (fun r => bool_decide (partition_key tz r = k)) rows ]>
         parts)
    existing (map (partition_key tz) rows).

(** [main].  Reading and writing parquet files are taken to succeed:
    [pyarrow_available] only decides the import inside the [try], and so
    whether the partitioned dataset is written.  (A missing parquet engine
    makes [pd.read_parquet] raise, and a [to_parquet] that fails raises
    after data/processed has been created; these failures are not
    modelled.) *)
Definition main (fs : FS) : FS * Result unit :=
  match load_raw fs with
  | Raise e => (fs, Raise e)
  | Ok df =>
  match engineer df with
  | Raise e => (fs, Raise e)
  | Ok clean =>
  match schema_guard clean with
  | Raise e => (fs, Raise e)
  | Ok _ =>
      let fs1 :=
        {| raw_files := raw_files fs;
           processed_dir := true;
           clean_parquet := Some clean;
           processed_part := processed_part fs;
           stdout := stdout fs ++ [SavedCleanDataset (length (clean_rows clean))] |} in
      if pyarrow_available env then
        ({| raw_files := raw_files fs1;
            processed_dir := processed_dir fs1;
            clean_parquet := clean_parquet fs1;
            processed_part := write_dataset clean (processed_part fs1);
            stdout := stdout fs1 ++ [WrotePartitionedDataset] |}, Ok tt)
      else
        ({| raw_files := raw_files fs1;
            processed_dir := processed_dir fs1;
            clean_parquet := clean_parquet fs1;
            processed_part := processed_part fs1;
            stdout := stdout fs1 ++ [SkippingPartitionedWrite] |}, Ok tt)
  end end end.

End Transform.
End Process.

(** ** ingest_311.py *)

Module Ingest.
Import Pandas.

Definition SELECT_COLS : list string :=
  ["unique_key"; "created_date"; "closed_date";
   "resolution_action_updated_date"; "agency"; "complaint_type"; "descriptor";
   "status"; "borough"; "incident_zip"; "city"; "open_data_channel_type";
   "latitude"; "longitude"].

(** The [where] filter: [created_date between '<since>T00:00:00' and
    '<until>T23:59:59']. *)
Record Where : Type := mkWhere { since_iso : Date; until_iso : Date }.

Inductive Select : Type :=
| Count1
| Columns (cols : list string).

(** The keyword arguments handed to [client.get]. *)
Record Query : Type := mkQuery {
  q_select : Select;
  q_where : Where;
  q_order : option string;
  q_limit : option Z;
  q_offset : option Z
}.

(** One dict of a response: the single row of a [count(1)] query or a
    service request. *)
Inductive ApiRow (Rec : Type) : Type :=
| CountRow (count_1 : Z)
| Request (r : Rec).
Arguments CountRow {Rec} count_1.
Arguments Request {Rec} r.

(** The name of a page file:
    [nyc311_<since_tag>_<page_idx:05d>.parquet]. *)
Record PagePath : Type := mkPagePath { since_tag : Date; page_index : Z }.

Inductive LogRecord : Type :=
| WarningRequestFailed (attempt max_retries : Z) (exc : string)
| ErrorMaxRetries
| InfoWhere (w : Where)
| InfoCounting
| InfoFetching (total_to_fetch pages page_size : Z)
| InfoDryRun (rows : nat) (path : PagePath)
| InfoWrote (rows : nat) (path : PagePath)
| InfoDone (written : Z).

Record Args : Type := mkArgs {
  page_size : Z;
  limit : option Z;
  max_retries : Z;
  dry_run : bool
}.

(** Python's truth value of [args.limit]: [None] and [0] are false. *)
Definition truthy (x : option Z) : bool :=
  match x with
  | Some n => negb (n =? 0)
  | None => false
  end.

(** Python's truth value of a list that may be [None]. *)
Definition non_empty {A : Type} (x : option (list A)) : bool :=
  match x with
  | Some (_ :: _) => true
  | _ => false
  end.

Definition path_eqb (a b : PagePath) : bool :=
  (d_year (since_tag a) =? d_year (since_tag b))
  && (d_month (since_tag a) =? d_month (since_tag b))
  && (d_day (since_tag a) =? d_day (since_tag b))
  && (page_index a =? page_index b).

(** Python compares dates as (year, month, day). *)
Definition date_gt (a b : Date) : bool :=
  (d_year b <? d_year a)
  || ((d_year a =? d_year b)
      && ((d_month b <? d_month a)
          || ((d_month a =? d_month b) && (d_day b <? d_day a)))).

Section WithClient.
Context {Rec C : Type}.

(** [client.get(dataset, **kwargs)] on a client in state [C]: the rows, or
    the exception raised, and the client's next state. *)
Variable client_get : C -> Query -> Result (list (ApiRow Rec)) * C.

(** The dtype standardisation done on each page before it is written
    ([pd.to_datetime] and [pd.to_numeric] with [errors="coerce"]), cell by
    cell. *)
Variable standardize : ApiRow Rec -> ApiRow Rec.

(** What a run acts on: the client, the calls made on it, the log, the
    sleeps taken and the page files written. *)
Record World : Type := mkWorld {
  client : C;
  requests : list Query;
  log : list LogRecord;
  slept : list Z;
  files : list (PagePath * list (ApiRow Rec))
}.

Definition logging (r : LogRecord) (w : World) : World :=
  {| client := client w; requests := requests w; log := log w ++ [r];
     slept := slept w; files := files w |}.

Definition time_sleep (seconds : Z) (w : World) : World :=
  {| client := client w; requests := requests w; log := log w;
     slept := slept w ++ [seconds]; files := files w |}.

(** [df.to_parquet(out_path)]: a file of the same name is replaced. *)
Definition to_parquet (path : PagePath) (df : list (ApiRow Rec)) (w : World)
  : World :=
  {| client := client w; requests := requests w; log := log w;
     slept := slept w;
     files := List.filter (fun f => negb (path_eqb (fst f) path)) (files w)
              ++ [(path, df)] |}.

Definition call_get (q : Query) (w : World)
  : Result (list (ApiRow Rec)) * World :=
  let (r, c') := client_get (client w) q in
  (r, {| client := c'; requests := requests w ++ [q]; log := log w;
         slept := slept w; files := files w |}).

(** The [for attempt in range(1, max_retries + 1)] loop of
    [get_with_retry]; [n] counts the iterations left.  Falling off the end
    of the loop returns [None]. *)
Fixpoint retry_loop (n : nat) (attempt backoff max_retries : Z) (q : Query)
    (w : World) : Result (option (list (ApiRow Rec))) * World :=
  match n with
  | O => (Ok None, w)
  | S n' =>
      match call_get q w with
      | (Ok rows, w1) => (Ok (Some rows), w1)
      | (Raise (RequestException exc), w1) =>
          let w2 := logging (WarningRequestFailed attempt max_retries exc) w1 in
          if attempt =? max_retries
          then (Raise (RequestException exc), logging ErrorMaxRetries w2)
          else retry_loop n' (attempt + 1) (Z.min (backoff * 2) 30)
                 max_retries q (time_sleep backoff w2)
      | (Raise e, w1) => (Raise e, w1)
      end
  end.

Definition get_with_retry (max_retries : Z) (q : Query) (w : World)
  : Result (option (list (ApiRow Rec))) * World :=
  retry_loop (Z.to_nat max_retries) 1 1 max_retries q w.

(** [int(count_res[0]["count_1"]) if count_res else 0] *)
Definition count_of (count_res : option (list (ApiRow Rec))) : Result Z :=
  match count_res with
  | Some (CountRow n :: _) => Ok n
  | Some (Request _ :: _) => Raise (KeyError "count_1")
  | _ => Ok 0
  end.

(** [math.ceil(total_to_fetch / page_size) if total_to_fetch else 0], with
    the quotient taken exactly.  Python takes it in floating point
    ([page_count_float] below), which gives the same count for fewer than
    2^53 rows and page sizes up to 2^1022; the run is modelled with the
    exact count. *)
Definition page_count (total_to_fetch page_size : Z) : Result Z :=
  if total_to_fetch =? 0 then Ok 0
  else if page_size =? 0 then Raise ZeroDivisionError
  else Ok (- ((- total_to_fetch) / page_size)).

(** The nearest integer to [n / d] for [d > 0], ties to the even one. *)
Definition round_half_even (n d : Z) : Z :=
  let q := n / d in
  let r := n mod d in
  if 2 * r <? d then q
  else if d <? 2 * r then q + 1
  else if Z.even q then q else q + 1.

(** [floor(log2(a / b))] for positive [a] and [b]. *)
Definition quot_log2 (a b : Z) : Z :=
  let k := Z.log2 a - Z.log2 b in
  if a * 2 ^ Z.max 0 (- k) <? b * 2 ^ Z.max 0 k then k - 1 else k.

(** Python's [a / b] on two ints: the float nearest to the exact quotient
    (53 significant bits, ties to even, subnormal below 2^-1022), given as
    a pair [(m, e)] that stands for [m * 2^e]; ZeroDivisionError for
    [b = 0], OverflowError from 2^1024 on. *)
Definition int_truediv (a b : Z) : Result (Z * Z) :=
  if b =? 0 then Raise ZeroDivisionError
  else if a =? 0 then Ok (0, 0)
  else
    let x := Z.abs a in
    let y := Z.abs b in
    let e := Z.max (quot_log2 x y - 52) (-1074) in
    let m := round_half_even (x * 2 ^ Z.max 0 (- e)) (y * 2 ^ Z.max 0 e) in
    if (0 <=? e) && (2 ^ 1024 <=? m * 2 ^ e)
    then Raise (OtherError "integer division result too large for a float")
    else Ok (Z.sgn a * Z.sgn b * m, e).

(** [math.ceil] of the float [m * 2^e]. *)
Definition math_ceil (x : Z * Z) : Z :=
  let '(m, e) := x in
  if 0 <=? e then m * 2 ^ e else - ((- m) / 2 ^ (- e)).

(** [math.ceil(total_to_fetch / page_size) if total_to_fetch else 0], with
    the quotient computed in floating point as Python does. *)
Definition page_count_float (total_to_fetch page_size : Z) : Result Z :=
  if total_to_fetch =? 0 then Ok 0
  else
    let* q := int_truediv total_to_fetch page_size in
    Ok (math_ceil q).

Definition page_query (wh : Where) (this_limit offset : Z) : Query :=
  {| q_select := Columns SELECT_COLS; q_where := wh;
     q_order := Some "created_date ASC";
     q_limit := Some this_limit; q_offset := Some offset |}.

Definition count_query (wh : Where) : Query :=
  {| q_select := Count1; q_where := wh; q_order := None;
     q_limit := None; q_offset := None |}.

(** The head of the loop body: the size of the next page, or [None] to
    leave the loop when the limit is reached. *)
Definition this_limit_of (args : Args) (written : Z) : option Z :=
  if truthy (limit args) then
    let remaining := default 0 (limit args) - written in
    if remaining <=? 0 then None
    else Some (Z.min (page_size args) remaining)
  else Some (page_size args).

(** The [while True] loop of [main].  [fuel] bounds the number of
    iterations; [None] means the bound was reached.  The result is the
    final value of [written]. *)
Fixpoint page_loop (fuel : nat) (args : Args) (wh : Where) (tag : Date)
    (offset page_idx written : Z) (w : World) : option (Result Z * World) :=
  match fuel with
  | O => None
  | S fuel' =>
      match this_limit_of args written with
      | None => Some (Ok written, w)
      | Some this_limit =>
          match get_with_retry (max_retries args)
                  (page_query wh this_limit offset) w with
          | (Raise e, w1) => Some (Raise e, w1)
          | (Ok rows, w1) =>
              if negb (non_empty rows) then Some (Ok written, w1)
              else
                let df := map standardize (default [] rows) in
                let page_idx := page_idx + 1 in
                let written := written + Z.of_nat (length df) in
                let out_path := mkPagePath tag page_idx in
                let w2 :=
                  if dry_run args
                  then logging (InfoDryRun (length df) out_path) w1
                  else logging (InfoWrote (length df) out_path)
                         (to_parquet out_path df w1) in
                if Z.of_nat (length df) <? this_limit then Some (Ok written, w2)
                else if truthy (limit args) && (default 0 (limit args) <=? written)
                then Some (Ok written, w2)
                else page_loop fuel' args wh tag (offset + this_limit)
                       page_idx written w2
          end
      end
  end.

(** [main] from the validation of the resolved date range on.  (The
    resolution of [since_date] and [until_date] from the command line, the
    environment and the clock comes before and is not modelled.) *)
Definition main (fuel : nat) (args : Args) (since_date until_date : Date)
    (w : World) : option (Result Z * World) :=
  if date_gt since_date until_date
  then Some (Raise (SystemExit ("since (" ++ isoformat since_date
                                ++ ") is after until ("
                                ++ isoformat until_date ++ ")")), w)
  else
    let wh := mkWhere since_date until_date in
    let w := logging (InfoWhere wh) w in
    let counted :=
      if truthy (limit args) then (Ok (default 0 (limit args)), w)
      else
        match get_with_retry (max_retries args) (count_query wh)
                (logging InfoCounting w) with
        | (Raise e, w1) => (Raise e, w1)
        | (Ok count_res, w1) => (count_of count_res, w1)
        end in
    match counted with
    | (Raise e, w1) => Some (Raise e, w1)
    | (Ok total_to_fetch, w1) =>
        match page_count total_to_fetch (page_size args) with
        | Raise e => Some (Raise e, w1)
        | Ok pages =>
            let w2 := logging (InfoFetching total_to_fetch pages (page_size args)) w1 in
            match page_loop fuel args wh since_date 0 0 0 w2 with
            | None => None
            | Some (Raise e, w3) => Some (Raise e, w3)
            | Some (Ok written, w3) =>
                Some (Ok written, logging (InfoDone written) w3)
            end
        end
    end.

End WithClient.

(** A remote that serves consistent pages of a fixed result set [data]
    and never fails: the rows from [offset] on, at most [limit] of them. *)
Definition consistent_get {Rec : Type} (data : list Rec) (c : unit) (q : Query)
  : Result (list (ApiRow Rec)) * unit :=
  match q_select q with
  | Count1 => (Ok [CountRow (Z.of_nat (length data))], c)
  | Columns _ =>
      let rows := drop (Z.to_nat (default 0 (q_offset q))) data in
      let rows := match q_limit q with
                  | Some n => take (Z.to_nat n) rows
                  | None => rows
                  end in
      (Ok (map Request rows), c)
  end.

End Ingest.

(** ** scripts/precompute_summaries.py *)

Module Summaries.
Import Pandas.

(** The columns of the partitioned dataset that the queries read. *)
Record Ticket : Type := mkTicket {
  created_dt : option Z;
  borough : option string;
  complaint_type : option string;
  response_hours : option Q
}.

(** SQL comparisons are three-valued: a NULL operand gives NULL. *)
Definition sql_le (x : option Q) (y : Q) : option bool :=
  option_map (fun v => Qle_bool v y) x.

Definition sql_gt (x : option Q) (y : Q) : option bool :=
  option_map (fun v => negb (Qle_bool v y)) x.

(** [CASE WHEN c THEN 1 ELSE 0 END]: the ELSE branch is taken when [c] is
    false and when it is NULL. *)
Definition case_when_1_else_0 (c : option bool) : Z :=
  match c with
  | Some true => 1
  | _ => 0
  end.

Definition sum_Z (xs : list Z) : Z := fold_right Z.add 0 xs.
Definition sum_Q (xs : list Q) : Q := fold_right Qplus 0%Q xs.

(** [avg] over the rows of a group; NULL for no rows. *)
Definition avg (xs : list Z) : option Q :=
  match xs with
  | [] => None
  | _ => Some (sum_Z xs # Pos.of_nat (length xs))
  end.

Fixpoint insert_Q (x : Q) (l : list Q) : list Q :=
  match l with
  | [] => [x]
  | y :: l' => if Qle_bool x y then x :: y :: l' else y :: insert_Q x l'
  end.

(** [median]: NULLs are ignored; the mean of the two middle values for an
    even count. *)
Definition median (xs : list (option Q)) : option Q :=
  let sorted := fold_right insert_Q [] (omap id xs) in
  let n := length sorted in
  if (n =? 0)%nat then None
  else if Nat.even n
  then Some ((nth (n / 2 - 1) sorted 0 + nth (n / 2) sorted 0) / 2)%Q
  else Some (nth (n / 2) sorted 0%Q).

(** [GROUP BY]: one group per distinct key, holding the rows of that key. *)
Definition group_by {A K : Type} `{EqDecision K} (key : A -> K) (rows : list A)
  : list (K * list A) :=
  map (fun k => (k, List.filter (fun r => bool_decide (key r = k)) rows))
      (remove_dups (map key rows)).

Definition pct_within_of (sla : Q) (group : list Ticket) : option Q :=
  avg (map (fun t => case_when_1_else_0 (sql_le (response_hours t) sla)) group).

Definition breach_rate_of (sla : Q) (group : list Ticket) : option Q :=
  avg (map (fun t => case_when_1_else_0 (sql_gt (response_hours t) sla)) group).

Record DailyRow : Type := mkDailyRow {
  dy_date : option Date;
  dy_borough : option string;
  dy_complaint_type : option string;
  dy_tickets : Z;
  dy_median_response : option Q;
  dy_pct_within : option Q
}.

Record ComplaintTypeRow : Type := mkComplaintTypeRow {
  ct_complaint_type : option string;
  ct_borough : option string;
  ct_tickets : Z;
  ct_breach_rate : Q
}.

Record DowHourRow : Type := mkDowHourRow {
  dh_dow_name : option string;
  dh_hour : option Z;
  dh_borough : option string;
  dh_complaint_type : option string;
  dh_tickets : Z;
  dh_breach_rate : option Q;
  dh_median_response : option Q
}.

Section Queries.
(** DuckDB's [CAST(. AS DATE)], [strftime(., '%A')] and
    [extract(hour from .)] on the stored timestamps. *)
Variable cast_date : Z -> Date.
Variable strftime_A : Z -> string.
Variable extract_hour : Z -> Z.

Variable sla : Q.

Definition scanned (rows : list Ticket) : list Ticket :=
  List.filter (fun t => bool_decide (is_Some (created_dt t))) rows.

(** [sql_daily], on the rows that [parquet_scan] has read (the ORDER BY is
    not modelled: the result is read as a set of rows). *)
Definition sql_daily (rows : list Ticket) : list DailyRow :=
  map (fun g =>
         let '(d, b, c) := fst g in
         {| dy_date := d; dy_borough := b; dy_complaint_type := c;
            dy_tickets := Z.of_nat (length (snd g));
            dy_median_response := median (map response_hours (snd g));
            dy_pct_within := pct_within_of sla (snd g) |})
      (group_by (fun t => (option_map cast_date (created_dt t), borough t,
                           complaint_type t))
                (scanned rows)).

(** [df_daily['tickets'] * (1.0 - df_daily['pct_within'])] *)
Definition breaches (d : DailyRow) : option Q :=
  option_map (fun p => inject_Z (dy_tickets d) * (1 - p))%Q (dy_pct_within d).

(** The complaint-type summary, aggregated from the daily one; nothing is
    produced when the daily summary is empty. *)
Definition complaint_type_summary (df_daily : list DailyRow)
  : option (list ComplaintTypeRow) :=
  match df_daily with
  | [] => None
  | _ =>
      Some (map (fun g =>
                   let tickets := sum_Z (map dy_tickets (snd g)) in
                   let br := sum_Q (omap breaches (snd g)) in
                   {| ct_complaint_type := fst (fst g);
                      ct_borough := snd (fst g);
                      ct_tickets := tickets;
                      ct_breach_rate :=
                        if tickets =? 0 then 0%Q
                        else (br / inject_Z tickets)%Q |})
                (group_by (fun d => (dy_complaint_type d, dy_borough d)) df_daily))
  end.

(** [sql_dow], on the rows of a second scan of the same files. *)
Definition sql_dow (rows : list Ticket) : list DowHourRow :=
  map (fun g =>
         let '(n, h, b, c) := fst g in
         {| dh_dow_name := n; dh_hour := h; dh_borough := b;
            dh_complaint_type := c;
            dh_tickets := Z.of_nat (length (snd g));
            dh_breach_rate := breach_rate_of sla (snd g);
            dh_median_response := median (map response_hours (snd g)) |})
      (group_by (fun t => (option_map strftime_A (created_dt t),
                           option_map extract_hour (created_dt t),
                           borough t, complaint_type t))
                (scanned rows)).

(** [parquet_scan('data/processed_part/*/*/part-*.parquet')]: the rows of
    the partition files that match the pattern; DuckDB raises an IO error
    when no file matches. *)
Definition parquet_scan (files : list (list Ticket)) : Result (list Ticket) :=
  match files with
  | [] => Raise (OtherError "IO Error: No files found that match the pattern")
  | _ => Ok (concat files)
  end.

(** The output directory and the three summary files in it. *)
Record Out : Type := mkOut {
  out_dir : bool;
  daily_summary : option (list DailyRow);
  complaint_type_summary_file : option (list ComplaintTypeRow);
  dow_hour_summary : option (list DowHourRow)
}.

(** The script from [OUT.mkdir] on: each query scans the partition files,
    each summary is written as soon as it is computed, and the
    complaint-type summary only [if len(df_daily)]. *)
Definition precompute_summaries (files : list (list Ticket)) (out : Out)
  : Out * Result unit :=
  let out0 :=
    mkOut true (daily_summary out) (complaint_type_summary_file out)
      (dow_hour_summary out) in
  match parquet_scan files with
  | Raise e => (out0, Raise e)
  | Ok rows =>
      let df_daily := sql_daily rows in
      let out1 :=
        mkOut true (Some df_daily) (complaint_type_summary_file out0)
          (dow_hour_summary out0) in
      let out2 :=
        match complaint_type_summary df_daily with
        | Some df_ct =>
            mkOut true (daily_summary out1) (Some df_ct) (dow_hour_summary out1)
        | None => out1
        end in
      match parquet_scan files with
      | Raise e => (out2, Raise e)
      | Ok rows' =>
          (mkOut true (daily_summary out2) (complaint_type_summary_file out2)
             (Some (sql_dow rows')), Ok tt)
      end
  end.

End Queries.

(** The rate the dashboard's own queries compute, with
    [AND response_hours IS NOT NULL] in their WHERE clause: the share, among
    the tickets that have a response time, of those satisfying [p]. *)
Definition rate_among_eligible (p : Q -> bool) (group : list Ticket) : option Q :=
  avg (map (fun h => if p h then 1 else 0) (omap response_hours group)).

End Summaries.

(** ** Sample inputs *)

Module Samples.
Import Pandas.

Definition no_attrs : Process.Attrs :=
  Process.mkAttrs None None None None None None None None None None None.

Definition attrs_of (key : string) : Process.Attrs :=
  Process.mkAttrs (Some key) (Some "NYPD") (Some "Noise") (Some "Loud Music")
    (Some "Closed") (Some "BROOKLYN") (Some "11201") None (Some "PHONE")
    None None.

(** A run-time environment: SLA_HOURS unset (24), no holidays package,
    pyarrow present; the string functions leave their argument alone and
    [pd.concat] appends the rows under the first frame's header. *)
Definition env24 : Process.Env :=
  {| Process.SLA_HOURS := 24;
     Process.HOLIDAYS_AVAILABLE := false;
     Process.pyarrow_available := true;
     Process.US := fun _ _ _ => false;
     Process.str_strip := fun s => s;
     Process.str_title := fun s => s;
     Process.pd_concat := fun frames =>
       match frames with
       | [] => Process.mkRawFrame [] None []
       | f :: _ =>
           Process.mkRawFrame (Process.raw_columns f) (Process.raw_tz f)
             (concat (map Process.raw_rows frames))
       end |}.

Definition frame_of (rows : list Process.RawRow) : Process.RawFrame :=
  Process.mkRawFrame Ingest.SELECT_COLS None rows.

(** Created 2024-06-01 10:00, never closed, never updated. *)
Definition open_ticket : Process.RawRow :=
  Process.mkRawRow (attrs_of "k1") (Some (naive_timestamp 2024 6 1 10 0 0))
    None None.

(** Created 2024-06-01 10:00, closed 14:00 the same day. *)
Definition closed_ticket : Process.RawRow :=
  Process.mkRawRow (attrs_of "k2") (Some (naive_timestamp 2024 6 1 10 0 0))
    (Some (naive_timestamp 2024 6 1 14 0 0)) None.

(** Created at midnight on new year's day 2024, closed an hour before. *)
Definition new_year_ticket : Process.RawRow :=
  Process.mkRawRow (attrs_of "k3") (Some (naive_timestamp 2024 1 1 0 0 0))
    (Some (naive_timestamp 2023 12 31 23 0 0)) None.

Definition empty_fs (files : list Process.RawFrame) : Process.FS :=
  Process.mkFS files false None ∅ [].

(** Tickets of one borough and complaint type, created at the same time:
    one without a response time, and one answered after [h] hours. *)
Definition unanswered : Summaries.Ticket :=
  Summaries.mkTicket (Some (naive_timestamp 2024 6 1 10 0 0))
    (Some "BROOKLYN") (Some "Noise") None.

Definition answered (h : Q) : Summaries.Ticket :=
  Summaries.mkTicket (Some (naive_timestamp 2024 6 1 10 0 0))
    (Some "BROOKLYN") (Some "Noise") (Some h).

Definition cast_date (t : Z) : Date := dt_date America_New_York t.
Definition strftime_A (t : Z) : string := dt_day_name America_New_York t.
Definition extract_hour (t : Z) : Z := dt_hour America_New_York t.

(** The two SQL summaries with these functions. *)
Definition daily (sla : Q) (rows : list Summaries.Ticket)
  : list Summaries.DailyRow :=
  Summaries.sql_daily cast_date sla rows.

Definition dow_hour (sla : Q) (rows : list Summaries.Ticket)
  : list Summaries.DowHourRow :=
  Summaries.sql_dow strftime_A extract_hour sla rows.

End Samples.

(** ** The daylight-time rule of the United States *)

Module UsRule.
Import Pandas.

(** Day of the month of the first Sunday of month [m] of year [y]. *)
Definition first_sunday (y m : Z) : Z :=
  1 + (6 - weekday_of_days (days_from_civil y m 1)) mod 7.

(** The United States rule for daylight time since 2007, in the rule's own
    words: from the second Sunday of March to the first Sunday of November,
    the clocks changing at 02:00 local time, that is at 07:00 UTC in March
    and at 06:00 UTC in November. *)
Definition us_dst_start (y : Z) : Z :=
  days_from_civil y 3 (first_sunday y 3 + 7) * SECONDS_PER_DAY + 7 * 3600.

Definition us_dst_end (y : Z) : Z :=
  days_from_civil y 11 (first_sunday y 11) * SECONDS_PER_DAY + 6 * 3600.

(** The pairs of a table with the instant of the entry that follows. *)
Fixpoint segments (transitions : list (Z * Z)) : list (Z * Z * option Z) :=
  match transitions with
  | [] => []
  | p :: rest => (p, option_map fst (head rest)) :: segments rest
  end.

Fixpoint increasing (transitions : list (Z * Z)) : bool :=
  match transitions with
  | [] => true
  | p :: rest =>
      match rest with
      | [] => true
      | q :: _ => (fst p <? fst q) && increasing rest
      end
  end.

Definition segment_eqb (s1 s2 : Z * Z * option Z) : bool :=
  (fst (fst s1) =? fst (fst s2)) && (snd (fst s1) =? snd (fst s2)) &&
  match snd s1, snd s2 with
  | Some a, Some b => a =? b
  | None, None => true
  | _, _ => false
  end.

(** The table follows the rule in year [y]: it switches to -4 h at the
    rule's start, to -5 h at the rule's end, and next at the start of the
    following year (or never again, in the table's last year). *)
Definition follows_rule (y : Z) : bool :=
  existsb (segment_eqb (us_dst_start y, -4 * 3600, Some (us_dst_end y)))
          (segments ny_transitions) &&
  existsb (segment_eqb (us_dst_end y, -5 * 3600,
                        if y <? 2037 then Some (us_dst_start (y + 1)) else None))
          (segments ny_transitions).

End UsRule.

(** ** Auxiliary notions used in the statements *)

Module Aux.
Import Process.

(** The environment [env] with the holidays package present or absent. *)
Definition with_holidays (available : bool) (env : Env) : Env :=
  {| SLA_HOURS := SLA_HOURS env;
     HOLIDAYS_AVAILABLE := available;
     pyarrow_available := pyarrow_available env;
     US := US env;
     str_strip := str_strip env;
     str_title := str_title env;
     pd_concat := pd_concat env |}.

Definition no_holiday (r : CleanRow) : CleanRow :=
  {| attrs := attrs r; created_dt := created_dt r; date := date r;
     hour := hour r; day_of_week := day_of_week r; dow_name := dow_name r;
     month := month r; month_name := month_name r; is_holiday := false;
     response_hours := response_hours r; within_sla := within_sla r |}.

(** The same table with the [is_holiday] column set to False. *)
Definition no_holidays (clean : CleanFrame) : CleanFrame :=
  {| clean_columns := clean_columns clean;
     clean_tz := clean_tz clean;
     clean_rows := map no_holiday (clean_rows clean) |}.

Definition result_map {A B : Type} (f : A -> B) (r : Result A) : Result B :=
  match r with
  | Ok a => Ok (f a)
  | Raise e => Raise e
  end.

(** *** Ingestion *)

Import Ingest.

Definition fresh_world {Rec C : Type} (c : C) : @World Rec C :=
  mkWorld c [] [] [] [].

Definition set_limit (l : option Z) (args : Args) : Args :=
  {| page_size := page_size args; limit := l;
     max_retries := max_retries args; dry_run := dry_run args |}.

(** The backoff schedule in the spec's words: 1 time unit first, doubled
    at each attempt, capped at 30. *)
Definition backoff_schedule (k : nat) : list Z :=
  map (fun i => Z.min (2 ^ Z.of_nat i) 30) (seq 0 k).

(** The sleeps taken by [k] failed attempts when the next sleep is
    [backoff], as the loop computes them. *)
Fixpoint sleeps_from (backoff : Z) (k : nat) : list Z :=
  match k with
  | O => []
  | S k' => backoff :: sleeps_from (Z.min (backoff * 2) 30) k'
  end.

(** The warnings logged for the failures [excs] of the attempts
    [attempt], [attempt + 1], ... *)
Fixpoint warnings_from (attempt max_retries : Z) (excs : list string)
  : list LogRecord :=
  match excs with
  | [] => []
  | exc :: excs' =>
      WarningRequestFailed attempt max_retries exc
      :: warnings_from (attempt + 1) max_retries excs'
  end.

(** [Failing get q c excs c']: from state [c], the next calls of [get] on
    [q] raise request exceptions with the causes [excs], one after the
    other, and leave the client in state [c']. *)
Inductive Failing {Rec C : Type}
    (get : C -> Query -> Result (list (ApiRow Rec)) * C) (q : Query)
  : C -> list string -> C -> Prop :=
| Failing_nil (c : C) : Failing get q c [] c
| Failing_cons (c c1 c2 : C) (exc : string) (excs : list string) :
    get c q = (Raise (RequestException exc), c1) ->
    Failing get q c1 excs c2 ->
    Failing get q c (exc :: excs) c2.

(** A stub that times out a given number of times, then answers. *)
Definition flaky_get (left : nat) (q : Query)
  : Result (list (ApiRow unit)) * nat :=
  match left with
  | O => (Ok [CountRow 7], O)
  | S left' => (Raise (RequestException "timeout"), left')
  end.

(** A stub that always times out. *)
Definition failing_get (c : unit) (q : Query)
  : Result (list (ApiRow unit)) * unit :=
  (Raise (RequestException "timeout"), c).

(** The total number of rows in a set of page files. *)
Definition rows_written {Rec : Type}
    (files : list (PagePath * list (ApiRow Rec))) : Z :=
  fold_right (fun f acc => Z.of_nat (length (snd f)) + acc) 0 files.

(** The number of rows an ingestion is to write, in the spec's words:
    [min(total_matching_rows, max_rows or infinity)]. *)
Definition expected_total (total_matching_rows : Z) (max_rows : option Z) : Z :=
  match max_rows with
  | Some m => Z.min total_matching_rows m
  | None => total_matching_rows
  end.

(** The rows the loop has written when it stops, against a remote that
    holds [total] matching rows. *)
Definition loop_total (total : Z) (args : Args) : Z :=
  if truthy (limit args) then Z.min total (default 0 (limit args)) else total.

Definition sample_args (l : option Z) : Args :=
  {| page_size := 3; limit := l; max_retries := 5; dry_run := false |}.

Definition sample_where : Where :=
  mkWhere (Pandas.mkDate 2024 1 1) (Pandas.mkDate 2024 12 31).

End Aux.

(** ** Further auxiliary notions *)

Module More.
Import Pandas.

(** *** Ingestion *)

Import Ingest.

Definition set_dry_run (b : bool) (args : Args) : Args :=
  {| page_size := page_size args; limit := limit args;
     max_retries := max_retries args; dry_run := b |}.


(** The page files named [tag] and [first], [first + 1], ... in order. *)
Fixpoint number_pages {Rec : Type} (tag : Date) (first : Z)
    (pages : list (list (ApiRow Rec))) : list (PagePath * list (ApiRow Rec)) :=
  match pages with
  | [] => []
  | df :: pages' => (mkPagePath tag first, df) :: number_pages tag (first + 1) pages'
  end.

Definition total_rows {Rec : Type} (pages : list (list (ApiRow Rec))) : Z :=
  fold_right (fun df acc => Z.of_nat (length df) + acc) 0 pages.

(** A client that never answers a query with more rows than its [limit]. *)
Definition respects_limit {Rec C : Type}
    (get : C -> Query -> Result (list (ApiRow Rec)) * C) : Prop :=
  forall c q rows c' n,
    get c q = (Ok rows, c') -> q_limit q = Some n ->
    Z.of_nat (length rows) <= n.

(** Two worlds in which the same requests were made to the same effect:
    same client state, same requests, same sleeps. *)
Definition same_traffic {Rec C : Type} (w1 w2 : @World Rec C) : Prop :=
  client w1 = client w2 /\ requests w1 = requests w2 /\ slept w1 = slept w2.

(** A stub that raises something that is not a request exception. *)
Definition broken_get (c : unit) (q : Query)
  : Result (list (ApiRow unit)) * unit :=
  (Raise (OtherError "boom"), c).


(** A stub that holds two rows per page, answers with at most [limit] of
    them, and rejects a negative limit. *)
Definition obedient_get (c : unit) (q : Query)
  : Result (list (ApiRow unit)) * unit :=
  let n := default 2 (q_limit q) in
  if n <? 0 then (Raise (OtherError "limit"), c)
  else (Ok (take (Z.to_nat n) [Request tt; Request tt]), c).

End More.

(** ** ingest_311.py: the command line and the date range *)

Module Cli.
Import Pandas.

(** The options given on the command line, as argparse has converted
    them; [None] for an option that is not given. *)
Record Flags : Type := mkFlags {
  f_years : option Z;
  f_page_size : option Z;
  f_limit : option Z;
  f_out_dir : option string;
  f_max_retries : option Z;
  f_timeout : option Z;
  f_dry_run : bool;
  f_so_token_env : option string;
  f_since : option string;
  f_until : option string
}.

(** The namespace returned by [get_args]. *)
Record Namespace : Type := mkNamespace {
  years : Z;
  page_size : Z;
  limit : option Z;
  out_dir : string;
  max_retries : Z;
  timeout : Z;
  dry_run : bool;
  so_token_env : string;
  since : option string;
  until : option string
}.

(** The part of the namespace that the paging loop reads. *)
Definition args_of (ns : Namespace) : Ingest.Args :=
  {| Ingest.page_size := page_size ns; Ingest.limit := limit ns;
     Ingest.max_retries := max_retries ns; Ingest.dry_run := dry_run ns |}.

(** Python's truth value of a string that may be [None]. *)
Definition truthy_str (s : option string) : bool :=
  match s with
  | Some (String _ _) => true
  | _ => false
  end.

Section Process.
(** [os.getenv]; Python's [int] on a string (it raises for what is not a
    number; the ValueError is an [OtherError] here);
    [datetime.strptime(s, "%Y-%m-%d").date()], [None] when it raises; and
    the day of [datetime.now()], in days since 1970-01-01. *)
Variable getenv : string -> option string.
Variable int : string -> Result Z.
Variable strptime : string -> option Date.
Variable today : Z.

(** [os.getenv(key, fallback)] *)
Definition getenv_or (key fallback : string) : string :=
  default fallback (getenv key).

(** [get_args]: the defaults are computed when the parser is built, so
    before the command line is looked at. *)
Definition get_args (flags : Flags) : Result Namespace :=
  let* years_default := int (getenv_or "YEARS_BACK" "5") in
  let* page_size_default := int (getenv_or "PAGE_SIZE" "50000") in
  Ok {| years := default years_default (f_years flags);
        page_size := default page_size_default (f_page_size flags);
        limit := f_limit flags;
        out_dir := default (getenv_or "OUT_DIR" "data/raw") (f_out_dir flags);
        max_retries := default 5 (f_max_retries flags);
        timeout := default 120 (f_timeout flags);
        dry_run := f_dry_run flags;
        so_token_env := default "SOCRATA_APP_TOKEN" (f_so_token_env flags);
        since := f_since flags;
        until := f_until flags |}.

Definition _parse_date (s : string) : Result Date :=
  match strptime s with
  | Some d => Ok d
  | None => Raise (OtherError ("Invalid date format (expected YYYY-MM-DD): " ++ s))
  end.

(** The selection of the date range in [main]: the command line first,
    then SINCE_DATE / UNTIL_DATE, then the last YEARS_BACK years. *)
Definition resolve_dates (ns : Namespace) : Result (Date * Date) :=
  let* YEARS_BACK := int (getenv_or "YEARS_BACK" "5") in
  let* since_date :=
    if truthy_str (since ns) then _parse_date (default "" (since ns))
    else if truthy_str (getenv "SINCE_DATE")
    then _parse_date (default "" (getenv "SINCE_DATE"))
    else Ok (civil_from_days (today - 365 * YEARS_BACK)) in
  let* until_date :=
    if truthy_str (until ns) then _parse_date (default "" (until ns))
    else if truthy_str (getenv "UNTIL_DATE")
    then _parse_date (default "" (getenv "UNTIL_DATE"))
    else Ok (civil_from_days today) in
  Ok (since_date, until_date).

(** The script from its command line to the end of [main].  (The logging
    set-up, the look-up of the app token and the creation of the output
    directory, which come before the dates, act on nothing that is
    modelled.) *)
Definition run {Rec C : Type}
    (client_get : C -> Ingest.Query -> Result (list (Ingest.ApiRow Rec)) * C)
    (standardize : Ingest.ApiRow Rec -> Ingest.ApiRow Rec)
    (fuel : nat) (flags : Flags) (w : @Ingest.World Rec C)
  : option (Result Z * @Ingest.World Rec C) :=
  match get_args flags with
  | Raise e => Some (Raise e, w)
  | Ok ns =>
      match resolve_dates ns with
      | Raise e => Some (Raise e, w)
      | Ok (since_date, until_date) =>
          Ingest.main client_get standardize fuel (args_of ns)
            since_date until_date w
      end
  end.

End Process.

Definition no_flags : Flags :=
  mkFlags None None None None None None false None None None.

Definition set_since (s : option string) (ns : Namespace) : Namespace :=
  {| years := years ns; page_size := page_size ns; limit := limit ns;
     out_dir := out_dir ns; max_retries := max_retries ns;
     timeout := timeout ns; dry_run := dry_run ns;
     so_token_env := so_token_env ns; since := s; until := until ns |}.

Definition set_until (s : option string) (ns : Namespace) : Namespace :=
  {| years := years ns; page_size := page_size ns; limit := limit ns;
     out_dir := out_dir ns; max_retries := max_retries ns;
     timeout := timeout ns; dry_run := dry_run ns;
     so_token_env := so_token_env ns; since := since ns; until := s |}.

Definition set_years (y : Z) (ns : Namespace) : Namespace :=
  {| years := y; page_size := page_size ns; limit := limit ns;
     out_dir := out_dir ns; max_retries := max_retries ns;
     timeout := timeout ns; dry_run := dry_run ns;
     so_token_env := so_token_env ns; since := since ns; until := until ns |}.

(** Sample process: an environment that sets nothing but what is listed,
    a parser of a few decimal strings, and a parser of two dates. *)
Definition sample_getenv (vars : list (string * string)) (key : string)
  : option string :=
  snd <$> List.find (fun kv => String.eqb (fst kv) key) vars.

Definition sample_int (s : string) : Result Z :=
  if String.eqb s "5" then Ok 5
  else if String.eqb s "2" then Ok 2
  else if String.eqb s "123" then Ok 123
  else if String.eqb s "50000" then Ok 50000
  else Raise (OtherError ("invalid literal for int() with base 10: '" ++ s ++ "'")).

Definition sample_strptime (s : string) : option Date :=
  if String.eqb s "2024-01-01" then Some (mkDate 2024 1 1)
  else if String.eqb s "2024-12-31" then Some (mkDate 2024 12 31)
  else None.

End Cli.

Local Open Scope list_scope.

(** * The time zone table *)

Module TzFacts.
Import Pandas UsRule.

Lemma increasing_head (p : Z * Z) (rest : list (Z * Z)) (q : Z * Z) :
  increasing (p :: rest) = true -> q ∈ rest -> fst p < fst q.
Proof.
  revert p. induction rest as [|p' rest IH]; intros p Hinc Hq.
  - inversion Hq.
  - cbn [increasing] in Hinc. apply andb_true_iff in Hinc as [Hlt Hinc].
    apply Z.ltb_lt in Hlt. apply elem_of_cons in Hq as [->|Hq]; [exact Hlt|].
    specialize (IH p' Hinc Hq). lia.
Qed.

Lemma increasing_tail (p : Z * Z) (rest : list (Z * Z)) :
  increasing (p :: rest) = true -> increasing rest = true.
Proof.
  destruct rest as [|q rest]; [reflexivity|].
  cbn [increasing]. intros H. apply andb_true_iff in H as [_ H]. exact H.
Qed.

Lemma segments_elem (l : list (Z * Z)) (p : Z * Z) (next : option Z) :
  (p, next) ∈ segments l -> p ∈ l.
Proof.
  induction l as [|q l IH]; cbn [segments]; intros H; [inversion H|].
  apply elem_of_cons in H as [Heq|H].
  - injection Heq as Hp _. subst p. left.
  - right. exact (IH H).
Qed.

(** In an increasing table, an instant between an entry and the next one
    has the offset of that entry. *)
Lemma offset_at_segment (transitions : list (Z * Z)) (current utc : Z)
    (t off : Z) (next : option Z) :
  increasing transitions = true ->
  (t, off, next) ∈ segments transitions ->
  t <= utc ->
  match next with Some t' => utc < t' | None => True end ->
  offset_at transitions current utc = off.
Proof.
  revert current. induction transitions as [|[t0 off0] rest IH];
    intros current Hinc Hin Hle Hnext.
  - inversion Hin.
  - cbn [segments] in Hin. cbn [offset_at].
    apply elem_of_cons in Hin as [Heq|Hin].
    + injection Heq as -> -> ->.
      destruct (Z.leb_spec t0 utc); [|lia].
      destruct rest as [|[t1 off1] rest]; [reflexivity|].
      cbn [head option_map fst] in Hnext. cbn [offset_at].
      destruct (Z.leb_spec t1 utc); [lia|reflexivity].
    + assert (Hlt : t0 < t).
      { apply segments_elem in Hin.
        exact (increasing_head (t0, off0) rest (t, off) Hinc Hin). }
      destruct (Z.leb_spec t0 utc); [|lia].
      apply IH; auto. eapply increasing_tail; eauto.
Qed.

Lemma segment_eqb_eq (s1 s2 : Z * Z * option Z) :
  segment_eqb s1 s2 = true -> s1 = s2.
Proof.
  destruct s1 as [[a b] c], s2 as [[a' b'] c']. unfold segment_eqb.
  cbn [fst snd]. intros H.
  apply andb_true_iff in H as [H Hc]. apply andb_true_iff in H as [Ha Hb].
  apply Z.eqb_eq in Ha, Hb. subst.
  destruct c, c'; try discriminate; [apply Z.eqb_eq in Hc; subst|]; reflexivity.
Qed.

Lemma existsb_segment (s : Z * Z * option Z) (l : list (Z * Z * option Z)) :
  existsb (segment_eqb s) l = true -> s ∈ l.
Proof.
  intros H. apply existsb_exists in H as (x & Hx & Heq).
  apply segment_eqb_eq in Heq. subst x. apply list_elem_of_In. exact Hx.
Qed.

Lemma ny_transitions_increasing : increasing ny_transitions = true.
Proof. vm_compute. reflexivity. Qed.

Lemma follows_rule_2007_2037 (y : Z) :
  2007 <= y <= 2037 -> follows_rule y = true.
Proof.
  intros Hy.
  assert (H : exists k : nat, (k <= 30)%nat /\ y = 2007 + Z.of_nat k).
  { exists (Z.to_nat (y - 2007)). lia. }
  destruct H as (k & Hk & ->). clear Hy.
  do 31 (destruct k as [|k]; [vm_compute; reflexivity|]). lia.
Qed.

(** From the spring of 2007 to the end of pytz's table, New York is 4 hours
    behind UTC from the second Sunday of March at 07:00 UTC to the first
    Sunday of November at 06:00 UTC, and 5 hours behind otherwise; after
    the table's last transition, in November 2037, it stays 5 hours
    behind. *)
Lemma ny_offset_rule (y utc : Z) :
  2007 <= y <= 2037 ->
  (us_dst_start y <= utc < us_dst_end y ->
   utcoffset America_New_York utc = -4 * 3600) /\
  (us_dst_end y <= utc < us_dst_start (y + 1) ->
   utcoffset America_New_York utc = -5 * 3600) /\
  (us_dst_end 2037 <= utc -> utcoffset America_New_York utc = -5 * 3600).
Proof.
  intros Hy. pose proof (follows_rule_2007_2037 y Hy) as H.
  unfold follows_rule in H. apply andb_true_iff in H as [H1 H2].
  apply existsb_segment in H1, H2.
  pose proof (follows_rule_2007_2037 2037 ltac:(lia)) as H'.
  unfold follows_rule in H'. apply andb_true_iff in H' as [_ H3].
  apply existsb_segment in H3.
  change (2037 <? 2037) with false in H3. cbv iota in H3.
  unfold utcoffset. repeat split.
  - intros [Hlo Hhi].
    exact (offset_at_segment _ _ _ _ _ _ ny_transitions_increasing H1 Hlo Hhi).
  - intros [Hlo Hhi].
    apply (offset_at_segment _ _ _ _ _ _ ny_transitions_increasing H2 Hlo).
    destruct (y <? 2037); [exact Hhi|exact I].
  - intros Hlo.
    exact (offset_at_segment _ _ _ _ _ _ ny_transitions_increasing H3 Hlo I).
Qed.

End TzFacts.

(** * Properties of the transform *)

Lemma Ok_inj {A : Type} (a b : A) : Ok a = Ok b -> a = b.
Proof. intros H. injection H as H. exact H. Qed.

Module ProcessFacts.
Import Pandas Process UsRule.

Section Rows.
Variable env : Env.

(** What a successful [engineer] returned. *)
Lemma engineer_inv (df : RawFrame) (clean : CleanFrame) :
  engineer env df = Ok clean ->
  exists ny_holidays,
    clean_tz clean = America_New_York /\
    clean_rows clean =
      omap (engineer_row env (raw_columns df) America_New_York ny_holidays)
           (raw_rows df) /\
    (HOLIDAYS_AVAILABLE env = false -> ny_holidays = fun _ => false).
Proof.
  unfold engineer, require_column.
  destruct (has_column "created_date" _); [|discriminate].
  destruct (has_column "closed_date" _); [|discriminate].
  destruct (has_column "resolution_action_updated_date" _); [|discriminate].
  cbv beta iota delta [bind created_dt_dtype tz_localize_UTC tz_convert].
  destruct (raw_tz df) as [z|]; intros H; apply Ok_inj in H; subst clean;
    eexists; (split; [reflexivity|split; [reflexivity|]]);
    intros ->; reflexivity.
Qed.

(** Every clean row comes from a raw row that has a creation timestamp. *)
Lemma clean_row_origin (df : RawFrame) (clean : CleanFrame) (r : CleanRow) :
  engineer env df = Ok clean ->
  r ∈ clean_rows clean ->
  exists raw created ny_holidays,
    raw ∈ raw_rows df /\
    created_date raw = Some created /\
    engineer_row env (raw_columns df) America_New_York ny_holidays raw = Some r /\
    (HOLIDAYS_AVAILABLE env = false -> ny_holidays = fun _ => false).
Proof.
  intros Heng Hin.
  destruct (engineer_inv df clean Heng) as (cal & _ & Hrows & Hcal).
  rewrite Hrows in Hin. apply list_elem_of_omap in Hin.
  destruct Hin as (raw & Hraw & Hrow).
  destruct (created_date raw) as [created|] eqn:Hc.
  - exists raw, created, cal. auto.
  - unfold engineer_row in Hrow. rewrite Hc in Hrow. discriminate.
Qed.

Lemma series_le_true (x : option Q) (bound : Q) :
  series_le x bound = true <-> exists h, x = Some h /\ (h <= bound)%Q.
Proof.
  destruct x as [v|]; cbn.
  - rewrite Qle_bool_iff. split.
    + intros H. exists v. auto.
    + intros (h & [= <-] & H). exact H.
  - split; [discriminate|]. intros (h & Hh & _). discriminate.
Qed.

End Rows.

(** C1, as amended: [within_sla] of a clean row is true exactly when
    [response_hours] is non-null and at most SLA_HOURS; when
    [response_hours] is null, [within_sla] is the boolean False (the column
    is a plain boolean column and holds no null). *)
Theorem within_sla_iff (env : Env) (df : RawFrame) (clean : CleanFrame)
    (r : CleanRow) :
  engineer env df = Ok clean ->
  r ∈ clean_rows clean ->
  (within_sla r = true <->
     exists h, response_hours r = Some h /\ (h <= SLA_HOURS env)%Q) /\
  (response_hours r = None -> within_sla r = false).
Proof.
  intros Heng Hin.
  destruct (clean_row_origin env df clean r Heng Hin)
    as (raw & created & cal & _ & Hc & Hrow & _).
  unfold engineer_row in Hrow. rewrite Hc in Hrow.
  injection Hrow as <-. cbn [within_sla response_hours]. split.
  - apply series_le_true.
  - intros ->. reflexivity.
Qed.

Lemma within_sla_iff_witness :
  exists clean r,
    engineer Samples.env24 (Samples.frame_of [Samples.closed_ticket]) = Ok clean /\
    r ∈ clean_rows clean /\
    within_sla r = true /\
    (within_sla r = true <->
       exists h, response_hours r = Some h /\ (h <= 24)%Q) /\
    (response_hours r = None -> within_sla r = false).
Proof.
  eexists. eexists.
  split; [vm_compute; reflexivity|].
  split; [apply list_elem_of_here|].
  split; [reflexivity|].
  eapply (within_sla_iff Samples.env24
            (Samples.frame_of [Samples.closed_ticket])).
  - vm_compute. reflexivity.
  - apply list_elem_of_here.
Defined.

(** C1, as stated, fails: a ticket that was never closed nor updated has a
    null [response_hours], and its [within_sla] is False, not null. *)
Lemma within_sla_null_counterexample :
  exists clean r,
    engineer Samples.env24 (Samples.frame_of [Samples.open_ticket]) = Ok clean /\
    r ∈ clean_rows clean /\
    response_hours r = None /\
    within_sla r = false.
Proof.
  eexists. eexists. split; [vm_compute; reflexivity|].
  split; [apply list_elem_of_here|]. split; reflexivity.
Qed.

(** C4: [response_hours] of a clean row is null exactly when the closure
    and the last-update timestamps of its raw row are both null; otherwise
    it is the time from creation to the closure timestamp when there is
    one, else to the last-update timestamp, in hours, whatever its sign. *)
Theorem response_hours_spec (env : Env) (df : RawFrame) (clean : CleanFrame)
    (r : CleanRow) :
  engineer env df = Ok clean ->
  r ∈ clean_rows clean ->
  exists raw created,
    raw ∈ raw_rows df /\
    created_date raw = Some created /\
    created_dt r = created /\
    (response_hours r = None <->
       closed_date raw = None /\ resolution_action_updated_date raw = None) /\
    (forall closed, closed_date raw = Some closed ->
       response_hours r = Some ((closed - created) # 3600000000000)) /\
    (forall updated, closed_date raw = None ->
       resolution_action_updated_date raw = Some updated ->
       response_hours r = Some ((updated - created) # 3600000000000)).
Proof.
  intros Heng Hin.
  destruct (clean_row_origin env df clean r Heng Hin)
    as (raw & created & cal & Hraw & Hc & Hrow & _).
  exists raw, created.
  unfold engineer_row in Hrow. rewrite Hc in Hrow.
  injection Hrow as <-. cbn [created_dt response_hours].
  split; [exact Hraw|]. split; [exact Hc|]. split; [reflexivity|].
  unfold hours_between, NS_PER_HOUR.
  destruct (closed_date raw) as [closed|];
    destruct (resolution_action_updated_date raw) as [updated|];
    cbn [fillna option_map];
    (split; [split; [intros ?|intros [? ?]]; congruence || auto
            |split; intros; congruence]).
Qed.

Lemma response_hours_spec_witness :
  exists clean r,
    engineer Samples.env24 (Samples.frame_of [Samples.new_year_ticket]) = Ok clean /\
    r ∈ clean_rows clean /\
    response_hours r = Some (-3600000000000 # 3600000000000) /\
    exists raw created,
      raw ∈ [Samples.new_year_ticket] /\
      created_date raw = Some created /\
      created_dt r = created /\
      (response_hours r = None <->
         closed_date raw = None /\ resolution_action_updated_date raw = None) /\
      (forall closed, closed_date raw = Some closed ->
         response_hours r = Some ((closed - created) # 3600000000000)) /\
      (forall updated, closed_date raw = None ->
         resolution_action_updated_date raw = Some updated ->
         response_hours r = Some ((updated - created) # 3600000000000)).
Proof.
  eexists. eexists.
  split; [vm_compute; reflexivity|].
  split; [apply list_elem_of_here|].
  split; [reflexivity|].
  eapply (response_hours_spec Samples.env24
            (Samples.frame_of [Samples.new_year_ticket])).
  - vm_compute. reflexivity.
  - apply list_elem_of_here.
Defined.

(** The zone of the raw timestamp columns plays no part in [engineer]: the
    stored values are taken as UTC instants in both branches. *)
Lemma engineer_any_tz (env : Env) (cols : list string) (rows : list RawRow)
    (z z' : option Tz) :
  engineer env (mkRawFrame cols z rows) = engineer env (mkRawFrame cols z' rows).
Proof.
  unfold engineer, require_column. cbn [raw_columns raw_tz raw_rows].
  destruct (has_column "created_date" cols); [|reflexivity].
  destruct (has_column "closed_date" cols); [|reflexivity].
  destruct (has_column "resolution_action_updated_date" cols); [|reflexivity].
  cbv beta iota delta [bind created_dt_dtype tz_localize_UTC tz_convert].
  destruct z, z'; reflexivity.
Qed.

(** C5: the creation timestamp of a timezone-naive column is taken as a
    UTC instant (localize as UTC, then convert), that of a timezone-aware
    column is converted directly, so the zone of the raw column does not
    change the result; the calendar fields are read off the
    America/New_York wall clock of that instant, which from the spring of
    2007 on is 4 hours behind UTC between the second Sunday of March,
    07:00 UTC, and the first Sunday of November, 06:00 UTC, and 5 hours
    behind otherwise (pytz's table ends in 2037, after which it stays 5
    hours behind).  So the naive timestamp 2024-01-01T00:00:00 gives local
    time 2023-12-31T19:00:00, hour 19 and day name Sunday, and
    2024-07-04T16:30:00 gives 12:30 on Thursday the 4th. *)
Theorem created_dt_new_york (env : Env) (df : RawFrame) (clean : CleanFrame)
    (r : CleanRow) :
  engineer env df = Ok clean ->
  r ∈ clean_rows clean ->
  (forall z : option Tz,
     created_dt_dtype z = Ok America_New_York /\
     engineer env (mkRawFrame (raw_columns df) z (raw_rows df)) = Ok clean) /\
  clean_tz clean = America_New_York /\
  (exists raw, raw ∈ raw_rows df /\ created_date raw = Some (created_dt r)) /\
  exists off : Z,
    let utc := created_dt r / NS_PER_SECOND in
    let local := utc + off in
    date r = civil_from_days (local / 86400) /\
    hour r = (local mod 86400) / 3600 /\
    day_of_week r = weekday_of_days (local / 86400) /\
    dow_name r = day_name_of (day_of_week r) /\
    month r = d_month (date r) /\
    month_name r = month_name_of (month r) /\
    (forall y, 2007 <= y <= 2037 ->
       (us_dst_start y <= utc < us_dst_end y -> off = -4 * 3600) /\
       (us_dst_end y <= utc < us_dst_start (y + 1) -> off = -5 * 3600)) /\
    (us_dst_end 2037 <= utc -> off = -5 * 3600) /\
    (created_dt r = naive_timestamp 2024 1 1 0 0 0 ->
     local * NS_PER_SECOND = naive_timestamp 2023 12 31 19 0 0 /\
     date r = mkDate 2023 12 31 /\
     hour r = 19 /\
     day_of_week r = 6 /\
     dow_name r = "Sunday") /\
    (created_dt r = naive_timestamp 2024 7 4 16 30 0 ->
     local * NS_PER_SECOND = naive_timestamp 2024 7 4 12 30 0 /\
     date r = mkDate 2024 7 4 /\
     hour r = 12 /\
     day_of_week r = 3 /\
     dow_name r = "Thursday").
Proof.
  intros Heng Hin.
  destruct (engineer_inv env df clean Heng) as (cal' & Htz & _ & _).
  destruct (clean_row_origin env df clean r Heng Hin)
    as (raw & created & cal & Hraw & Hc & Hrow & _).
  split.
  { intros z. split; [destruct z; reflexivity|].
    rewrite (engineer_any_tz env _ _ z (raw_tz df)).
    destruct df; exact Heng. }
  unfold engineer_row in Hrow. rewrite Hc in Hrow.
  apply (f_equal (fun o => match o with Some x => x | None => r end)) in Hrow.
  subst r.
  cbv beta iota delta [created_dt date hour day_of_week dow_name month
                       month_name].
  split; [exact Htz|].
  split; [exists raw; auto|].
  exists (utcoffset America_New_York (created / NS_PER_SECOND)).
  cbv zeta.
  split; [reflexivity|]. split; [reflexivity|].
  split; [reflexivity|]. split; [reflexivity|].
  split; [reflexivity|]. split; [reflexivity|].
  split.
  { intros y Hy.
    destruct (TzFacts.ny_offset_rule y (created / NS_PER_SECOND) Hy)
      as (H1 & H2 & _).
    split; assumption. }
  split.
  { intros H.
    destruct (TzFacts.ny_offset_rule 2037 (created / NS_PER_SECOND) ltac:(lia))
      as (_ & _ & H3).
    exact (H3 H). }
  split; intros ->; vm_compute; repeat split; reflexivity.
Qed.

Lemma created_dt_new_york_witness :
  exists clean r,
    engineer Samples.env24 (Samples.frame_of [Samples.new_year_ticket]) = Ok clean /\
    r ∈ clean_rows clean /\
    created_dt r = naive_timestamp 2024 1 1 0 0 0 /\
    date r = mkDate 2023 12 31 /\
    hour r = 19 /\
    dow_name r = "Sunday".
Proof.
  eexists. eexists.
  split; [vm_compute; reflexivity|].
  split; [apply list_elem_of_here|].
  split; [reflexivity|].
  pose proof (created_dt_new_york Samples.env24
                (Samples.frame_of [Samples.new_year_ticket]) _ _
                eq_refl (list_elem_of_here _ _)) as H.
  destruct H as (_ & _ & _ & off & _ & _ & _ & _ & _ & _ & _ & _ & H & _).
  destruct (H eq_refl) as (_ & Hd & Hh & _ & Hn).
  split; [exact Hd|]. split; [exact Hh|exact Hn].
Defined.

(** *** The schema guard and the publish step *)

Lemma has_column_elem (c : string) (cols : list string) :
  has_column c cols = true <-> c ∈ cols.
Proof.
  unfold has_column. rewrite existsb_exists. split.
  - intros (x & Hx & Heq). apply String.eqb_eq in Heq. subst x.
    apply list_elem_of_In. exact Hx.
  - intros H. exists c. split; [apply list_elem_of_In; exact H|].
    apply String.eqb_refl.
Qed.

Lemma filter_nil_iff {A : Type} (f : A -> bool) (l : list A) :
  List.filter f l = [] <-> forall x, x ∈ l -> f x = false.
Proof.
  induction l as [|a l IH]; cbn [List.filter].
  - split; [intros _ x Hx; inversion Hx|reflexivity].
  - destruct (f a) eqn:Hfa.
    + split; [discriminate|]. intros H.
      rewrite (H a (list_elem_of_here _ _)) in Hfa. discriminate.
    + rewrite IH. split.
      * intros H x Hx. apply elem_of_cons in Hx as [->|Hx]; auto.
      * intros H x Hx. apply H. apply list_elem_of_further. exact Hx.
Qed.

Lemma missing_columns_nil (cols : list string) :
  missing_columns cols = [] <-> forall c, c ∈ expected -> c ∈ cols.
Proof.
  unfold missing_columns. rewrite filter_nil_iff.
  split; intros H c Hc; specialize (H c Hc).
  - apply has_column_elem. apply negb_false_iff. exact H.
  - apply negb_false_iff. apply has_column_elem. exact H.
Qed.

Lemma all_non_negative_iff (xs : list (option Q)) :
  all_non_negative xs = true <->
  forall h, Some h ∈ xs -> (0 <= h)%Q.
Proof.
  unfold all_non_negative. rewrite forallb_forall. split.
  - intros H h Hh. apply list_elem_of_In in Hh. apply H in Hh.
    apply Qle_bool_iff. exact Hh.
  - intros H [h|] Hx; [|reflexivity].
    apply Qle_bool_iff. apply H. apply list_elem_of_In. exact Hx.
Qed.

(** The guard passes exactly when its three checks hold. *)
Lemma schema_guard_ok (clean : CleanFrame) :
  schema_guard clean = Ok tt <->
  (forall c, c ∈ expected -> c ∈ clean_columns clean) /\
  NoDup (map (fun r => unique_key (attrs r)) (clean_rows clean)) /\
  (forall r h, r ∈ clean_rows clean -> response_hours r = Some h -> (0 <= h)%Q).
Proof.
  unfold schema_guard.
  assert (Hneg : (forall r h, r ∈ clean_rows clean ->
                    response_hours r = Some h -> (0 <= h)%Q) <->
                 all_non_negative (map response_hours (clean_rows clean)) = true).
  { rewrite all_non_negative_iff. split.
    - intros H h Hh. apply list_elem_of_In, in_map_iff in Hh as (r & Hr & Hin).
      apply list_elem_of_In in Hin. eapply H; eauto.
    - intros H r h Hin Hr. apply H. rewrite <- Hr.
      apply list_elem_of_In, in_map. apply list_elem_of_In. exact Hin. }
  rewrite Hneg. rewrite <- missing_columns_nil.
  destruct (missing_columns (clean_columns clean)) as [|m ms].
  - unfold is_unique.
    destruct (bool_decide (NoDup _)) eqn:Hu; cbn [negb].
    + apply bool_decide_eq_true in Hu.
      destruct (all_non_negative _); cbn [negb].
      * split; auto.
      * split; [discriminate|]. intros (_ & _ & H). discriminate.
    + apply bool_decide_eq_false in Hu.
      split; [discriminate|]. intros (_ & H & _). contradiction.
  - split; [discriminate|]. intros (H & _). discriminate.
Qed.

(** A guard that does not pass raises an AssertionError. *)
Lemma schema_guard_raises (clean : CleanFrame) (e : Exn) :
  schema_guard clean = Raise e -> exists msg, e = AssertionError msg.
Proof.
  unfold schema_guard.
  destruct (missing_columns _); [|intros [= <-]; eauto].
  destruct (negb (is_unique _)); [intros [= <-]; eauto|].
  destruct (negb (all_non_negative _)); [intros [= <-]; eauto|discriminate].
Qed.

(** C8: the guard checks exactly that the required columns are present,
    that [unique_key] has no duplicate and that every non-null
    [response_hours] is non-negative; when a check fails, [main] stops with
    the AssertionError before it creates or writes anything: the published
    files are as before. *)
Theorem schema_guard_before_publish (env : Env) (fs : FS) (df : RawFrame)
    (clean : CleanFrame) :
  load_raw env fs = Ok df ->
  engineer env df = Ok clean ->
  (schema_guard clean = Ok tt <->
     (forall c, c ∈ expected -> c ∈ clean_columns clean) /\
     NoDup (map (fun r => unique_key (attrs r)) (clean_rows clean)) /\
     (forall r h, r ∈ clean_rows clean -> response_hours r = Some h ->
                  (0 <= h)%Q)) /\
  (forall e, schema_guard clean = Raise e ->
     main env fs = (fs, Raise e) /\ exists msg, e = AssertionError msg) /\
  (schema_guard clean = Ok tt ->
     clean_parquet (fst (main env fs)) = Some clean /\
     snd (main env fs) = Ok tt).
Proof.
  intros Hload Heng. split; [apply schema_guard_ok|]. split.
  - intros e He. split; [|eapply schema_guard_raises; eauto].
    unfold main. rewrite Hload, Heng, He. reflexivity.
  - intros Hok. unfold main. rewrite Hload, Heng, Hok.
    destruct (pyarrow_available env); split; reflexivity.
Qed.

Lemma schema_guard_before_publish_witness :
  let fs := Samples.empty_fs
              [Samples.frame_of [Samples.closed_ticket; Samples.closed_ticket]] in
  main Samples.env24 fs = (fs, Raise (AssertionError "unique_key has duplicates")).
Proof.
  intros fs.
  pose proof (schema_guard_before_publish Samples.env24 fs _ _
                eq_refl eq_refl) as (_ & H & _).
  apply H. vm_compute. reflexivity.
Defined.

(** *** The optional holidays package *)

Lemma engineer_row_no_holiday (env : Env) (cols : list string) (tz : Tz)
    (cal : Date -> bool) (raw : RawRow) :
  engineer_row (Aux.with_holidays false env) cols tz (fun _ => false) raw
  = option_map Aux.no_holiday
      (engineer_row (Aux.with_holidays true env) cols tz cal raw).
Proof.
  unfold engineer_row. destruct (created_date raw); reflexivity.
Qed.

Lemma omap_option_map {A B D : Type} (f : A -> option B) (g : B -> D)
    (l : list A) :
  omap (fun x => option_map g (f x)) l = map g (omap f l).
Proof.
  induction l as [|a l IH]; [reflexivity|].
  cbn. destruct (f a); cbn; rewrite IH; reflexivity.
Qed.

Lemma engineer_without_holidays (env : Env) (df : RawFrame) :
  engineer (Aux.with_holidays false env) df
  = Aux.result_map Aux.no_holidays (engineer (Aux.with_holidays true env) df).
Proof.
  unfold engineer, require_column.
  destruct (has_column "created_date" _); [|reflexivity].
  destruct (has_column "closed_date" _); [|reflexivity].
  destruct (has_column "resolution_action_updated_date" _); [|reflexivity].
  cbv beta iota delta [bind created_dt_dtype tz_localize_UTC tz_convert].
  assert (H : forall cal,
    omap (engineer_row (Aux.with_holidays false env) (raw_columns df)
            America_New_York (fun _ => false)) (raw_rows df)
    = map Aux.no_holiday
        (omap (engineer_row (Aux.with_holidays true env) (raw_columns df)
                 America_New_York cal) (raw_rows df))).
  { intros cal. rewrite <- omap_option_map.
    induction (raw_rows df) as [|raw rows IH]; [reflexivity|].
    cbn [omap list_omap]. rewrite (engineer_row_no_holiday env _ _ cal raw).
    destruct (engineer_row (Aux.with_holidays true env) _ _ cal raw);
      cbn [option_map]; rewrite IH; reflexivity. }
  destruct (raw_tz df); unfold Aux.result_map, Aux.no_holidays;
    cbv beta iota delta [clean_columns clean_tz clean_rows
                           HOLIDAYS_AVAILABLE Aux.with_holidays];
    rewrite <- H; reflexivity.
Qed.

Lemma schema_guard_no_holidays (clean : CleanFrame) :
  schema_guard (Aux.no_holidays clean) = schema_guard clean.
Proof.
  unfold schema_guard, Aux.no_holidays.
  cbv beta iota delta [clean_columns clean_rows].
  rewrite !map_map. reflexivity.
Qed.

Lemma load_raw_with_holidays (b : bool) (env : Env) (fs : FS) :
  load_raw (Aux.with_holidays b env) fs = load_raw env fs.
Proof. unfold load_raw. destruct (raw_files fs); reflexivity. Qed.

(** C10: without the holidays package the import emits one warning, and the
    transform does what it does with the package except that [is_holiday]
    is False on every row: it returns under the same conditions, and
    [main] publishes or stops exactly as it would with the package. *)
Theorem holidays_unavailable_degrades (env : Env) :
  import_holidays false = (false, [holidays_warning]) /\
  (forall df,
     engineer (Aux.with_holidays false env) df
     = Aux.result_map Aux.no_holidays
         (engineer (Aux.with_holidays true env) df)) /\
  (forall df,
     is_ok (engineer (Aux.with_holidays false env) df)
     = is_ok (engineer (Aux.with_holidays true env) df)) /\
  (forall df clean,
     engineer (Aux.with_holidays false env) df = Ok clean ->
     Forall (fun r => is_holiday r = false) (clean_rows clean)) /\
  (forall fs,
     snd (main (Aux.with_holidays false env) fs)
     = snd (main (Aux.with_holidays true env) fs)).
Proof.
  split; [reflexivity|].
  split; [apply engineer_without_holidays|].
  split.
  { intros df. rewrite engineer_without_holidays.
    destruct (engineer _ df); reflexivity. }
  split.
  { intros df clean. rewrite engineer_without_holidays.
    destruct (engineer _ df) as [c|]; [|discriminate].
    intros H. apply Ok_inj in H. subst clean.
    unfold Aux.no_holidays. cbv beta iota delta [clean_rows].
    apply Forall_fmap. apply Forall_true. intros r. reflexivity. }
  intros fs. unfold main.
  rewrite !load_raw_with_holidays.
  destruct (load_raw env fs) as [df|e]; [|reflexivity].
  rewrite engineer_without_holidays.
  destruct (engineer (Aux.with_holidays true env) df) as [c|e]; [|reflexivity].
  cbv beta iota delta [Aux.result_map].
  rewrite schema_guard_no_holidays.
  destruct (schema_guard c); [|reflexivity].
  cbn [pyarrow_available Aux.with_holidays].
  destruct (pyarrow_available env); reflexivity.
Qed.

Lemma holidays_unavailable_degrades_witness :
  exists clean,
    engineer (Aux.with_holidays false Samples.env24)
      (Samples.frame_of [Samples.closed_ticket; Samples.new_year_ticket])
    = Ok clean /\
    Forall (fun r => is_holiday r = false) (clean_rows clean).
Proof.
  eexists. split; [vm_compute; reflexivity|].
  destruct (holidays_unavailable_degrades Samples.env24) as (_ & _ & _ & H & _).
  apply (H (Samples.frame_of [Samples.closed_ticket; Samples.new_year_ticket])).
  vm_compute. reflexivity.
Defined.

End ProcessFacts.

(** * Properties of the ingestion *)

Module IngestFacts.
Import Pandas Ingest Aux.

Lemma sleeps_from_pow (i k : nat) :
  sleeps_from (Z.min (2 ^ Z.of_nat i) 30) k
  = map (fun j => Z.min (2 ^ Z.of_nat j) 30) (seq i k).
Proof.
  revert i. induction k as [|k IH]; intros i; [reflexivity|].
  cbn [sleeps_from seq map]. f_equal.
  rewrite <- IH. f_equal.
  rewrite Nat2Z.inj_succ, Z.pow_succ_r by lia.
  assert (0 < 2 ^ Z.of_nat i) by (apply Z.pow_pos_nonneg; lia).
  lia.
Qed.

Lemma sleeps_from_schedule (k : nat) : sleeps_from 1 k = backoff_schedule k.
Proof. exact (sleeps_from_pow 0 k). Qed.

Lemma warnings_from_length (attempt max_retries : Z) (excs : list string) :
  length (warnings_from attempt max_retries excs) = length excs.
Proof.
  revert attempt. induction excs as [|e excs IH]; intros attempt;
    [reflexivity|]. cbn. rewrite IH. reflexivity.
Qed.

Section Retry.
Context {Rec C : Type}.
Variable client_get : C -> Query -> Result (list (ApiRow Rec)) * C.
Variable max_retries : Z.
Variable q : Query.

Abbreviation World := (@World Rec C).

Lemma call_get_eq (w : World) (r : Result (list (ApiRow Rec))) (c' : C) :
  client_get (client w) q = (r, c') ->
  call_get client_get q w
  = (r, mkWorld c' (requests w ++ [q]) (log w) (slept w) (files w)).
Proof. intros H. unfold call_get. rewrite H. reflexivity. Qed.

(** [k] failures, then a success, with attempts to spare. *)
Lemma retry_loop_success (excs : list string) :
  forall (n : nat) (attempt backoff : Z) (w : World) (c_k c' : C)
         (rows : list (ApiRow Rec)),
    Failing client_get q (client w) excs c_k ->
    client_get c_k q = (Ok rows, c') ->
    (length excs < n)%nat ->
    attempt + Z.of_nat (length excs) <= max_retries ->
    retry_loop client_get n attempt backoff max_retries q w
    = (Ok (Some rows),
       mkWorld c' (requests w ++ repeat q (S (length excs)))
         (log w ++ warnings_from attempt max_retries excs)
         (slept w ++ sleeps_from backoff (length excs))
         (files w)).
Proof.
  induction excs as [|exc excs IH];
    intros n attempt backoff w c_k c' rows Hfail Hget Hn Hmax;
    inversion Hfail; subst;
    (destruct n as [|n]; [cbn in Hn; lia|]); cbn [retry_loop].
  - rewrite (call_get_eq w _ _ Hget). cbn [length repeat warnings_from sleeps_from].
    rewrite !app_nil_r. reflexivity.
  - match goal with H : client_get _ _ = (Raise _, _) |- _ =>
      rewrite (call_get_eq w _ _ H) end.
    cbn [length] in Hn, Hmax.
    match goal with |- context [?a =? ?b] =>
      destruct (Z.eqb_spec a b); [lia|] end.
    erewrite IH; [| cbn [client time_sleep logging]; eassumption | eassumption
                  | lia | lia ].
    cbn [requests log slept files time_sleep logging length repeat
         warnings_from sleeps_from].
    rewrite <- !app_assoc. reflexivity.
Qed.

(** As many failures as there are attempts. *)
Lemma retry_loop_exhaust (excs : list string) :
  forall (n : nat) (attempt backoff : Z) (w : World) (c_k : C),
    Failing client_get q (client w) excs c_k ->
    length excs = S n ->
    attempt + Z.of_nat n = max_retries ->
    retry_loop client_get (S n) attempt backoff max_retries q w
    = (Raise (RequestException (List.last excs "")),
       mkWorld c_k (requests w ++ repeat q (S n))
         (log w ++ warnings_from attempt max_retries excs ++ [ErrorMaxRetries])
         (slept w ++ sleeps_from backoff n)
         (files w)).
Proof.
  induction excs as [|exc excs IH];
    intros n attempt backoff w c_k Hfail Hlen Hmax; [discriminate|].
  inversion Hfail as [|c0 c1 c2 exc0 excs0 Hget Hrest]; subst.
  cbn [retry_loop]. rewrite (call_get_eq w _ _ Hget).
  destruct excs as [|exc' excs].
  - inversion Hrest; subst. cbn in Hlen.
    assert (n = O) by lia. subst n.
    match goal with |- context [?a =? ?b] =>
      destruct (Z.eqb_spec a b); [|lia] end.
    unfold logging. cbn. rewrite ?app_nil_r, <- ?app_assoc. reflexivity.
  - destruct n as [|n]; [discriminate|].
    match goal with |- context [?a =? ?b] =>
      destruct (Z.eqb_spec a b); [lia|] end.
    erewrite IH; [| cbn [client time_sleep logging]; eassumption
                  | cbn in Hlen |- *; lia | lia ].
    cbn [requests log slept files time_sleep logging List.last repeat
         warnings_from sleeps_from].
    rewrite <- !app_assoc. reflexivity.
Qed.

(** Whatever the client does, a call makes at most [n] attempts. *)
Lemma retry_loop_attempts (n : nat) :
  forall (attempt backoff : Z) (w : World),
    exists k, (k <= n)%nat /\
      requests (snd (retry_loop client_get n attempt backoff max_retries q w))
      = requests w ++ repeat q k.
Proof.
  induction n as [|n IH]; intros attempt backoff w; cbn [retry_loop].
  - exists O. split; [lia|]. cbn. rewrite app_nil_r. reflexivity.
  - unfold call_get. destruct (client_get (client w) q) as [[rows|e] c'].
    + exists 1%nat. split; [lia|]. reflexivity.
    + destruct e; try (exists 1%nat; split; [lia|reflexivity]).
      destruct (attempt =? max_retries).
      * exists 1%nat. split; [lia|reflexivity].
      * match goal with |- context [retry_loop _ n ?a ?b _ _ ?w'] =>
          destruct (IH a b w') as (k & Hk & Heq) end.
        exists (S k). split; [lia|]. rewrite Heq.
        cbn [requests time_sleep logging repeat].
        rewrite <- app_assoc. reflexivity.
Qed.

End Retry.

(** C6, as amended: with [max_retries >= 1], [get_with_retry] makes at most
    [max_retries] attempts; when the first [k < max_retries] attempts fail
    with request exceptions and the next one answers, it returns that
    answer after [k + 1] attempts, having logged [k] warnings and slept
    1, 2, 4, ... capped at 30 between the attempts; when [max_retries]
    attempts in a row fail, it raises the last exception after exactly
    [max_retries] attempts. *)
Theorem get_with_retry_backoff {Rec C : Type}
    (client_get : C -> Query -> Result (list (ApiRow Rec)) * C)
    (max_retries : Z) (q : Query) (w : @World Rec C) :
  1 <= max_retries ->
  (exists k, Z.of_nat k <= max_retries /\
     requests (snd (get_with_retry client_get max_retries q w))
     = requests w ++ repeat q k) /\
  (forall excs c_k rows c',
     Z.of_nat (length excs) < max_retries ->
     Failing client_get q (client w) excs c_k ->
     client_get c_k q = (Ok rows, c') ->
     get_with_retry client_get max_retries q w
     = (Ok (Some rows),
        mkWorld c' (requests w ++ repeat q (S (length excs)))
          (log w ++ warnings_from 1 max_retries excs)
          (slept w ++ backoff_schedule (length excs))
          (files w)) /\
     length (warnings_from 1 max_retries excs) = length excs) /\
  (forall excs c_k,
     Z.of_nat (length excs) = max_retries ->
     Failing client_get q (client w) excs c_k ->
     get_with_retry client_get max_retries q w
     = (Raise (RequestException (List.last excs "")),
        mkWorld c_k (requests w ++ repeat q (length excs))
          (log w ++ warnings_from 1 max_retries excs ++ [ErrorMaxRetries])
          (slept w ++ backoff_schedule (length excs - 1))
          (files w))).
Proof.
  intros Hmax. unfold get_with_retry. split; [|split].
  - destruct (retry_loop_attempts client_get max_retries q
                (Z.to_nat max_retries) 1 1 w) as (k & Hk & Heq).
    exists k. split; [lia|exact Heq].
  - intros excs c_k rows c' Hlen Hfail Hget.
    split; [|apply warnings_from_length].
    rewrite <- sleeps_from_schedule.
    apply (retry_loop_success client_get max_retries q excs _ _ _ _ c_k);
      auto; lia.
  - intros excs c_k Hlen Hfail.
    rewrite <- sleeps_from_schedule.
    destruct (Z.to_nat max_retries) as [|n] eqn:Hn; [lia|].
    assert (Hl : length excs = S n) by lia.
    rewrite Hl. replace (S n - 1)%nat with n by lia.
    apply (retry_loop_exhaust client_get max_retries q excs n 1 1 w c_k);
      auto; lia.
Qed.

Lemma get_with_retry_backoff_witness :
  get_with_retry flaky_get 5 (count_query sample_where) (fresh_world 2%nat)
  = (Ok (Some [CountRow 7]),
     mkWorld O
       [count_query sample_where; count_query sample_where;
        count_query sample_where]
       [WarningRequestFailed 1 5 "timeout"; WarningRequestFailed 2 5 "timeout"]
       [1; 2] [])
  /\
  get_with_retry failing_get 3 (count_query sample_where) (fresh_world tt)
  = (Raise (RequestException "timeout"),
     mkWorld tt
       [count_query sample_where; count_query sample_where;
        count_query sample_where]
       [WarningRequestFailed 1 3 "timeout"; WarningRequestFailed 2 3 "timeout";
        WarningRequestFailed 3 3 "timeout"; ErrorMaxRetries]
       [1; 2] []).
Proof.
  split.
  - pose proof (get_with_retry_backoff flaky_get 5 (count_query sample_where)
                  (fresh_world 2%nat) ltac:(lia)) as (_ & H & _).
    destruct (H ["timeout"; "timeout"] O [CountRow 7] O) as [Heq _].
    + cbn. lia.
    + repeat econstructor.
    + reflexivity.
    + exact Heq.
  - pose proof (get_with_retry_backoff failing_get 3 (count_query sample_where)
                  (fresh_world tt) ltac:(lia)) as (_ & _ & H).
    apply (H ["timeout"; "timeout"; "timeout"] tt).
    + reflexivity.
    + repeat econstructor.
Defined.

(** C6, as stated, fails for [max_retries = 0]: no attempt is made, and the
    function returns None instead of raising. *)
Lemma get_with_retry_zero_counterexample :
  let r := get_with_retry failing_get 0 (count_query sample_where)
             (fresh_world tt) in
  fst r = Ok None /\ (forall e, fst r <> Raise e) /\ requests (snd r) = [].
Proof. cbv zeta. split; [reflexivity|]. split; [discriminate|reflexivity]. Qed.


(** *** The paging loop against a consistent remote *)

Lemma rows_written_app {Rec : Type}
    (l1 l2 : list (PagePath * list (ApiRow Rec))) :
  rows_written (l1 ++ l2) = rows_written l1 + rows_written l2.
Proof.
  induction l1 as [|f l1 IH]; cbn; [reflexivity|].
  unfold rows_written in IH. rewrite IH. unfold rows_written. lia.
Qed.

Lemma filter_other_pages {Rec : Type} (tag : Date) (idx : Z)
    (l : list (PagePath * list (ApiRow Rec))) :
  Forall (fun f => page_index (fst f) <= idx) l ->
  List.filter (fun f => negb (path_eqb (fst f) (mkPagePath tag (idx + 1)))) l = l.
Proof.
  induction 1 as [|f l Hf _ IH]; [reflexivity|].
  cbn [List.filter]. unfold path_eqb at 1. cbn [page_index].
  replace (page_index (fst f) =? idx + 1) with false
    by (symmetry; apply Z.eqb_neq; lia).
  rewrite andb_false_r. cbn [negb]. rewrite IH. reflexivity.
Qed.

Section Paging.
Context {Rec : Type}.
Variable data : list Rec.
Variable standardize : ApiRow Rec -> ApiRow Rec.

Abbreviation World1 := (@World Rec unit).
Abbreviation N := (Z.of_nat (length data)).

Lemma get_with_retry_consistent (max_retries : Z) (q : Query) (w : World1) :
  1 <= max_retries ->
  get_with_retry (consistent_get data) max_retries q w
  = (Ok (Some (match fst (consistent_get data tt q) with
               | Ok rows => rows
               | Raise _ => []
               end)),
     mkWorld tt (requests w ++ [q]) (log w) (slept w) (files w)).
Proof.
  intros Hmax. unfold get_with_retry.
  destruct (Z.to_nat max_retries) as [|n] eqn:Hn; [lia|].
  cbn [retry_loop]. unfold call_get. destruct (client w).
  unfold consistent_get. destruct (q_select q); reflexivity.
Qed.

Lemma get_page_consistent (max_retries : Z) (wh : Where) (t o : Z) (w : World1) :
  1 <= max_retries ->
  get_with_retry (consistent_get data) max_retries (page_query wh t o) w
  = (Ok (Some (map Request (take (Z.to_nat t) (drop (Z.to_nat o) data)))),
     mkWorld tt (requests w ++ [page_query wh t o]) (log w) (slept w) (files w)).
Proof. intros Hmax. rewrite get_with_retry_consistent by exact Hmax. reflexivity. Qed.

Lemma get_count_consistent (max_retries : Z) (wh : Where) (w : World1) :
  1 <= max_retries ->
  get_with_retry (consistent_get data) max_retries (count_query wh) w
  = (Ok (Some [CountRow N]),
     mkWorld tt (requests w ++ [count_query wh]) (log w) (slept w) (files w)).
Proof. intros Hmax. rewrite get_with_retry_consistent by exact Hmax. reflexivity. Qed.

Lemma page_length (t o : Z) :
  1 <= t -> 0 <= o <= N ->
  Z.of_nat (length (take (Z.to_nat t) (drop (Z.to_nat o) data)))
  = Z.min t (N - o).
Proof.
  intros Ht Ho. rewrite length_take, length_drop. lia.
Qed.

Lemma this_limit_ok (args : Args) (o : Z) :
  1 <= page_size args ->
  (truthy (limit args) = true -> o < default 0 (limit args)) ->
  exists t, this_limit_of args o = Some t /\ 1 <= t /\
    (truthy (limit args) = true -> t <= default 0 (limit args) - o).
Proof.
  intros Hp Hl. unfold this_limit_of.
  destruct (truthy (limit args)).
  - specialize (Hl eq_refl).
    destruct (Z.leb_spec (default 0 (limit args) - o) 0); [lia|].
    eexists. split; [reflexivity|]. split; intros; lia.
  - eexists. split; [reflexivity|]. split; [lia|discriminate].
Qed.

Lemma page_loop_consistent (args : Args) (wh : Where) (tag : Date) :
  1 <= page_size args ->
  1 <= max_retries args ->
  forall (fuel : nat) (o idx : Z) (w : World1),
    0 <= o <= N ->
    (truthy (limit args) = true -> o < default 0 (limit args)) ->
    (Z.to_nat (N - o) < fuel)%nat ->
    Forall (fun f => page_index (fst f) <= idx) (files w) ->
    exists w',
      page_loop (consistent_get data) standardize fuel args wh tag o idx o w
      = Some (Ok (loop_total N args), w') /\
      (exists extra, requests w' = requests w ++ extra) /\
      (dry_run args = false ->
       rows_written (files w') = rows_written (files w) + (loop_total N args - o)) /\
      (dry_run args = true -> files w' = files w).
Proof.
  intros Hp Hm. induction fuel as [|fuel IH]; intros o idx w Ho Hl Hfuel Hidx;
    [lia|].
  cbn [page_loop].
  destruct (this_limit_ok args o Hp Hl) as (t & -> & Ht1 & Ht2).
  rewrite (get_page_consistent _ _ _ _ _ Hm).
  cbn [default from_option id].
  pose proof (page_length t o Ht1 Ho) as Hlen.
  set (w1 := mkWorld tt (requests w ++ [page_query wh t o]) (log w) (slept w)
               (files w)) in *.
  destruct (take (Z.to_nat t) (drop (Z.to_nat o) data)) as [|r rs] eqn:Hrows.
  - (* no row: the end of the data *)
    cbn [map non_empty negb]. cbn [length] in Hlen.
    assert (HT : loop_total N args = o).
    { unfold loop_total. destruct (truthy (limit args)); [specialize (Hl eq_refl)|]; lia. }
    rewrite HT. exists w1. split; [reflexivity|].
    split; [eexists; reflexivity|]. split; [|reflexivity].
    intros _. cbn [files w1]. lia.
  - cbn [map non_empty negb length] in *.
    rewrite !length_map.
    set (len := Z.of_nat (S (length rs))) in *.
    set (df := standardize (Request r) :: map standardize (map Request rs)).
    set (w2 := if dry_run args
               then logging (InfoDryRun (S (length rs)) (mkPagePath tag (idx + 1))) w1
               else logging (InfoWrote (S (length rs)) (mkPagePath tag (idx + 1)))
                      (to_parquet (mkPagePath tag (idx + 1)) df w1)).
    assert (Hreq : requests w2 = requests w ++ [page_query wh t o]).
    { unfold w2. destruct (dry_run args); reflexivity. }
    assert (Hfiles : dry_run args = false ->
                     rows_written (files w2) = rows_written (files w) + len).
    { intros Hd. unfold w2. rewrite Hd.
      cbn [files logging to_parquet w1].
      rewrite (filter_other_pages tag idx _ Hidx), rows_written_app.
      cbn [rows_written fold_right snd]. unfold df.
      cbn [length]. rewrite !length_map. unfold len. lia. }
    assert (Hdry : dry_run args = true -> files w2 = files w).
    { intros Hd. unfold w2. rewrite Hd. reflexivity. }
    assert (Hidx2 : Forall (fun f => page_index (fst f) <= idx + 1) (files w2)).
    { unfold w2. destruct (dry_run args); cbn [files logging to_parquet w1].
      - eapply Forall_impl; [exact Hidx|]. cbn. intros; lia.
      - rewrite (filter_other_pages tag idx _ Hidx).
        apply Forall_app. split.
        + eapply Forall_impl; [exact Hidx|]. cbn. intros; lia.
        + repeat constructor. cbn. lia. }
    clearbody w2 len. clear Hrows.
    destruct (Z.ltb_spec len t) as [Hshort|Hfull].
    + (* a short page: the end of the data *)
      assert (HT : loop_total N args = o + len).
      { unfold loop_total.
        destruct (truthy (limit args)); [specialize (Ht2 eq_refl)|]; lia. }
      rewrite HT. exists w2. split; [reflexivity|].
      split; [eexists; exact Hreq|]. split; [|exact Hdry].
      intros Hd. rewrite (Hfiles Hd). lia.
    + destruct (truthy (limit args) && (default 0 (limit args) <=? o + len))
        eqn:Hstop.
      * (* the limit is reached *)
        apply andb_true_iff in Hstop as [Htr Hle].
        apply Z.leb_le in Hle. specialize (Ht2 Htr).
        assert (HT : loop_total N args = o + len).
        { unfold loop_total. rewrite Htr. lia. }
        rewrite HT. exists w2. split; [reflexivity|].
        split; [eexists; exact Hreq|]. split; [|exact Hdry].
      intros Hd. rewrite (Hfiles Hd). lia.
      * (* a full page, and more to fetch *)
        assert (Hlen' : len = t) by lia. subst len.
        destruct (IH (o + t) (idx + 1) w2)
          as (w' & Hrun & (extra & Hex) & Hw' & Hdry').
        { lia. }
        { intros Htr. rewrite Htr in Hstop. cbn [andb] in Hstop.
          apply Z.leb_gt in Hstop. lia. }
        { lia. }
        { exact Hidx2. }
        rewrite Hlen'. exists w'. split; [exact Hrun|]. split.
        -- exists ([page_query wh t o] ++ extra). rewrite Hex, Hreq.
           rewrite <- app_assoc. reflexivity.
        -- split.
           ++ intros Hd. rewrite (Hw' Hd), (Hfiles Hd). lia.
           ++ intros Hd. rewrite (Hdry' Hd). apply Hdry. exact Hd.
Qed.

Lemma page_count_ok (total page_size : Z) :
  1 <= page_size -> exists pages, page_count total page_size = Ok pages.
Proof.
  intros Hp. unfold page_count. destruct (total =? 0); [eauto|].
  destruct (Z.eqb_spec page_size 0); [lia|eauto].
Qed.

(** A whole run against the consistent remote, from an empty output
    directory. *)
Lemma main_consistent (args : Args) (since_date until_date : Date)
    (fuel : nat) :
  date_gt since_date until_date = false ->
  1 <= page_size args ->
  1 <= max_retries args ->
  (forall L, limit args = Some L -> 0 <= L) ->
  (length data < fuel)%nat ->
  exists w' : World1,
    main (consistent_get data) standardize fuel args since_date until_date
      (fresh_world tt)
    = Some (Ok (loop_total N args), w') /\
    (dry_run args = false -> rows_written (files w') = loop_total N args) /\
    (dry_run args = true -> files w' = []) /\
    (truthy (limit args) = false ->
     exists extra,
       requests w' = count_query (mkWhere since_date until_date) :: extra).
Proof.
  intros Hdate Hp Hm Hl Hfuel. unfold main. rewrite Hdate.
  set (wh := mkWhere since_date until_date).
  destruct (truthy (limit args)) eqn:Htr.
  - destruct (limit args) as [L|] eqn:HL; [|discriminate].
    cbn [truthy] in Htr. apply negb_true_iff, Z.eqb_neq in Htr.
    specialize (Hl L eq_refl). cbn [default from_option id].
    destruct (page_count_ok L (page_size args) Hp) as (pages & ->).
    match goal with |- context [page_loop _ _ _ _ _ _ _ _ _ ?w] =>
      destruct (page_loop_consistent args wh since_date Hp Hm fuel 0 0 w)
        as (w' & Hrun & _ & Hw & Hdry) end.
    { lia. }
    { rewrite HL. cbn [default from_option id]. lia. }
    { lia. }
    { constructor. }
    rewrite Hrun. eexists. split; [reflexivity|].
    cbn [files logging]. split; [|split; [exact Hdry|discriminate]].
    intros Hd. rewrite (Hw Hd). cbn. lia.
  - rewrite (get_count_consistent _ _ _ Hm).
    cbn [count_of].
    destruct (page_count_ok N (page_size args) Hp) as (pages & ->).
    match goal with |- context [page_loop _ _ _ _ _ _ _ _ _ ?w] =>
      destruct (page_loop_consistent args wh since_date Hp Hm fuel 0 0 w)
        as (w' & Hrun & (extra & Hreq) & Hw & Hdry) end.
    { lia. }
    { rewrite Htr. discriminate. }
    { lia. }
    { constructor. }
    rewrite Hrun. eexists. split; [reflexivity|].
    cbn [files requests logging]. split; [|split; [exact Hdry|]].
    + intros Hd. rewrite (Hw Hd). cbn. lia.
    + intros _. exists extra. rewrite Hreq. reflexivity.
Qed.

End Paging.




(** C7, as stated, also fails in a dry run: the seven matching rows are
    fetched and counted, and no page is written. *)
Lemma ingest_dry_run_counterexample :
  exists w',
    main (consistent_get [1; 2; 3; 4; 5; 6; 7]) id 8
      {| page_size := 3; limit := None; max_retries := 5; dry_run := true |}
      (mkDate 2024 1 1) (mkDate 2024 12 31) (fresh_world tt)
    = Some (Ok 7, w') /\
    files w' = [] /\
    rows_written (files w') <> expected_total 7 None.
Proof.
  eexists. split; [vm_compute; reflexivity|]. split; [reflexivity|].
  vm_compute. discriminate.
Qed.

(** *** A limit of zero *)

Lemma page_loop_limit_zero {Rec C : Type}
    (client_get : C -> Query -> Result (list (ApiRow Rec)) * C)
    (standardize : ApiRow Rec -> ApiRow Rec) (args : Args) (wh : Where)
    (tag : Date) (fuel : nat) :
  forall (offset page_idx written : Z) (w : World),
    page_loop client_get standardize fuel (set_limit (Some 0) args) wh tag
      offset page_idx written w
    = page_loop client_get standardize fuel (set_limit None args) wh tag
        offset page_idx written w.
Proof.
  induction fuel as [|fuel IH]; intros offset page_idx written w;
    [reflexivity|].
  cbn [page_loop]. unfold this_limit_of.
  cbn [limit set_limit truthy Z.eqb negb page_size max_retries dry_run andb].
  destruct (get_with_retry _ _ _ _) as [[rows|e] w1]; [|reflexivity].
  destruct (negb (non_empty rows)); [reflexivity|].
  destruct (_ <? _); [reflexivity|]. apply IH.
Qed.

(** C9: with [--limit 0] the run is the run without a limit, whatever the
    client does: the limit is tested for truth, and 0 is false.  Against a
    consistent remote the count query is the first request made, and all
    the matching rows are written. *)
Theorem limit_zero_is_no_limit {Rec : Type} (data : list Rec)
    (standardize : ApiRow Rec -> ApiRow Rec) (args : Args)
    (since_date until_date : Date) (fuel : nat) :
  date_gt since_date until_date = false ->
  1 <= page_size args ->
  1 <= max_retries args ->
  (length data < fuel)%nat ->
  (forall (C : Type) (client_get : C -> Query -> Result (list (ApiRow Rec)) * C)
          (fuel' : nat) (w : World),
     main client_get standardize fuel' (set_limit (Some 0) args)
       since_date until_date w
     = main client_get standardize fuel' (set_limit None args)
         since_date until_date w) /\
  exists w' extra,
    main (consistent_get data) standardize fuel (set_limit (Some 0) args)
      since_date until_date (fresh_world tt)
    = Some (Ok (Z.of_nat (length data)), w') /\
    requests w' = count_query (mkWhere since_date until_date) :: extra /\
    (dry_run args = false -> rows_written (files w') = Z.of_nat (length data)).
Proof.
  intros Hdate Hp Hm Hfuel. split.
  - intros C client_get fuel' w. unfold main.
    cbn [limit set_limit truthy Z.eqb negb page_size max_retries].
    destruct (date_gt since_date until_date); [reflexivity|].
    destruct (get_with_retry _ _ _ _) as [[count_res|e] w1]; [|reflexivity].
    destruct (count_of count_res) as [total|e]; [|reflexivity].
    destruct (page_count total (page_size args)); [|reflexivity].
    rewrite page_loop_limit_zero. reflexivity.
  - destruct (main_consistent data standardize (set_limit (Some 0) args)
                since_date until_date fuel Hdate Hp Hm)
      as (w' & Hrun & Hw & _ & Hreq); [|exact Hfuel|].
    { intros L [= <-]. lia. }
    destruct (Hreq eq_refl) as (extra & Hex).
    exists w', extra. split; [exact Hrun|]. split; [exact Hex|exact Hw].
Qed.

Lemma limit_zero_is_no_limit_witness :
  exists w' extra,
    main (consistent_get [1; 2; 3; 4; 5; 6; 7]) id 8
      (set_limit (Some 0) (sample_args (Some 5)))
      (mkDate 2024 1 1) (mkDate 2024 12 31) (fresh_world tt)
    = Some (Ok 7, w') /\
    requests w' = count_query sample_where :: extra /\
    (false = false -> rows_written (files w') = 7).
Proof.
  apply (limit_zero_is_no_limit [1; 2; 3; 4; 5; 6; 7] id
           (sample_args (Some 5)) (mkDate 2024 1 1) (mkDate 2024 12 31) 8).
  - reflexivity.
  - cbn. lia.
  - cbn. lia.
  - cbn. lia.
Defined.

End IngestFacts.

(** * Properties of the precomputed summaries *)

Module SummariesFacts.
Import Pandas Summaries.

Lemma indicator_sum (sla : Q) (group : list Ticket) :
  Forall (fun t => is_Some (response_hours t)) group ->
  sum_Z (map (fun t => case_when_1_else_0 (sql_le (response_hours t) sla)) group)
  + sum_Z (map (fun t => case_when_1_else_0 (sql_gt (response_hours t) sla)) group)
  = Z.of_nat (length group).
Proof.
  induction 1 as [|t group [h Hh] _ IH]; [reflexivity|].
  cbn [map sum_Z fold_right length]. unfold sum_Z in IH.
  rewrite Hh. cbn [sql_le sql_gt option_map].
  destruct (Qle_bool h sla); cbn [negb case_when_1_else_0]; lia.
Qed.

(** On a group in which every ticket has a response time, the two rates
    are complements, also for a response time equal to the threshold. *)
Lemma rates_complement_on_eligible (sla : Q) (group : list Ticket) :
  group <> [] ->
  Forall (fun t => is_Some (response_hours t)) group ->
  exists p b,
    pct_within_of sla group = Some p /\
    breach_rate_of sla group = Some b /\
    (p + b == 1)%Q.
Proof.
  intros Hne Hall. pose proof (indicator_sum sla group Hall) as Hsum.
  unfold pct_within_of, breach_rate_of.
  destruct group as [|t group]; [contradiction|].
  cbn [map] in *. unfold avg. cbn [length] in *. rewrite !length_map.
  eexists. eexists. split; [reflexivity|]. split; [reflexivity|].
  unfold Qeq, Qplus. cbn [Qnum Qden].
  assert (Hn : Z.pos (Pos.of_nat (S (length group)))
               = Z.of_nat (S (length group))).
  { rewrite <- Pos.of_nat_succ. lia. }
  rewrite Pos2Z.inj_mul, Hn. nia.
Qed.

Lemma boundary_is_within (sla : Q) :
  pct_within_of sla [Samples.answered sla] = Some (1 # 1) /\
  breach_rate_of sla [Samples.answered sla] = Some (0 # 1).
Proof.
  unfold pct_within_of, breach_rate_of.
  cbn [map Samples.answered response_hours sql_le sql_gt option_map].
  assert (H : Qle_bool sla sla = true) by (apply Qle_bool_iff, Qle_refl).
  rewrite H. split; reflexivity.
Qed.

(** C2 (the code departs from it): three tickets of one group, one without
    a response time, one answered after 1 hour and one after 30 hours, with
    an SLA of 24 hours.  The daily [pct_within] and the day-of-week
    [breach_rate] divide by 3, the null ticket included (as a miss in the
    first, as a success in the second), and the complaint-type
    [breach_rate], derived from the daily table, counts it as a breach.
    Among the two tickets that have a response time, each rate is 1/2. *)
Theorem null_response_in_denominators :
  let rows := [Samples.unanswered; Samples.answered 1; Samples.answered 30] in
  map (fun d => (dy_tickets d, dy_pct_within d)) (Samples.daily 24 rows)
  = [(3, Some (1 # 3))] /\
  map (fun d => (dh_tickets d, dh_breach_rate d)) (Samples.dow_hour 24 rows)
  = [(3, Some (1 # 3))] /\
  (exists r, complaint_type_summary (Samples.daily 24 rows) = Some [r] /\
             ct_tickets r = 3 /\ (ct_breach_rate r == 2 # 3)%Q) /\
  rate_among_eligible (fun h => Qle_bool h 24) rows = Some (1 # 2) /\
  rate_among_eligible (fun h => negb (Qle_bool h 24)) rows = Some (1 # 2).
Proof.
  cbv zeta. split; [vm_compute; reflexivity|].
  split; [vm_compute; reflexivity|].
  split; [|split; vm_compute; reflexivity].
  eexists. split; [vm_compute; reflexivity|].
  split; reflexivity.
Qed.

(** C3 (the code departs from it): for a group made of one ticket without
    a response time, the daily [pct_within] and the day-of-week
    [breach_rate] are both 0: they do not add up to 1. *)
Theorem null_response_breaks_complement :
  map dy_pct_within (Samples.daily 24 [Samples.unanswered]) = [Some (0 # 1)] /\
  map dh_breach_rate (Samples.dow_hour 24 [Samples.unanswered]) = [Some (0 # 1)] /\
  ~ ((0 # 1) + (0 # 1) == 1)%Q.
Proof.
  split; [vm_compute; reflexivity|].
  split; [vm_compute; reflexivity|].
  intros H. discriminate H.
Qed.

End SummariesFacts.

(** * Further properties of the transform *)

Module ProcessMore.
Import Pandas Process.

Lemma has_column_app (c : string) (l1 l2 : list string) :
  has_column c (l1 ++ l2) = has_column c l1 || has_column c l2.
Proof. unfold has_column. apply existsb_app. Qed.

Lemma omap_engineer_row_created (env : Env) (cols : list string) (tz : Tz)
    (cal : Date -> bool) (rows : list RawRow) :
  map created_dt (omap (engineer_row env cols tz cal) rows)
  = omap created_date rows.
Proof.
  induction rows as [|r rows IH]; [reflexivity|].
  cbn [omap list_omap]. unfold engineer_row at 1.
  destruct (created_date r); cbn [map created_dt]; rewrite IH; reflexivity.
Qed.

Lemma omap_engineer_row_keys (env : Env) (cols : list string) (tz : Tz)
    (cal : Date -> bool) (rows : list RawRow) :
  map (fun r => unique_key (attrs r)) (omap (engineer_row env cols tz cal) rows)
  = map (fun r => unique_key (raw_attrs r))
        (List.filter (fun r => bool_decide (is_Some (created_date r))) rows).
Proof.
  induction rows as [|r rows IH]; [reflexivity|].
  cbn [omap list_omap List.filter]. unfold engineer_row at 1.
  destruct (created_date r); cbn [map attrs cleanup unique_key];
    rewrite IH; reflexivity.
Qed.

Lemma length_omap_le {A B : Type} (f : A -> option B) (l : list A) :
  (length (omap f l) <= length l)%nat.
Proof.
  induction l as [|a l IH]; [reflexivity|].
  cbn [omap list_omap]. destruct (f a); cbn [length]; lia.
Qed.

Lemma engineer_keeps_rows_with_created_aux (env : Env) (df : RawFrame)
    (clean : CleanFrame) :
  engineer env df = Ok clean ->
  map (fun r => unique_key (attrs r)) (clean_rows clean)
  = map (fun r => unique_key (raw_attrs r))
        (List.filter (fun r => bool_decide (is_Some (created_date r)))
           (raw_rows df)).
Proof.
  intros Heng.
  destruct (ProcessFacts.engineer_inv env df clean Heng) as (cal & _ & -> & _).
  apply omap_engineer_row_keys.
Qed.

(** The clean table has one row for each raw row that has a creation
    timestamp, in the same order, and none for the others: the creation
    timestamps and the keys of the clean rows are those of the raw rows
    kept, so the clean table has at most as many rows as the raw one. *)
Theorem engineer_keeps_rows_with_created (env : Env) (df : RawFrame)
    (clean : CleanFrame) :
  engineer env df = Ok clean ->
  map created_dt (clean_rows clean) = omap created_date (raw_rows df) /\
  map (fun r => unique_key (attrs r)) (clean_rows clean)
  = map (fun r => unique_key (raw_attrs r))
        (List.filter (fun r => bool_decide (is_Some (created_date r)))
           (raw_rows df)) /\
  (length (clean_rows clean) <= length (raw_rows df))%nat.
Proof.
  intros Heng.
  destruct (ProcessFacts.engineer_inv env df clean Heng) as (cal & _ & -> & _).
  split; [apply omap_engineer_row_created|].
  split; [apply omap_engineer_row_keys|apply length_omap_le].
Qed.

Lemma engineer_keeps_rows_with_created_witness :
  exists clean,
    engineer Samples.env24
      (Samples.frame_of
         [Samples.closed_ticket;
          mkRawRow Samples.no_attrs None None None;
          Samples.new_year_ticket]) = Ok clean /\
    map created_dt (clean_rows clean)
    = [naive_timestamp 2024 6 1 10 0 0; naive_timestamp 2024 1 1 0 0 0].
Proof.
  eexists. split; [vm_compute; reflexivity|].
  pose proof (engineer_keeps_rows_with_created Samples.env24
                (Samples.frame_of
                   [Samples.closed_ticket;
                    mkRawRow Samples.no_attrs None None None;
                    Samples.new_year_ticket]) _ eq_refl) as (H & _).
  exact H.
Defined.

(** Two raw rows with creation timestamps that share a [unique_key] stop
    the run: [main] raises and leaves the file system as it was. *)
Theorem duplicate_keys_stop_publish (env : Env) (fs : FS) (df : RawFrame)
    (i j : nat) (ri rj : RawRow) :
  load_raw env fs = Ok df ->
  i <> j ->
  raw_rows df !! i = Some ri ->
  raw_rows df !! j = Some rj ->
  is_Some (created_date ri) ->
  is_Some (created_date rj) ->
  unique_key (raw_attrs ri) = unique_key (raw_attrs rj) ->
  exists e, main env fs = (fs, Raise e).
Proof.
  intros Hload Hij Hi Hj Hci Hcj Hkey.
  unfold main. rewrite Hload.
  destruct (engineer env df) as [clean|e] eqn:Heng; [|eauto].
  destruct (schema_guard clean) as [[]|e] eqn:Hguard; [|eauto].
  exfalso.
  apply ProcessFacts.schema_guard_ok in Hguard as (_ & Hnodup & _).
  rewrite (engineer_keeps_rows_with_created_aux env df clean Heng) in Hnodup.
  revert i j Hij Hi Hj Hnodup.
  induction (raw_rows df) as [|r rows IH]; intros i j Hij Hi Hj Hnodup;
    [discriminate|].
  assert (Hin : forall k rk, rows !! k = Some rk -> is_Some (created_date rk) ->
            unique_key (raw_attrs rk)
            ∈ map (fun r => unique_key (raw_attrs r))
                (List.filter (fun r => bool_decide (is_Some (created_date r))) rows)).
  { intros k rk Hk Hck. apply list_elem_of_In, in_map_iff. exists rk.
    split; [reflexivity|]. apply filter_In. split.
    - apply list_elem_of_In. eapply list_elem_of_lookup_2. exact Hk.
    - apply bool_decide_eq_true. exact Hck. }
  cbn [List.filter] in Hnodup.
  destruct i as [|i], j as [|j]; cbn in Hi, Hj.
  - congruence.
  - injection Hi as ->. rewrite (bool_decide_eq_true_2 _ Hci) in Hnodup.
    cbn [map] in Hnodup. apply NoDup_cons in Hnodup as [Hnot _].
    apply Hnot. rewrite Hkey. eapply Hin; eauto.
  - injection Hj as ->. rewrite (bool_decide_eq_true_2 _ Hcj) in Hnodup.
    cbn [map] in Hnodup. apply NoDup_cons in Hnodup as [Hnot _].
    apply Hnot. rewrite <- Hkey. eapply Hin; eauto.
  - apply (IH i j); [congruence|exact Hi|exact Hj|].
    destruct (bool_decide (is_Some (created_date r))); [|exact Hnodup].
    cbn [map] in Hnodup. apply NoDup_cons in Hnodup as [_ H]. exact H.
Qed.

Lemma duplicate_keys_stop_publish_witness :
  let fs := Samples.empty_fs
              [Samples.frame_of [Samples.closed_ticket; Samples.new_year_ticket;
                                 Samples.closed_ticket]] in
  exists e, main Samples.env24 fs = (fs, Raise e).
Proof.
  intros fs.
  apply (duplicate_keys_stop_publish Samples.env24 fs _ 0%nat 2%nat
           Samples.closed_ticket Samples.closed_ticket eq_refl).
  - lia.
  - reflexivity.
  - reflexivity.
  - eexists; reflexivity.
  - eexists; reflexivity.
  - reflexivity.
Defined.

(** *** The published columns *)

Lemma in_clean_columns (env : Env) (df : RawFrame) (clean : CleanFrame)
    (c : string) :
  engineer env df = Ok clean ->
  c ∈ clean_columns clean <->
  In c keep /\ (has_column c (raw_columns df) || has_column c derived_columns = true).
Proof.
  unfold engineer, require_column.
  destruct (has_column "created_date" _); [|discriminate].
  destruct (has_column "closed_date" _); [|discriminate].
  destruct (has_column "resolution_action_updated_date" _); [|discriminate].
  cbv beta iota delta [bind created_dt_dtype tz_localize_UTC tz_convert].
  destruct (raw_tz df); intros H; apply Ok_inj in H; subst clean;
    cbv beta iota delta [clean_columns];
    rewrite list_elem_of_In, filter_In, has_column_app; reflexivity.
Qed.

(** The column check of the schema guard passes on the output of
    [engineer] exactly when the raw table has the columns [unique_key],
    [borough], [complaint_type] and [descriptor]: the other required
    columns are always produced. *)
Theorem required_raw_columns (env : Env) (df : RawFrame) (clean : CleanFrame) :
  engineer env df = Ok clean ->
  missing_columns (clean_columns clean) = [] <->
  "unique_key" ∈ raw_columns df /\ "borough" ∈ raw_columns df /\
  "complaint_type" ∈ raw_columns df /\ "descriptor" ∈ raw_columns df.
Proof.
  intros Heng. rewrite ProcessFacts.missing_columns_nil.
  rewrite <- !ProcessFacts.has_column_elem.
  split.
  - intros H.
    assert (Hraw : forall c, In c expected ->
              has_column c derived_columns = false ->
              has_column c (raw_columns df) = true).
    { intros c Hc Hnd. apply list_elem_of_In, H in Hc.
      apply (in_clean_columns env df clean c Heng) in Hc as [_ Hc].
      rewrite Hnd, orb_false_r in Hc. exact Hc. }
    repeat split; apply Hraw; (reflexivity || (cbn; tauto)).
  - intros (Hk & Hb & Hc & Hd) c Hin.
    apply (in_clean_columns env df clean c Heng).
    apply list_elem_of_In in Hin. cbn in Hin.
    repeat (destruct Hin as [<-|Hin];
            [split; [cbn; tauto|];
             apply orb_true_iff; first [left; assumption|right; reflexivity]|]).
    contradiction.
Qed.

Lemma required_raw_columns_witness :
  exists clean,
    engineer Samples.env24
      (mkRawFrame ["created_date"; "closed_date";
                   "resolution_action_updated_date"; "unique_key"]
         None [Samples.closed_ticket]) = Ok clean /\
    missing_columns (clean_columns clean) <> [].
Proof.
  eexists. split; [vm_compute; reflexivity|].
  intros H.
  apply (required_raw_columns Samples.env24
           (mkRawFrame ["created_date"; "closed_date";
                        "resolution_action_updated_date"; "unique_key"]
              None [Samples.closed_ticket]) _ eq_refl) in H.
  destruct H as (_ & H & _).
  apply ProcessFacts.has_column_elem in H. discriminate H.
Defined.

(** *** The city column *)

(** When the raw table has a [city] column, no clean row has a null city:
    a city that is there is stripped, title-cased and stripped again; a
    missing city is taken from the borough (stripped, then title-cased and
    stripped like a city); and it is "Unknown" when the borough is missing
    too, or when the table has no [borough] column. *)
Theorem city_never_null (env : Env) (df : RawFrame) (clean : CleanFrame)
    (r : CleanRow) :
  engineer env df = Ok clean ->
  "city" ∈ raw_columns df ->
  r ∈ clean_rows clean ->
  (exists c, city (attrs r) = Some c) /\
  exists raw, raw ∈ raw_rows df /\
    created_date raw = Some (created_dt r) /\
    unique_key (attrs r) = unique_key (raw_attrs raw) /\
    let normal s := str_strip env (str_title env (str_strip env s)) in
    (forall c, city (raw_attrs raw) = Some c ->
       city (attrs r) = Some (normal c)) /\
    (forall b, city (raw_attrs raw) = None ->
       "borough" ∈ raw_columns df ->
       borough (raw_attrs raw) = Some b ->
       city (attrs r) = Some (normal b)) /\
    (city (raw_attrs raw) = None ->
     borough (raw_attrs raw) = None \/ "borough" ∉ raw_columns df ->
     city (attrs r) = Some "Unknown").
Proof.
  intros Heng Hcity Hin.
  apply ProcessFacts.has_column_elem in Hcity.
  destruct (ProcessFacts.clean_row_origin env df clean r Heng Hin)
    as (raw & created & cal & Hraw & Hc & Hrow & _).
  unfold engineer_row in Hrow. rewrite Hc in Hrow.
  apply (f_equal (fun o => match o with Some x => x | None => r end)) in Hrow.
  subst r. cbn [attrs created_dt]. unfold cleanup. cbn [city unique_key].
  unfold normalize_city, strip_if. rewrite Hcity. split.
  - destruct (has_column "borough" _);
      destruct (city (raw_attrs raw)), (borough (raw_attrs raw));
      cbn [fillna option_map]; eexists; reflexivity.
  - exists raw. split; [exact Hraw|]. split; [exact Hc|].
    split; [reflexivity|]. cbv zeta. split; [|split].
    + intros c ->. destruct (has_column "borough" _); reflexivity.
    + intros b -> Hb ->. apply ProcessFacts.has_column_elem in Hb.
      rewrite Hb. reflexivity.
    + intros -> [->|Hb].
      * destruct (has_column "borough" _); reflexivity.
      * destruct (has_column "borough" (raw_columns df)) eqn:Hbc; [|reflexivity].
        apply ProcessFacts.has_column_elem in Hbc. contradiction.
Qed.

Lemma city_never_null_witness :
  exists clean r,
    engineer Samples.env24 (Samples.frame_of [Samples.closed_ticket]) = Ok clean /\
    r ∈ clean_rows clean /\
    city (attrs r) = Some "BROOKLYN".
Proof.
  eexists. eexists. split; [vm_compute; reflexivity|].
  split; [apply list_elem_of_here|].
  destruct (city_never_null Samples.env24
              (Samples.frame_of [Samples.closed_ticket]) _ _
              eq_refl
              (proj1 (ProcessFacts.has_column_elem "city" Ingest.SELECT_COLS)
                     eq_refl)
              (list_elem_of_here _ _))
    as (_ & raw & Hraw & _ & _ & _ & H & _).
  apply list_elem_of_In in Hraw. destruct Hraw as [<-|[]].
  apply (H "BROOKLYN" eq_refl); [|reflexivity].
  apply ProcessFacts.has_column_elem. reflexivity.
Defined.

(** *** Calendar fields *)

Lemma civil_from_days_ranges (z : Z) :
  1 <= d_month (civil_from_days z) <= 12 /\
  1 <= d_day (civil_from_days z) <= 31.
Proof.
  unfold civil_from_days. cbv zeta. cbn [d_month d_day].
  set (zz := z + 719468).
  set (era := zz / 146097).
  set (doe := zz - era * 146097).
  assert (Hdoe : 0 <= doe <= 146096).
  { unfold doe, era. pose proof (Z.mod_pos_bound zz 146097 ltac:(lia)).
    rewrite Z.mod_eq in H by lia. lia. }
  clearbody doe. clear era zz.
  set (yoe := (doe - doe / 1460 + doe / 36524 - doe / 146096) / 365).
  assert (Hdoy : 0 <= doe - (365 * yoe + yoe / 4 - yoe / 100) <= 365).
  { unfold yoe. clear yoe. Z.div_mod_to_equations. lia. }
  set (doy := doe - (365 * yoe + yoe / 4 - yoe / 100)) in *.
  clearbody doy. clear yoe Hdoe doe.
  set (mp := (5 * doy + 2) / 153).
  assert (Hmp : 0 <= mp <= 11) by (unfold mp; Z.div_mod_to_equations; lia).
  assert (Hd : 1 <= doy - (153 * mp + 2) / 5 + 1 <= 31)
    by (unfold mp; Z.div_mod_to_equations; lia).
  split; [|exact Hd].
  destruct (mp <? 10) eqn:Hlt; [apply Z.ltb_lt in Hlt|apply Z.ltb_ge in Hlt]; lia.
Qed.

(** Every clean row has an hour from 0 to 23, a day of week from 0 to 6
    whose name is the one of that index, a month from 1 to 12 (the month of
    its local date) and a local date with a day from 1 to 31. *)
Theorem calendar_fields_in_range (env : Env) (df : RawFrame)
    (clean : CleanFrame) (r : CleanRow) :
  engineer env df = Ok clean ->
  r ∈ clean_rows clean ->
  0 <= hour r <= 23 /\
  0 <= day_of_week r <= 6 /\
  dow_name r = day_name_of (day_of_week r) /\
  1 <= month r <= 12 /\
  month r = d_month (date r) /\
  month_name r = month_name_of (month r) /\
  1 <= d_day (date r) <= 31.
Proof.
  intros Heng Hin.
  destruct (ProcessFacts.clean_row_origin env df clean r Heng Hin)
    as (raw & created & cal & Hraw & Hc & Hrow & _).
  unfold engineer_row in Hrow. rewrite Hc in Hrow.
  apply (f_equal (fun o => match o with Some x => x | None => r end)) in Hrow.
  subst r.
  cbv beta iota delta [hour day_of_week dow_name month month_name date].
  unfold dt_hour, dt_day_of_week, dt_day_name, dt_month_name, dt_month,
    dt_date, weekday_of_days, SECONDS_PER_DAY.
  set (wall := wall_seconds America_New_York created).
  pose proof (civil_from_days_ranges (wall / 86400)) as [Hm Hd].
  split; [Z.div_mod_to_equations; lia|].
  split; [Z.div_mod_to_equations; lia|].
  split; [reflexivity|]. split; [exact Hm|].
  split; [reflexivity|]. split; [reflexivity|exact Hd].
Qed.

Lemma calendar_fields_in_range_witness :
  exists clean r,
    engineer Samples.env24 (Samples.frame_of [Samples.new_year_ticket]) = Ok clean /\
    r ∈ clean_rows clean /\
    0 <= hour r <= 23 /\ 1 <= month r <= 12.
Proof.
  eexists. eexists. split; [vm_compute; reflexivity|].
  split; [apply list_elem_of_here|].
  destruct (calendar_fields_in_range Samples.env24
              (Samples.frame_of [Samples.new_year_ticket]) _ _
              eq_refl (list_elem_of_here _ _)) as (Hh & _ & _ & Hm & _).
  split; [exact Hh|exact Hm].
Defined.


(** *** The partitioned dataset *)

Section Partitions.
Variable clean : CleanFrame.

Abbreviation key_of := (partition_key (clean_tz clean)).
Abbreviation rows_of k :=
  (List.filter (fun r => bool_decide (key_of r = k)) (clean_rows clean)).

Lemma fold_insert_lookup (ks : list (Z * Z))
    (parts : gmap (Z * Z) (list CleanRow)) (k : Z * Z) :
  fold_right (fun k parts => <[ k := rows_of k ]> parts) parts ks !! k
  = if bool_decide (k ∈ ks) then Some (rows_of k) else parts !! k.
Proof.
  induction ks as [|k' ks IH]; cbn [fold_right].
  - reflexivity.
  - destruct (decide (k' = k)) as [->|Hne].
    + rewrite lookup_insert_eq.
      rewrite bool_decide_eq_true_2 by apply list_elem_of_here. reflexivity.
    + rewrite lookup_insert_ne by exact Hne. rewrite IH.
      destruct (bool_decide (k ∈ ks)) eqn:Hk.
      * apply bool_decide_eq_true in Hk.
        rewrite bool_decide_eq_true_2 by (apply list_elem_of_further; exact Hk).
        reflexivity.
      * apply bool_decide_eq_false in Hk.
        rewrite bool_decide_eq_false_2; [reflexivity|].
        intros Hin. apply elem_of_cons in Hin as [->|Hin]; contradiction.
Qed.

Lemma key_in_keys (k : Z * Z) :
  k ∈ map key_of (clean_rows clean) <-> exists r, r ∈ clean_rows clean /\ key_of r = k.
Proof.
  rewrite list_elem_of_In, in_map_iff. split.
  - intros (r & Hr & Hin). exists r. split; [apply list_elem_of_In|]; auto.
  - intros (r & Hin & Hr). exists r. split; [|apply list_elem_of_In]; auto.
Qed.

(** What a partition holds after the write. *)
Lemma write_dataset_lookup (parts : gmap (Z * Z) (list CleanRow)) (k : Z * Z) :
  write_dataset clean parts !! k
  = if bool_decide (k ∈ map key_of (clean_rows clean))
    then Some (rows_of k) else parts !! k.
Proof. unfold write_dataset. apply fold_insert_lookup. Qed.

End Partitions.

(** Writing the same clean table a second time changes nothing. *)
Theorem write_dataset_idempotent (clean : CleanFrame)
    (parts : gmap (Z * Z) (list CleanRow)) :
  write_dataset clean (write_dataset clean parts) = write_dataset clean parts.
Proof.
  apply map_eq. intros k. rewrite !write_dataset_lookup.
  destruct (bool_decide _); reflexivity.
Qed.

(** Written into an empty directory, the partitions hold the clean rows
    and nothing else: a row is in the clean table exactly when it is in
    some partition, and then in the partition of its own year and month
    and in no other. *)
Theorem partitions_hold_the_clean_rows (clean : CleanFrame) (r : CleanRow) :
  (r ∈ clean_rows clean <->
   exists k rows, write_dataset clean ∅ !! k = Some rows /\ r ∈ rows) /\
  (forall k rows, write_dataset clean ∅ !! k = Some rows -> r ∈ rows ->
     k = partition_key (clean_tz clean) r).
Proof.
  assert (Hfwd : forall k rows,
            write_dataset clean ∅ !! k = Some rows -> r ∈ rows ->
            r ∈ clean_rows clean /\ k = partition_key (clean_tz clean) r).
  { intros k rows Hk Hin. rewrite write_dataset_lookup in Hk.
    destruct (bool_decide _); [|rewrite lookup_empty in Hk; discriminate].
    injection Hk as <-. apply list_elem_of_In, filter_In in Hin as [Hin Hkey].
    apply bool_decide_eq_true in Hkey. split; [apply list_elem_of_In|]; auto. }
  split; [split|].
  - intros Hin. exists (partition_key (clean_tz clean) r). eexists. split.
    + rewrite write_dataset_lookup. rewrite bool_decide_eq_true_2; [reflexivity|].
      apply key_in_keys. eauto.
    + apply list_elem_of_In, filter_In. split; [apply list_elem_of_In; exact Hin|].
      apply bool_decide_eq_true. reflexivity.
  - intros (k & rows & Hk & Hin). apply (Hfwd k rows Hk Hin).
  - intros k rows Hk Hin. apply (Hfwd k rows Hk Hin).
Qed.

End ProcessMore.

(** * Further properties of the ingestion *)

Module IngestMore.
Import Pandas Ingest Aux More.

Section AnyClient.
Context {Rec C : Type}.
Variable client_get : C -> Query -> Result (list (ApiRow Rec)) * C.
Variable standardize : ApiRow Rec -> ApiRow Rec.

Abbreviation World := (@World Rec C).

(** What one call of the retry loop does to the world, whatever the client:
    it appends to the requests, the log and the sleeps, leaves the files
    alone, and all of it depends on the client only. *)
Lemma retry_loop_frame (max_retries : Z) (q : Query) (n : nat) :
  forall (attempt backoff : Z) (c : C),
    1 <= backoff <= 30 ->
    attempt + Z.of_nat n = max_retries + 1 ->
    exists r c' k lg sl,
      (forall w : World, client w = c ->
         retry_loop client_get n attempt backoff max_retries q w
         = (r, mkWorld c' (requests w ++ repeat q k) (log w ++ lg)
                 (slept w ++ sl) (files w))) /\
      (k <= n)%nat /\
      (n <> O -> S (length sl) = k) /\
      Forall (fun s => 1 <= s <= 30) sl /\
      (forall rows, r = Ok (Some rows) ->
         exists c0 c1, client_get c0 q = (Ok rows, c1)) /\
      (r = Ok None -> n = O).
Proof.
  induction n as [|n IH]; intros attempt backoff c Hb Hatt.
  - exists (Ok None), c, O, [], []. split.
    + intros w <-. cbn. rewrite !app_nil_r. destruct w; reflexivity.
    + repeat split; auto; try (cbn; lia); try contradiction. discriminate.
  - destruct (client_get c q) as [[rows|e] c1] eqn:Hget.
    + exists (Ok (Some rows)), c1, 1%nat, [], []. split.
      * intros w <-. cbn [retry_loop]. unfold call_get. rewrite Hget.
        rewrite !app_nil_r. reflexivity.
      * repeat split; auto; try (cbn; lia); try discriminate.
        intros rows' [= <-]. eauto.
    + assert (Hother : (forall exc, e <> RequestException exc) ->
                exists r c' k lg sl,
                  (forall w : World, client w = c ->
                     retry_loop client_get (S n) attempt backoff max_retries q w
                     = (r, mkWorld c' (requests w ++ repeat q k) (log w ++ lg)
                             (slept w ++ sl) (files w))) /\
                  (k <= S n)%nat /\ (S n <> O -> S (length sl) = k) /\
                  Forall (fun s => 1 <= s <= 30) sl /\
                  (forall rows, r = Ok (Some rows) ->
                     exists c0 c1, client_get c0 q = (Ok rows, c1)) /\
                  (r = Ok None -> S n = O)).
      { intros Hne. exists (Raise e), c1, 1%nat, [], []. split.
        - intros w <-. cbn [retry_loop]. unfold call_get. rewrite Hget.
          rewrite !app_nil_r. destruct e; try reflexivity.
          exfalso. eapply Hne. reflexivity.
        - repeat split; auto; try (cbn; lia); discriminate. }
      destruct e as [| | | | |exc|]; try (apply Hother; discriminate).
      clear Hother.
      destruct (attempt =? max_retries) eqn:Hlast.
      * exists (Raise (RequestException exc)), c1, 1%nat,
          [WarningRequestFailed attempt max_retries exc; ErrorMaxRetries], [].
        split.
        -- intros w <-. cbn [retry_loop]. unfold call_get. rewrite Hget, Hlast.
           unfold logging. cbn [client requests log slept files].
           rewrite !app_nil_r, <- app_assoc. reflexivity.
        -- repeat split; auto; try (cbn; lia); discriminate.
      * apply Z.eqb_neq in Hlast.
        destruct (IH (attempt + 1) (Z.min (backoff * 2) 30) c1
                    ltac:(lia) ltac:(lia))
          as (r & c' & k & lg & sl & Hrun & Hk & Hsl & Hall & Hrows & Hnone).
        apply Z.eqb_neq in Hlast.
        exists r, c', (S k),
          (WarningRequestFailed attempt max_retries exc :: lg), (backoff :: sl).
        split.
        -- intros w <-. cbn [retry_loop]. unfold call_get. rewrite Hget, Hlast.
           rewrite Hrun by reflexivity.
           unfold logging, time_sleep. cbn [client requests log slept files repeat].
           rewrite <- !app_assoc. reflexivity.
        -- apply Z.eqb_neq in Hlast.
           split; [lia|]. split; [intros _; cbn [length]; rewrite Hsl; lia|].
           split; [constructor; [lia|exact Hall]|].
           split; [exact Hrows|].
           intros ->. specialize (Hnone eq_refl). lia.
Qed.

Lemma get_with_retry_frame (max_retries : Z) (q : Query) (c : C) :
  exists r c' k lg sl,
    (forall w : World, client w = c ->
       get_with_retry client_get max_retries q w
       = (r, mkWorld c' (requests w ++ repeat q k) (log w ++ lg)
               (slept w ++ sl) (files w))) /\
    Z.of_nat k <= Z.max 0 max_retries /\
    (1 <= max_retries -> S (length sl) = k) /\
    Forall (fun s => 1 <= s <= 30) sl /\
    (forall rows, r = Ok (Some rows) ->
       exists c0 c1, client_get c0 q = (Ok rows, c1)) /\
    (r = Ok None -> max_retries <= 0).
Proof.
  unfold get_with_retry.
  destruct (Z.le_gt_cases max_retries 0) as [Hle|Hgt].
  - replace (Z.to_nat max_retries) with O by lia.
    exists (Ok None), c, O, [], []. split.
    + intros w <-. cbn. rewrite !app_nil_r. destruct w; reflexivity.
    + repeat split; auto; try lia. discriminate.
  - destruct (retry_loop_frame max_retries q (Z.to_nat max_retries) 1 1 c
                ltac:(lia) ltac:(lia))
      as (r & c' & k & lg & sl & Hrun & Hk & Hsl & Hall & Hrows & Hnone).
    exists r, c', k, lg, sl. split; [exact Hrun|].
    split; [lia|]. split; [intros _; apply Hsl; lia|].
    split; [exact Hall|]. split; [exact Hrows|].
    intros Hr. specialize (Hnone Hr). lia.
Qed.

End AnyClient.

Lemma sum_bounded (sl : list Z) :
  Forall (fun s => 1 <= s <= 30) sl ->
  fold_right Z.add 0 sl <= 30 * Z.of_nat (length sl).
Proof.
  induction 1 as [|s sl Hs _ IH]; cbn [fold_right length]; lia.
Qed.

(** Whatever the client does, a call of [get_with_retry] with
    [max_retries >= 1] makes between 1 and [max_retries] requests, all of
    them the query it was given, sleeps once less than it makes requests,
    between 1 and 30 each time (at most [30 * (max_retries - 1)] in all),
    never returns None, and does not touch the page files. *)
Theorem get_with_retry_bounded {Rec C : Type}
    (client_get : C -> Query -> Result (list (ApiRow Rec)) * C)
    (max_retries : Z) (q : Query) (w : @World Rec C) :
  1 <= max_retries ->
  let out := get_with_retry client_get max_retries q w in
  exists k sl,
    requests (snd out) = requests w ++ repeat q k /\
    (1 <= k)%nat /\ Z.of_nat k <= max_retries /\
    slept (snd out) = slept w ++ sl /\
    S (length sl) = k /\
    Forall (fun s => 1 <= s <= 30) sl /\
    fold_right Z.add 0 sl <= 30 * (max_retries - 1) /\
    fst out <> Ok None /\
    files (snd out) = files w.
Proof.
  intros Hmax. cbv zeta.
  destruct (get_with_retry_frame client_get max_retries q (client w))
    as (r & c' & k & lg & sl & Hrun & Hk & Hsl & Hall & _ & Hnone).
  rewrite (Hrun w eq_refl). cbn [fst snd requests slept files].
  specialize (Hsl Hmax). exists k, sl.
  split; [reflexivity|]. split; [lia|]. split; [lia|].
  split; [reflexivity|]. split; [exact Hsl|]. split; [exact Hall|].
  split; [pose proof (sum_bounded sl Hall); lia|].
  split; [|reflexivity]. intros Hr. specialize (Hnone Hr). lia.
Qed.

Lemma get_with_retry_bounded_witness :
  let out := get_with_retry failing_get 9 (count_query sample_where)
               (fresh_world tt) in
  slept (snd out) = [1; 2; 4; 8; 16; 30; 30; 30] /\
  length (requests (snd out)) = 9%nat /\
  exists k sl,
    requests (snd out) = [] ++ repeat (count_query sample_where) k /\
    (1 <= k)%nat /\ Z.of_nat k <= 9 /\
    slept (snd out) = [] ++ sl /\
    S (length sl) = k /\
    Forall (fun s => 1 <= s <= 30) sl /\
    fold_right Z.add 0 sl <= 30 * (9 - 1) /\
    fst out <> Ok None /\
    files (snd out) = [].
Proof.
  cbv zeta. split; [reflexivity|]. split; [reflexivity|].
  apply (get_with_retry_bounded failing_get 9 (count_query sample_where)
           (fresh_world tt)). lia.
Defined.

(** An exception of the client that is not a request exception is not
    retried: it is raised after one request, with no warning and no
    sleep. *)
Theorem other_exceptions_are_not_retried {Rec C : Type}
    (client_get : C -> Query -> Result (list (ApiRow Rec)) * C)
    (max_retries : Z) (q : Query) (w : @World Rec C) (e : Exn) (c' : C) :
  1 <= max_retries ->
  client_get (client w) q = (Raise e, c') ->
  (forall exc, e <> RequestException exc) ->
  get_with_retry client_get max_retries q w
  = (Raise e, mkWorld c' (requests w ++ [q]) (log w) (slept w) (files w)).
Proof.
  intros Hmax Hget Hne. unfold get_with_retry.
  destruct (Z.to_nat max_retries) as [|n] eqn:Hn; [lia|].
  cbn [retry_loop]. unfold call_get. rewrite Hget.
  destruct e; try reflexivity. exfalso. eapply Hne. reflexivity.
Qed.

Lemma other_exceptions_are_not_retried_witness :
  get_with_retry broken_get 5 (count_query sample_where) (fresh_world tt)
  = (Raise (OtherError "boom"),
     mkWorld tt [count_query sample_where] [] [] []).
Proof.
  apply (other_exceptions_are_not_retried broken_get 5
           (count_query sample_where) (fresh_world tt) (OtherError "boom") tt).
  - lia.
  - reflexivity.
  - discriminate.
Defined.


(** *** The page files of a run, whatever the client *)

Lemma path_eqb_other (tag : Date) (idx : Z) (p : PagePath) :
  since_tag p <> tag \/ page_index p <= idx ->
  path_eqb p (mkPagePath tag (idx + 1)) = false.
Proof.
  intros H. unfold path_eqb. cbn [since_tag page_index].
  destruct H as [Hne|Hle].
  - destruct (d_year (since_tag p) =? d_year tag) eqn:Hy; [|reflexivity].
    destruct (d_month (since_tag p) =? d_month tag) eqn:Hm; [|reflexivity].
    destruct (d_day (since_tag p) =? d_day tag) eqn:Hd; [|reflexivity].
    exfalso. apply Hne. apply Z.eqb_eq in Hy, Hm, Hd.
    destruct (since_tag p), tag. cbn in *. congruence.
  - replace (page_index p =? idx + 1) with false
      by (symmetry; apply Z.eqb_neq; lia).
    apply andb_false_r.
Qed.

Lemma filter_keeps_others {Rec : Type} (tag : Date) (idx : Z)
    (l : list (PagePath * list (ApiRow Rec))) :
  Forall (fun f => since_tag (fst f) <> tag \/ page_index (fst f) <= idx) l ->
  List.filter (fun f => negb (path_eqb (fst f) (mkPagePath tag (idx + 1)))) l = l.
Proof.
  induction 1 as [|f l Hf _ IH]; [reflexivity|].
  cbn [List.filter]. rewrite (path_eqb_other tag idx _ Hf). cbn [negb].
  rewrite IH. reflexivity.
Qed.

Lemma total_rows_cons {Rec : Type} (df : list (ApiRow Rec))
    (pages : list (list (ApiRow Rec))) :
  total_rows (df :: pages) = Z.of_nat (length df) + total_rows pages.
Proof. reflexivity. Qed.

Lemma rows_written_number_pages {Rec : Type} (tag : Date) (first : Z)
    (pages : list (list (ApiRow Rec))) :
  rows_written (number_pages tag first pages) = total_rows pages.
Proof.
  revert first. induction pages as [|df pages IH]; intros first;
    [reflexivity|].
  cbn [number_pages rows_written total_rows fold_right snd].
  unfold rows_written, total_rows in IH. rewrite IH. reflexivity.
Qed.

Section AnyClientPages.
Context {Rec C : Type}.
Variable client_get : C -> Query -> Result (list (ApiRow Rec)) * C.
Variable standardize : ApiRow Rec -> ApiRow Rec.

Abbreviation World2 := (@World Rec C).

(** The invariant of the paging loop. *)
Lemma page_loop_pages (args : Args) (wh : Where) (tag : Date) (fuel : nat) :
  forall (offset idx written : Z) (w : World2) (out : Result Z * World2),
    page_loop client_get standardize fuel args wh tag offset idx written w
    = Some out ->
    Forall (fun f => since_tag (fst f) <> tag \/ page_index (fst f) <= idx)
           (files w) ->
    exists pages,
      files (snd out)
      = files w ++ (if dry_run args then [] else number_pages tag (idx + 1) pages) /\
      Forall (fun df => df <> []) pages /\
      (forall written', fst out = Ok written' ->
         written' = written + total_rows pages) /\
      (respects_limit client_get ->
       forall L, limit args = Some L -> L <> 0 -> written <= L ->
         written + total_rows pages <= L).
Proof.
  induction fuel as [|fuel IH]; intros offset idx written w out Hrun Hidx;
    [discriminate|].
  cbn [page_loop] in Hrun.
  assert (Hnil : forall w1 : World2, files w1 = files w ->
            exists pages : list (list (ApiRow Rec)),
              files w1
              = files w ++ (if dry_run args then []
                            else number_pages tag (idx + 1) pages) /\
              Forall (fun df => df <> []) pages /\
              (forall written', Ok written = Ok written' ->
                 written' = written + total_rows pages) /\
              (respects_limit client_get ->
               forall L, limit args = Some L -> L <> 0 -> written <= L ->
                 written + total_rows pages <= L)).
  { intros w1 Hw1. exists []. rewrite Hw1.
    split; [destruct (dry_run args); rewrite app_nil_r; reflexivity|].
    split; [constructor|]. split.
    - intros written' [= <-]. cbn. lia.
    - intros _ L _ _ HL. cbn. lia. }
  destruct (this_limit_of args written) as [t|] eqn:Ht.
  2:{ injection Hrun as <-. cbn [fst snd]. apply Hnil. reflexivity. }
  destruct (get_with_retry_frame client_get (max_retries args)
              (page_query wh t offset) (client w))
    as (r & c' & k & lg & sl & Hget & _ & _ & _ & Hrows & _).
  rewrite (Hget w eq_refl) in Hrun.
  set (w1 := mkWorld c' (requests w ++ repeat (page_query wh t offset) k)
               (log w ++ lg) (slept w ++ sl) (files w)) in *.
  destruct r as [rows|e].
  2:{ injection Hrun as <-. cbn [fst snd].
      destruct (Hnil w1 eq_refl) as (pages & H1 & H2 & _ & H4).
      exists pages. split; [exact H1|]. split; [exact H2|].
      split; [discriminate|exact H4]. }
  destruct (non_empty rows) eqn:Hne; cbn [negb] in Hrun.
  2:{ injection Hrun as <-. cbn [fst snd]. apply Hnil. reflexivity. }
  destruct rows as [[|r0 rs]|]; try discriminate Hne.
  cbn [default from_option id] in Hrun.
  set (df := map standardize (r0 :: rs)) in *.
  set (path := mkPagePath tag (idx + 1)) in *.
  set (w2 := if dry_run args
             then logging (InfoDryRun (length df) path) w1
             else logging (InfoWrote (length df) path) (to_parquet path df w1))
    in *.
  assert (Hfiles : files w2
                   = files w ++ (if dry_run args then [] else [(path, df)])).
  { unfold w2. destruct (dry_run args); cbn [files logging to_parquet w1].
    - rewrite app_nil_r. reflexivity.
    - unfold path. rewrite (filter_keeps_others tag idx _ Hidx). reflexivity. }
  assert (Hdf : df <> []) by (unfold df; discriminate).
  assert (Hcap : respects_limit client_get ->
                 forall L, limit args = Some L -> L <> 0 -> written <= L ->
                   written + Z.of_nat (length df) <= L).
  { intros Hresp L HL HL0 Hw.
    destruct (Hrows (r0 :: rs) eq_refl) as (c0 & c1 & Hc).
    pose proof (Hresp c0 _ _ c1 t Hc eq_refl) as Hlen.
    unfold df. rewrite length_map.
    unfold this_limit_of in Ht. rewrite HL in Ht.
    cbn [truthy default from_option id] in Ht.
    replace (L =? 0) with false in Ht by (symmetry; apply Z.eqb_neq; exact HL0).
    cbn [negb] in Ht.
    destruct (L - written <=? 0); [discriminate|].
    injection Ht as <-. lia. }
  clearbody w2. clearbody df.
  assert (Hone : forall w' : World2, w' = w2 ->
            exists pages : list (list (ApiRow Rec)),
              files w'
              = files w ++ (if dry_run args then []
                            else number_pages tag (idx + 1) pages) /\
              Forall (fun df => df <> []) pages /\
              (forall written',
                 Ok (written + Z.of_nat (length df)) = Ok written' ->
                 written' = written + total_rows pages) /\
              (respects_limit client_get ->
               forall L, limit args = Some L -> L <> 0 -> written <= L ->
                 written + total_rows pages <= L)).
  { intros w' ->. exists [df]. rewrite Hfiles.
    split; [destruct (dry_run args); reflexivity|].
    split; [repeat constructor; exact Hdf|]. split.
    - intros written' [= <-]. rewrite total_rows_cons. cbn. lia.
    - intros Hresp L HL HL0 Hw. specialize (Hcap Hresp L HL HL0 Hw).
      rewrite total_rows_cons. cbn. lia. }
  destruct (Z.of_nat (length df) <? t).
  { injection Hrun as <-. cbn [fst snd]. apply Hone. reflexivity. }
  destruct (truthy (limit args) && (default 0 (limit args) <=? written + Z.of_nat (length df))).
  { injection Hrun as <-. cbn [fst snd]. apply Hone. reflexivity. }
  apply IH in Hrun.
  - destruct Hrun as (pages & Hf & Hnon & Hwr & Hc).
    exists (df :: pages). split.
    + rewrite Hf, Hfiles. destruct (dry_run args).
      * rewrite !app_nil_r. reflexivity.
      * rewrite <- app_assoc. reflexivity.
    + split; [constructor; assumption|]. split.
      * intros written' Hout. rewrite (Hwr written' Hout).
        rewrite total_rows_cons. lia.
      * intros Hresp L HL HL0 Hw.
        specialize (Hcap Hresp L HL HL0 Hw).
        specialize (Hc Hresp L HL HL0 Hcap).
        rewrite total_rows_cons. lia.
  - rewrite Hfiles. apply Forall_app. split.
    + eapply Forall_impl; [exact Hidx|]. cbn. intros f [H|H]; [left|right]; auto; lia.
    + destruct (dry_run args); [constructor|].
      constructor; [right; unfold path; cbn; lia|constructor].
Qed.

(** The same for a whole run. *)
Lemma main_pages (args : Args) (since_date until_date : Date) (fuel : nat)
    (w : World2) (out : Result Z * World2) :
  main client_get standardize fuel args since_date until_date w = Some out ->
  Forall (fun f => since_tag (fst f) <> since_date) (files w) ->
  exists pages,
    files (snd out)
    = files w ++ (if dry_run args then [] else number_pages since_date 1 pages) /\
    Forall (fun df => df <> []) pages /\
    (forall written, fst out = Ok written -> written = total_rows pages) /\
    (respects_limit client_get ->
     forall L, limit args = Some L -> 1 <= L -> total_rows pages <= L).
Proof.
  intros Hrun Hfiles. unfold main in Hrun.
  assert (Hnil : forall w1 : World2, files w1 = files w ->
            exists pages : list (list (ApiRow Rec)),
              files w1
              = files w ++ (if dry_run args then []
                            else number_pages since_date 1 pages) /\
              Forall (fun df => df <> []) pages /\
              (respects_limit client_get ->
               forall L, limit args = Some L -> 1 <= L -> total_rows pages <= L)).
  { intros w1 ->. exists [].
    split; [destruct (dry_run args); rewrite app_nil_r; reflexivity|].
    split; [constructor|]. intros _ L _ HL. cbn. lia. }
  destruct (date_gt since_date until_date).
  { injection Hrun as <-. cbn [fst snd].
    destruct (Hnil w eq_refl) as (pages & H1 & H2 & H3).
    exists pages. split; [exact H1|]. split; [exact H2|].
    split; [discriminate|exact H3]. }
  set (wh := mkWhere since_date until_date) in *.
  set (w0 := logging (InfoWhere wh) w) in *.
  match type of Hrun with
  | (match ?x with pair _ _ => _ end) = _ =>
      destruct x as [counted w1] eqn:Hcounted
  end.
  assert (Hw1 : files w1 = files w).
  { destruct (truthy (limit args)).
    - injection Hcounted as _ <-. reflexivity.
    - destruct (get_with_retry_frame client_get (max_retries args)
                  (count_query wh) (client w))
        as (r & c' & k & lg & sl & Hget & _).
      rewrite (Hget (logging InfoCounting w0) eq_refl) in Hcounted.
      destruct r; injection Hcounted as _ <-; reflexivity. }
  clear Hcounted.
  destruct counted as [total|e].
  2:{ injection Hrun as <-. cbn [fst snd].
      destruct (Hnil w1 Hw1) as (pages & H1 & H2 & H3).
      exists pages. split; [exact H1|]. split; [exact H2|].
      split; [discriminate|exact H3]. }
  destruct (page_count total (page_size args)) as [pages_planned|e].
  2:{ injection Hrun as <-. cbn [fst snd].
      destruct (Hnil w1 Hw1) as (pages & H1 & H2 & H3).
      exists pages. split; [exact H1|]. split; [exact H2|].
      split; [discriminate|exact H3]. }
  destruct (page_loop _ _ _ _ _ _ _ _ _ _) as [[r w3]|] eqn:Hloop;
    [|discriminate].
  apply page_loop_pages in Hloop.
  2:{ cbn [files logging]. rewrite Hw1.
      eapply Forall_impl; [exact Hfiles|]. cbn. intros; left; assumption. }
  destruct Hloop as (pages & Hf & Hnon & Hwr & Hcap).
  cbn [fst snd files logging] in Hf, Hwr. rewrite Hw1 in Hf.
  exists pages.
  assert (Hout : files (snd out) = files w3 /\
                 (forall written, fst out = Ok written -> r = Ok written)).
  { destruct r; injection Hrun as <-; cbn [fst snd files logging];
      split; auto. }
  destruct Hout as [Hfo Hro].
  split; [rewrite Hfo; exact Hf|]. split; [exact Hnon|]. split.
  - intros written Hw. rewrite (Hwr written (Hro written Hw)). lia.
  - intros Hresp L HL HL1.
    specialize (Hcap Hresp L HL ltac:(lia) ltac:(lia)). lia.
Qed.

End AnyClientPages.


Lemma number_pages_names {Rec : Type} (tag : Date) (first : nat)
    (pages : list (list (ApiRow Rec))) :
  map fst (number_pages tag (Z.of_nat first) pages)
  = map (fun i => mkPagePath tag (Z.of_nat i)) (seq first (length pages)).
Proof.
  revert first. induction pages as [|df pages IH]; intros first;
    [reflexivity|].
  cbn [number_pages map fst length seq]. f_equal.
  rewrite <- IH. f_equal. f_equal. lia.
Qed.

Lemma length_number_pages {Rec : Type} (tag : Date) (first : Z)
    (pages : list (list (ApiRow Rec))) :
  length (number_pages tag first pages) = length pages.
Proof.
  revert first. induction pages as [|df pages IH]; intros first;
    [reflexivity|]. cbn [number_pages length]. rewrite IH. reflexivity.
Qed.

(** Whatever the client does and however the run ends, the page files
    already in the output directory under another since date are all kept,
    and the run adds, after them, files named with its since date and the
    page numbers 1, 2, 3, ... in order; none of the files it writes is
    empty. *)
Theorem page_files_are_numbered {Rec C : Type}
    (client_get : C -> Query -> Result (list (ApiRow Rec)) * C)
    (standardize : ApiRow Rec -> ApiRow Rec) (args : Args)
    (since_date until_date : Date) (fuel : nat) (w : @World Rec C)
    (out : Result Z * @World Rec C) :
  main client_get standardize fuel args since_date until_date w = Some out ->
  Forall (fun f => since_tag (fst f) <> since_date) (files w) ->
  dry_run args = false ->
  exists new,
    files (snd out) = files w ++ new /\
    map fst new
    = map (fun i => mkPagePath since_date (Z.of_nat i)) (seq 1 (length new)) /\
    Forall (fun f => snd f <> []) new.
Proof.
  intros Hrun Hfiles Hdry.
  destruct (main_pages client_get standardize args since_date until_date fuel
              w out Hrun Hfiles) as (pages & Hf & Hnon & _).
  rewrite Hdry in Hf. exists (number_pages since_date 1 pages).
  split; [exact Hf|].
  split.
  - rewrite length_number_pages. apply (number_pages_names since_date 1 pages).
  - clear Hf. generalize 1.
    induction Hnon as [|df pages Hdf _ IH]; intros first; cbn [number_pages].
    + constructor.
    + constructor; [exact Hdf|apply IH].
Qed.

Lemma page_files_are_numbered_witness :
  exists out,
    main (consistent_get [1; 2; 3; 4; 5; 6; 7]) id 8 (sample_args None)
      (mkDate 2024 1 1) (mkDate 2024 12 31) (fresh_world tt) = Some out /\
    exists new,
      files (snd out) = [] ++ new /\
      map fst new
      = map (fun i => mkPagePath (mkDate 2024 1 1) (Z.of_nat i))
          (seq 1 (length new)) /\
      Forall (fun f => snd f <> []) new.
Proof.
  eexists. split; [vm_compute; reflexivity|].
  apply (page_files_are_numbered (consistent_get [1; 2; 3; 4; 5; 6; 7]) id
           (sample_args None) (mkDate 2024 1 1) (mkDate 2024 12 31) 8
           (fresh_world tt)).
  - vm_compute. reflexivity.
  - constructor.
  - reflexivity.
Defined.



(** Against a client that never answers with more rows than asked for, a
    run with a row limit of at least 1 never adds more rows than the limit,
    however it ends. *)
Theorem limit_caps_the_rows {Rec C : Type}
    (client_get : C -> Query -> Result (list (ApiRow Rec)) * C)
    (standardize : ApiRow Rec -> ApiRow Rec) (args : Args)
    (since_date until_date : Date) (fuel : nat) (w : @World Rec C)
    (out : Result Z * @World Rec C) (L : Z) :
  respects_limit client_get ->
  limit args = Some L ->
  1 <= L ->
  main client_get standardize fuel args since_date until_date w = Some out ->
  Forall (fun f => since_tag (fst f) <> since_date) (files w) ->
  rows_written (files (snd out)) <= rows_written (files w) + L /\
  (forall written, fst out = Ok written -> written <= L).
Proof.
  intros Hresp HL HL1 Hrun Hfiles.
  destruct (main_pages client_get standardize args since_date until_date fuel
              w out Hrun Hfiles) as (pages & Hf & _ & Hw & Hcap).
  specialize (Hcap Hresp L HL HL1). split.
  - rewrite Hf, IngestFacts.rows_written_app.
    destruct (dry_run args); [cbn; lia|].
    rewrite rows_written_number_pages. lia.
  - intros written Hout. rewrite (Hw written Hout). exact Hcap.
Qed.

Lemma limit_caps_the_rows_witness :
  exists out,
    main obedient_get id 5 (sample_args (Some 5))
      (mkDate 2024 1 1) (mkDate 2024 12 31) (fresh_world tt) = Some out /\
    rows_written (files (snd out)) <= 0 + 5 /\
    (forall written, fst out = Ok written -> written <= 5).
Proof.
  eexists. split; [vm_compute; reflexivity|].
  apply (limit_caps_the_rows obedient_get id (sample_args (Some 5))
           (mkDate 2024 1 1) (mkDate 2024 12 31) 5 (fresh_world tt) _ 5).
  - intros c q rows c' n Hget Hn. unfold obedient_get in Hget.
    rewrite Hn in Hget. cbn [default from_option id] in Hget.
    destruct (Z.ltb_spec n 0); [discriminate|].
    injection Hget as <- _. rewrite length_take. cbn [length]. lia.
  - reflexivity.
  - lia.
  - vm_compute. reflexivity.
  - constructor.
Defined.


(** *** Dry runs *)

Section DryRun.
Context {Rec C : Type}.
Variable client_get : C -> Query -> Result (list (ApiRow Rec)) * C.
Variable standardize : ApiRow Rec -> ApiRow Rec.

Abbreviation World3 := (@World Rec C).

Lemma page_loop_dry_run (args : Args) (wh : Where) (tag : Date) (fuel : nat) :
  forall (offset idx written : Z) (wr wd : World3),
    same_traffic wr wd ->
    match page_loop client_get standardize fuel (set_dry_run false args) wh tag
            offset idx written wr,
          page_loop client_get standardize fuel (set_dry_run true args) wh tag
            offset idx written wd with
    | Some (r1, w1), Some (r2, w2) =>
        r1 = r2 /\ same_traffic w1 w2 /\ files w2 = files wd
    | None, None => True
    | _, _ => False
    end.
Proof.
  induction fuel as [|fuel IH]; intros offset idx written wr wd Hsame;
    [exact I|].
  cbn [page_loop].
  change (this_limit_of (set_dry_run false args) written)
    with (this_limit_of args written).
  change (this_limit_of (set_dry_run true args) written)
    with (this_limit_of args written).
  change (max_retries (set_dry_run false args)) with (max_retries args).
  change (max_retries (set_dry_run true args)) with (max_retries args).
  change (limit (set_dry_run false args)) with (limit args).
  change (limit (set_dry_run true args)) with (limit args).
  change (dry_run (set_dry_run false args)) with false.
  change (dry_run (set_dry_run true args)) with true.
  destruct (this_limit_of args written) as [t|]; [|auto].
  destruct Hsame as (Hc & Hr & Hs).
  destruct (get_with_retry_frame client_get (max_retries args)
              (page_query wh t offset) (client wr))
    as (r & c' & k & lg & sl & Hget & _).
  rewrite (Hget wr eq_refl), (Hget wd (eq_sym Hc)).
  assert (Hsame1 : forall (fr fd : list (PagePath * list (ApiRow Rec)))
                          (lr ld : list LogRecord),
            same_traffic
              (mkWorld c' (requests wr ++ repeat (page_query wh t offset) k)
                 lr (slept wr ++ sl) fr)
              (mkWorld c' (requests wd ++ repeat (page_query wh t offset) k)
                 ld (slept wd ++ sl) fd)).
  { intros. unfold same_traffic. cbn [client requests slept].
    rewrite Hr, Hs. auto. }
  destruct r as [rows|e]; [|split; [reflexivity|split; [apply Hsame1|reflexivity]]].
  destruct (negb (non_empty rows));
    [split; [reflexivity|split; [apply Hsame1|reflexivity]]|].
  destruct (_ <? t);
    [split; [reflexivity|split; [apply Hsame1|reflexivity]]|].
  destruct (truthy (limit args) && _);
    [split; [reflexivity|split; [apply Hsame1|reflexivity]]|].
  match goal with
  | |- match page_loop _ _ _ _ _ _ ?o ?i ?wn ?w1 with _ => _ end =>
      match goal with
      | |- context [page_loop _ _ _ (set_dry_run true args) _ _ o i wn ?w2] =>
          pose proof (IH o i wn w1 w2 (Hsame1 _ _ _ _)) as Hrec
      end
  end.
  destruct (page_loop _ _ _ (set_dry_run false args) _ _ _ _ _ _) as [[r1 w1]|];
    destruct (page_loop _ _ _ (set_dry_run true args) _ _ _ _ _ _) as [[r2 w2]|];
    exact Hrec.
Qed.

End DryRun.

(** A dry run fetches like a real run: it makes the same requests, sleeps
    the same, leaves the client in the same state and ends the same way
    (the same count, the same exception, or neither within the same number
    of iterations), and it writes no file. *)
Theorem dry_run_only_skips_the_writes {Rec C : Type}
    (client_get : C -> Query -> Result (list (ApiRow Rec)) * C)
    (standardize : ApiRow Rec -> ApiRow Rec) (args : Args)
    (since_date until_date : Date) (fuel : nat) (w : @World Rec C) :
  match main client_get standardize fuel (set_dry_run false args)
          since_date until_date w,
        main client_get standardize fuel (set_dry_run true args)
          since_date until_date w with
  | Some (r1, w1), Some (r2, w2) =>
      r1 = r2 /\ same_traffic w1 w2 /\ files w2 = files w
  | None, None => True
  | _, _ => False
  end.
Proof.
  unfold main.
  change (limit (set_dry_run false args)) with (limit args).
  change (limit (set_dry_run true args)) with (limit args).
  change (max_retries (set_dry_run false args)) with (max_retries args).
  change (max_retries (set_dry_run true args)) with (max_retries args).
  change (page_size (set_dry_run false args)) with (page_size args).
  change (page_size (set_dry_run true args)) with (page_size args).
  destruct (date_gt since_date until_date);
    [split; [reflexivity|split; [repeat split|reflexivity]]|].
  set (wh := mkWhere since_date until_date).
  set (w0 := logging (InfoWhere wh) w).
  assert (Hcount : exists counted w1,
            (if truthy (limit args) then (Ok (default 0 (limit args)), w0)
             else let (r, w1) := get_with_retry client_get (max_retries args)
                                   (count_query wh) (logging InfoCounting w0) in
                  match r with
                  | Ok count_res => (count_of count_res, w1)
                  | Raise e => (Raise e, w1)
                  end) = (counted, w1) /\ files w1 = files w).
  { destruct (truthy (limit args)); [eexists; eexists; split; reflexivity|].
    destruct (get_with_retry_frame client_get (max_retries args)
                (count_query wh) (client w))
      as (r & c' & k & lg & sl & Hget & _).
    rewrite (Hget (logging InfoCounting w0) eq_refl).
    destruct r; eexists; eexists; split; reflexivity. }
  destruct Hcount as (counted & w1 & Hcount & Hw1).
  rewrite Hcount.
  destruct counted as [total|e];
    [|split; [reflexivity|split; [repeat split|exact Hw1]]].
  destruct (page_count total (page_size args)) as [pages|e];
    [|split; [reflexivity|split; [repeat split|exact Hw1]]].
  match goal with
  | |- context [page_loop _ _ _ (set_dry_run false args) _ _ ?o ?i ?wn ?w2] =>
      pose proof (page_loop_dry_run client_get standardize args wh since_date
                    fuel o i wn w2 w2 ltac:(repeat split)) as Hrec
  end.
  destruct (page_loop _ _ _ (set_dry_run false args) _ _ _ _ _ _) as [[r1 wr]|];
    destruct (page_loop _ _ _ (set_dry_run true args) _ _ _ _ _ _) as [[r2 wd]|];
    try contradiction; try exact I.
  destruct Hrec as (<- & (Hc & Hr & Hs) & Hf).
  destruct r1; (split; [reflexivity|]);
    (split; [repeat split; cbn [client requests slept logging]; assumption|]);
    cbn [files logging]; rewrite Hf; cbn [files logging]; exact Hw1.
Qed.


(** *** Edge values of the options *)





End IngestMore.

(** *** The page plan against a consistent remote *)

Module IngestPlan.
Import Pandas Ingest Aux More.



Section Plan.
Context {Rec : Type}.
Variable data : list Rec.
Variable standardize : ApiRow Rec -> ApiRow Rec.

Abbreviation World4 := (@World Rec unit).
Abbreviation N := (Z.of_nat (length data)).


End Plan.



End IngestPlan.

(** * The page count in floating point *)

Module PageCountFacts.
Import Ingest.

Lemma round_half_even_spec (n d : Z) :
  0 < d ->
  - d <= 2 * (round_half_even n d * d - n) <= d.
Proof.
  intros Hd. unfold round_half_even.
  pose proof (Z.div_mod n d ltac:(lia)) as Hdm.
  pose proof (Z.mod_pos_bound n d Hd) as Hr.
  set (q := n / d) in *. set (r := n mod d) in *. clearbody q r.
  destruct (Z.ltb_spec (2 * r) d); [nia|].
  destruct (Z.ltb_spec d (2 * r)); [nia|].
  destruct (Z.even q); nia.
Qed.

Lemma pow2_pos (k : Z) : 0 <= k -> 0 < 2 ^ k.
Proof. intros. apply Z.pow_pos_nonneg; lia. Qed.

Lemma pow2_succ (k : Z) : 0 <= k -> 2 ^ (k + 1) = 2 * 2 ^ k.
Proof. intros. rewrite Z.pow_add_r by lia. lia. Qed.

Lemma pow2_le (j k : Z) : 0 <= j <= k -> 2 ^ j <= 2 ^ k.
Proof. intros. apply Z.pow_le_mono_r; lia. Qed.

Lemma pow2_lt (j k : Z) : 0 <= j < k -> 2 ^ j < 2 ^ k.
Proof. intros. apply Z.pow_lt_mono_r; lia. Qed.

(** [quot_log2 a b] is the position of the leading bit of [a / b]. *)
Lemma quot_log2_spec (a b : Z) :
  0 < a -> 0 < b ->
  let fl := quot_log2 a b in
  b * 2 ^ Z.max 0 fl <= a * 2 ^ Z.max 0 (- fl) /\
  a * 2 ^ Z.max 0 (- fl - 1) < b * 2 ^ Z.max 0 (fl + 1).
Proof.
  intros Ha Hb. unfold quot_log2.
  pose proof (Z.log2_spec a Ha) as [Ha1 Ha2].
  pose proof (Z.log2_spec b Hb) as [Hb1 Hb2].
  pose proof (Z.log2_nonneg a) as Hla. pose proof (Z.log2_nonneg b) as Hlb.
  set (la := Z.log2 a) in *. set (lb := Z.log2 b) in *. clearbody la lb.
  replace (Z.succ la) with (la + 1) in Ha2 by lia.
  replace (Z.succ lb) with (lb + 1) in Hb2 by lia.
  set (k := la - lb).
  destruct (Z.le_gt_cases 0 k) as [Hk|Hk].
  - (* la >= lb *)
    replace (Z.max 0 (- k)) with 0 by lia.
    replace (Z.max 0 k) with k by lia.
    assert (Hla' : la = lb + k) by (unfold k; lia).
    assert (Hpk : 0 < 2 ^ k) by (apply pow2_pos; lia).
    assert (Hplb : 0 < 2 ^ lb) by (apply pow2_pos; lia).
    assert (E1 : 2 ^ la = 2 ^ lb * 2 ^ k).
    { rewrite Hla', Z.pow_add_r by lia. reflexivity. }
    assert (E2 : 2 ^ (la + 1) = 2 * 2 ^ lb * 2 ^ k).
    { rewrite pow2_succ by lia. rewrite E1. lia. }
    assert (E3 : 2 ^ (lb + 1) = 2 * 2 ^ lb) by (apply pow2_succ; lia).
    rewrite Z.pow_0_r, Z.mul_1_r.
    destruct (Z.ltb_spec a (b * 2 ^ k)) as [Hlt|Hge]; cbv zeta.
    + (* fl = k - 1 *)
      replace (k - 1 + 1) with k by lia.
      replace (Z.max 0 k) with k by lia.
      destruct (Z.eq_dec k 0) as [Hk0|Hk0].
      * rewrite Hk0 in *. cbn [Z.sub Z.opp Z.max Z.add] .
        replace (Z.max 0 (0 - 1)) with 0 by lia.
        replace (Z.max 0 (- (0 - 1))) with 1 by lia.
        replace (Z.max 0 (- (0 - 1) - 1)) with 0 by lia.
        rewrite Z.pow_0_r in *. change (2 ^ 1) with 2. nia.
      * replace (Z.max 0 (k - 1)) with (k - 1) by lia.
        replace (Z.max 0 (- (k - 1))) with 0 by lia.
        replace (Z.max 0 (- (k - 1) - 1)) with 0 by lia.
        rewrite Z.pow_0_r, !Z.mul_1_r.
        assert (E4 : 2 ^ k = 2 * 2 ^ (k - 1)).
        { replace k with ((k - 1) + 1) at 1 by lia. apply pow2_succ. lia. }
        assert (0 < 2 ^ (k - 1)) by (apply pow2_pos; lia).
        split; [nia|lia].
    + (* fl = k *)
      replace (Z.max 0 k) with k by lia.
      replace (Z.max 0 (- k)) with 0 by lia.
      replace (Z.max 0 (- k - 1)) with 0 by lia.
      replace (Z.max 0 (k + 1)) with (k + 1) by lia.
      rewrite Z.pow_0_r, !Z.mul_1_r, (pow2_succ k) by lia.
      split; [lia|nia].
  - (* la < lb *)
    replace (Z.max 0 (- k)) with (- k) by lia.
    replace (Z.max 0 k) with 0 by lia.
    assert (Hlb' : lb = la + - k) by (unfold k; lia).
    assert (Hpk : 0 < 2 ^ (- k)) by (apply pow2_pos; lia).
    assert (Hpla : 0 < 2 ^ la) by (apply pow2_pos; lia).
    assert (E1 : 2 ^ lb = 2 ^ la * 2 ^ (- k)).
    { rewrite Hlb', Z.pow_add_r by lia. reflexivity. }
    assert (E2 : 2 ^ (lb + 1) = 2 * 2 ^ la * 2 ^ (- k)).
    { rewrite pow2_succ by lia. rewrite E1. lia. }
    assert (E3 : 2 ^ (la + 1) = 2 * 2 ^ la) by (apply pow2_succ; lia).
    rewrite Z.pow_0_r, Z.mul_1_r.
    destruct (Z.ltb_spec (a * 2 ^ (- k)) b) as [Hlt|Hge]; cbv zeta.
    + (* fl = k - 1 *)
      replace (Z.max 0 (k - 1)) with 0 by lia.
      replace (Z.max 0 (- (k - 1))) with (- k + 1) by lia.
      replace (Z.max 0 (- (k - 1) - 1)) with (- k) by lia.
      replace (Z.max 0 (k - 1 + 1)) with 0 by lia.
      rewrite Z.pow_0_r, !Z.mul_1_r, (pow2_succ (- k)) by lia.
      split; [nia|lia].
    + (* fl = k *)
      replace (Z.max 0 k) with 0 by lia.
      replace (Z.max 0 (- k)) with (- k) by lia.
      replace (Z.max 0 (- k - 1)) with (- k - 1) by lia.
      replace (Z.max 0 (k + 1)) with 0 by lia.
      rewrite Z.pow_0_r, !Z.mul_1_r.
      assert (E4 : 2 ^ (- k) = 2 * 2 ^ (- k - 1)).
      { replace (- k) with ((- k - 1) + 1) at 1 by lia. apply pow2_succ. lia. }
      assert (0 < 2 ^ (- k - 1)) by (apply pow2_pos; lia).
      split; [lia|nia].
Qed.

Lemma ceil_div_unique (m s n : Z) :
  0 < s -> (n - 1) * s < m <= n * s -> - ((- m) / s) = n.
Proof.
  intros Hs [Hlo Hhi].
  pose proof (Z.div_mod (- m) s ltac:(lia)) as Hdm.
  pose proof (Z.mod_pos_bound (- m) s Hs) as Hr.
  set (d := (- m) / s) in *. set (r := (- m) mod s) in *. clearbody d r.
  nia.
Qed.

(** For fewer than 2^53 rows and a page size from 1 to 2^1022, the page
    count that Python computes in floating point is the exact one: the
    number of rows divided by the page size, rounded up.  From 2^53 rows
    on the quotient is rounded first: 2^53 + 1 rows in pages of one row
    give 2^53 pages. *)
Theorem page_count_float_exact (total page_size : Z) :
  0 <= total < 2 ^ 53 ->
  1 <= page_size <= 2 ^ 1022 ->
  page_count_float total page_size = page_count total page_size /\
  (exists pages,
     page_count_float total page_size = Ok pages /\
     (pages - 1) * page_size < total <= pages * page_size) /\
  page_count_float (2 ^ 53 + 1) 1 = Ok (2 ^ 53) /\
  page_count (2 ^ 53 + 1) 1 = Ok (2 ^ 53 + 1).
Proof.
  intros Ha Hb.
  assert (Hlast : page_count_float (2 ^ 53 + 1) 1 = Ok (2 ^ 53) /\
                  page_count (2 ^ 53 + 1) 1 = Ok (2 ^ 53 + 1)).
  { split; vm_compute; reflexivity. }
  set (a := total) in *. set (b := page_size) in *.
  assert (Hexact : exists n0, page_count a b = Ok n0 /\
                              (n0 - 1) * b < a <= n0 * b).
  { unfold page_count. destruct (Z.eqb_spec a 0) as [->|Hne].
    - exists 0. split; [reflexivity|lia].
    - destruct (Z.eqb_spec b 0); [lia|].
      eexists. split; [reflexivity|].
      pose proof (Z.div_mod (- a) b ltac:(lia)) as Hdm.
      pose proof (Z.mod_pos_bound (- a) b ltac:(lia)) as Hr.
      set (d := (- a) / b) in *. set (r := (- a) mod b) in *. clearbody d r.
      nia. }
  destruct Hexact as (n0 & Hpc & Hn0).
  assert (Hfloat : page_count_float a b = Ok n0).
  { unfold page_count_float. destruct (Z.eqb_spec a 0) as [Ha0|Hne].
    - unfold page_count in Hpc. rewrite Ha0 in Hpc. cbn in Hpc. exact Hpc.
    - unfold int_truediv.
      destruct (Z.eqb_spec b 0); [lia|].
      destruct (Z.eqb_spec a 0); [lia|].
      cbv zeta.
      rewrite (Z.abs_eq a), (Z.abs_eq b) by lia.
      replace (Z.sgn a) with 1 by (symmetry; apply Z.sgn_pos; lia).
      replace (Z.sgn b) with 1 by (symmetry; apply Z.sgn_pos; lia).
      pose proof (quot_log2_spec a b ltac:(lia) ltac:(lia)) as Hspec.
      cbv zeta in Hspec. destruct Hspec as [S1 S2].
      set (fl := quot_log2 a b) in *. clearbody fl.
      assert (Hfl_hi : fl <= 52).
      { destruct (Z.le_gt_cases fl 52) as [H|H]; [exact H|exfalso].
        replace (Z.max 0 fl) with fl in S1 by lia.
        replace (Z.max 0 (- fl)) with 0 in S1 by lia.
        rewrite Z.pow_0_r, Z.mul_1_r in S1.
        pose proof (pow2_le 53 fl ltac:(lia)).
        nia. }
      assert (Hfl_lo : - 1022 <= fl).
      { destruct (Z.le_gt_cases (- 1022) fl) as [H|H]; [exact H|exfalso].
        replace (Z.max 0 (- fl - 1)) with (- fl - 1) in S2 by lia.
        replace (Z.max 0 (fl + 1)) with 0 in S2 by lia.
        rewrite Z.pow_0_r, Z.mul_1_r in S2.
        pose proof (pow2_le 1022 (- fl - 1) ltac:(lia)).
        nia. }
      replace (Z.max (fl - 52) (-1074)) with (fl - 52) by lia.
      replace (Z.max 0 (- (fl - 52))) with (52 - fl) by lia.
      replace (Z.max 0 (fl - 52)) with 0 by lia.
      rewrite Z.pow_0_r, Z.mul_1_r.
      set (s := 2 ^ (52 - fl)).
      assert (Hs : 0 < s) by (apply pow2_pos; lia).
      assert (Hbs : b < 2 * s).
      { destruct (Z.le_gt_cases 0 fl) as [H|H].
        - replace (Z.max 0 fl) with fl in S1 by lia.
          replace (Z.max 0 (- fl)) with 0 in S1 by lia.
          rewrite Z.pow_0_r, Z.mul_1_r in S1.
          assert (E : 2 ^ 53 = 2 * 2 ^ fl * s).
          { unfold s. rewrite <- Z.mul_assoc, <- Z.pow_add_r by lia.
            replace (fl + (52 - fl)) with 52 by lia. reflexivity. }
          assert (0 < 2 ^ fl) by (apply pow2_pos; lia).
          nia.
        - replace (Z.max 0 fl) with 0 in S1 by lia.
          replace (Z.max 0 (- fl)) with (- fl) in S1 by lia.
          rewrite Z.pow_0_r, Z.mul_1_r in S1.
          assert (E : 2 * s = 2 ^ 53 * 2 ^ (- fl)).
          { unfold s. rewrite <- Z.pow_add_r by lia.
            replace (53 + - fl) with ((52 - fl) + 1) by lia.
            rewrite pow2_succ by lia. reflexivity. }
          assert (0 < 2 ^ (- fl)) by (apply pow2_pos; lia).
          nia. }
      pose proof (round_half_even_spec (a * s) b ltac:(lia)) as Hm.
      set (m := round_half_even (a * s) b) in *. clearbody m.
      assert (Hup : m <= n0 * s) by nia.
      assert (Hlow : (n0 - 1) * s < m) by nia.
      assert (Hn0pos : 1 <= n0) by nia.
      assert (Hovf : (0 <=? fl - 52) && (2 ^ 1024 <=? m * 2 ^ (fl - 52)) = false).
      { destruct (Z.leb_spec 0 (fl - 52)) as [H|H]; [|reflexivity].
        assert (fl = 52) by lia. subst fl.
        change (52 - 52) with 0 in s. change (2 ^ 0) with 1 in s.
        subst s. cbn [andb]. change (2 ^ (52 - 52)) with 1.
        apply Z.leb_gt.
        pose proof (pow2_lt 53 1024 ltac:(lia)). nia. }
      rewrite Hovf. cbn [bind]. unfold math_ceil.
      rewrite !Z.mul_1_l.
      destruct (Z.leb_spec 0 (fl - 52)) as [H|H].
      + assert (fl = 52) by lia. subst fl.
        change (52 - 52) with 0 in s. change (2 ^ 0) with 1 in s. subst s.
        change (2 ^ (52 - 52)) with 1. f_equal. lia.
      + replace (- (fl - 52)) with (52 - fl) by lia. fold s.
        f_equal. apply ceil_div_unique; [exact Hs|lia]. }
  split; [rewrite Hfloat, Hpc; reflexivity|].
  split; [exists n0; split; [exact Hfloat|exact Hn0]|exact Hlast].
Qed.

Lemma page_count_float_exact_witness :
  page_count_float 7 3 = page_count 7 3 /\
  (exists pages,
     page_count_float 7 3 = Ok pages /\ (pages - 1) * 3 < 7 <= pages * 3) /\
  page_count_float (2 ^ 53 + 1) 1 = Ok (2 ^ 53) /\
  page_count (2 ^ 53 + 1) 1 = Ok (2 ^ 53 + 1).
Proof.
  apply (page_count_float_exact 7 3).
  - split; [lia|reflexivity].
  - split; [lia|]. apply Z.leb_le. vm_compute. reflexivity.
Defined.

End PageCountFacts.

(** * Properties of the command line and of the date range *)

Module CliFacts.
Import Pandas Cli.

(** When both [--since] and [--until] are given (and not empty), the date
    range is read from them alone: SINCE_DATE, UNTIL_DATE and the clock
    play no part.  YEARS_BACK is still read and converted first. *)
Theorem explicit_dates_override_environment
    (getenv getenv' : string -> option string) (int : string -> Result Z)
    (strptime : string -> option Date) (today today' : Z) (ns : Namespace) :
  truthy_str (since ns) = true ->
  truthy_str (until ns) = true ->
  getenv' "YEARS_BACK" = getenv "YEARS_BACK" ->
  resolve_dates getenv' int strptime today' ns
  = resolve_dates getenv int strptime today ns.
Proof.
  intros Hs Hu Hy. unfold resolve_dates, getenv_or. rewrite Hs, Hu, Hy.
  reflexivity.
Qed.

Lemma explicit_dates_override_environment_witness :
  let ns := set_since (Some "2024-01-01")
              (set_until (Some "2024-12-31")
                 (mkNamespace 5 3 None "data/raw" 5 120 false "T" None None)) in
  resolve_dates (sample_getenv [("SINCE_DATE", "1999-01-01")]) sample_int
    sample_strptime 20000 ns
  = resolve_dates (sample_getenv []) sample_int sample_strptime 0 ns.
Proof.
  intros ns.
  apply (explicit_dates_override_environment (sample_getenv [])
           (sample_getenv [("SINCE_DATE", "1999-01-01")]) sample_int
           sample_strptime 0 20000 ns); reflexivity.
Defined.

(** Edge cases of the date range: an empty [--since] or [--until] counts
    as not given; the value of [--years] is never used; and a YEARS_BACK
    that is not a number stops the run even when both dates are given. *)
Theorem date_range_edge_cases
    (getenv : string -> option string) (int : string -> Result Z)
    (strptime : string -> option Date) (today : Z) (ns : Namespace) :
  resolve_dates getenv int strptime today (set_since (Some "") ns)
  = resolve_dates getenv int strptime today (set_since None ns) /\
  resolve_dates getenv int strptime today (set_until (Some "") ns)
  = resolve_dates getenv int strptime today (set_until None ns) /\
  (forall y,
     resolve_dates getenv int strptime today (set_years y ns)
     = resolve_dates getenv int strptime today ns) /\
  (forall e,
     int (getenv_or getenv "YEARS_BACK" "5") = Raise e ->
     resolve_dates getenv int strptime today ns = Raise e).
Proof.
  split; [reflexivity|]. split; [reflexivity|]. split; [reflexivity|].
  intros e He. unfold resolve_dates. rewrite He. reflexivity.
Qed.

Lemma date_range_edge_cases_witness :
  resolve_dates (sample_getenv [("YEARS_BACK", "five")]) sample_int
    sample_strptime 0
    (mkNamespace 5 3 None "data/raw" 5 120 false "T"
       (Some "2024-01-01") (Some "2024-12-31"))
  = Raise (OtherError "invalid literal for int() with base 10: 'five'").
Proof.
  destruct (date_range_edge_cases (sample_getenv [("YEARS_BACK", "five")])
              sample_int sample_strptime 0
              (mkNamespace 5 3 None "data/raw" 5 120 false "T"
                 (Some "2024-01-01") (Some "2024-12-31")))
    as (_ & _ & _ & H).
  apply H. reflexivity.
Defined.

(** The defaults of [get_args]: an option given on the command line wins
    over the environment, the environment over the built-in value; but the
    YEARS_BACK and PAGE_SIZE of the environment are converted first, so one
    that is not a number stops the script even when the option is given. *)
Theorem get_args_defaults
    (getenv : string -> option string) (int : string -> Result Z)
    (flags : Flags) :
  (forall ns, get_args getenv int flags = Ok ns ->
     (forall y, f_years flags = Some y -> years ns = y) /\
     (f_years flags = None ->
      int (getenv_or getenv "YEARS_BACK" "5") = Ok (years ns)) /\
     (forall p, f_page_size flags = Some p -> page_size ns = p) /\
     (f_page_size flags = None ->
      int (getenv_or getenv "PAGE_SIZE" "50000") = Ok (page_size ns)) /\
     (forall d, f_out_dir flags = Some d -> out_dir ns = d) /\
     (f_out_dir flags = None -> out_dir ns = getenv_or getenv "OUT_DIR" "data/raw") /\
     (f_max_retries flags = None -> max_retries ns = 5) /\
     limit ns = f_limit flags) /\
  (forall e, int (getenv_or getenv "YEARS_BACK" "5") = Raise e ->
     get_args getenv int flags = Raise e) /\
  (forall y e, int (getenv_or getenv "YEARS_BACK" "5") = Ok y ->
     int (getenv_or getenv "PAGE_SIZE" "50000") = Raise e ->
     get_args getenv int flags = Raise e).
Proof.
  unfold get_args. split; [|split].
  - intros ns.
    destruct (int (getenv_or getenv "YEARS_BACK" "5")) as [y|e]; [|discriminate].
    destruct (int (getenv_or getenv "PAGE_SIZE" "50000")) as [p|e]; [|discriminate].
    cbn [bind]. intros H. apply Ok_inj in H. subst ns.
    cbn [years page_size out_dir max_retries limit].
    repeat split; try (intros ? ->; reflexivity); intros ->; reflexivity.
  - intros e ->. reflexivity.
  - intros y e -> ->. reflexivity.
Qed.

Lemma get_args_defaults_witness :
  get_args (sample_getenv [("YEARS_BACK", "2"); ("PAGE_SIZE", "many")])
    sample_int
    (mkFlags (Some 1) (Some 500) None (Some "o") None None false None None None)
  = Raise (OtherError "invalid literal for int() with base 10: 'many'").
Proof.
  destruct (get_args_defaults
              (sample_getenv [("YEARS_BACK", "2"); ("PAGE_SIZE", "many")])
              sample_int
              (mkFlags (Some 1) (Some 500) None (Some "o") None None false
                 None None None)) as (_ & _ & H).
  apply (H 2); reflexivity.
Defined.

(** A run whose options or dates cannot be read, or whose range starts
    after it ends, stops with the exception before any request is made:
    the world is as it was. *)
Theorem bad_dates_fail_before_any_request {Rec C : Type}
    (getenv : string -> option string) (int : string -> Result Z)
    (strptime : string -> option Date) (today : Z)
    (client_get : C -> Ingest.Query -> Result (list (Ingest.ApiRow Rec)) * C)
    (standardize : Ingest.ApiRow Rec -> Ingest.ApiRow Rec)
    (fuel : nat) (flags : Flags) (w : @Ingest.World Rec C) :
  (forall e, get_args getenv int flags = Raise e ->
     run getenv int strptime today client_get standardize fuel flags w
     = Some (Raise e, w)) /\
  (forall ns e, get_args getenv int flags = Ok ns ->
     resolve_dates getenv int strptime today ns = Raise e ->
     run getenv int strptime today client_get standardize fuel flags w
     = Some (Raise e, w)) /\
  (forall ns since_date until_date,
     get_args getenv int flags = Ok ns ->
     resolve_dates getenv int strptime today ns = Ok (since_date, until_date) ->
     Ingest.date_gt since_date until_date = true ->
     exists msg,
       run getenv int strptime today client_get standardize fuel flags w
       = Some (Raise (SystemExit msg), w)).
Proof.
  unfold run. split; [|split].
  - intros e ->. reflexivity.
  - intros ns e -> ->. reflexivity.
  - intros ns s u -> -> Hgt. unfold Ingest.main. rewrite Hgt. eauto.
Qed.

Lemma bad_dates_fail_before_any_request_witness :
  exists msg,
    run (sample_getenv []) sample_int sample_strptime 0
      (Ingest.consistent_get [1; 2; 3]) id 5
      (mkFlags None None None None None None false None
         (Some "2024-12-31") (Some "2024-01-01"))
      (Aux.fresh_world tt)
    = Some (Raise (SystemExit msg), Aux.fresh_world tt).
Proof.
  destruct (bad_dates_fail_before_any_request (sample_getenv []) sample_int
              sample_strptime 0 (Ingest.consistent_get [1; 2; 3]) id 5
              (mkFlags None None None None None None false None
                 (Some "2024-12-31") (Some "2024-01-01"))
              (Aux.fresh_world tt)) as (_ & _ & H).
  eapply H; reflexivity.
Defined.

End CliFacts.

(** * Further properties of the precomputed summaries *)

Module SummariesMore.
Import Pandas Summaries.

Lemma sum_Z_plus {K : Type} (a b : K -> Z) (ks : list K) :
  sum_Z (map (fun k => a k + b k) ks) = sum_Z (map a ks) + sum_Z (map b ks).
Proof.
  induction ks as [|k ks IH]; [reflexivity|].
  cbn [map sum_Z fold_right]. unfold sum_Z in IH. rewrite IH. lia.
Qed.

Lemma sum_Z_scale {K : Type} (c : Z) (a : K -> Z) (ks : list K) :
  sum_Z (map (fun k => c * a k) ks) = c * sum_Z (map a ks).
Proof.
  induction ks as [|k ks IH]; [cbn; lia|].
  cbn [map sum_Z fold_right]. unfold sum_Z in IH. rewrite IH. lia.
Qed.

Section GroupBy.
Context {A K : Type} `{EqDecision K}.
Variable key : A -> K.

Lemma sum_indicator (k0 : K) (ks : list K) :
  NoDup ks -> k0 ∈ ks ->
  sum_Z (map (fun k => if bool_decide (k0 = k) then 1 else 0) ks) = 1.
Proof.
  induction 1 as [|k ks Hk Hnd IH]; intros Hin; [inversion Hin|].
  cbn [map sum_Z fold_right]. fold (sum_Z (map (fun k => if bool_decide (k0 = k) then 1 else 0) ks)).
  destruct (decide (k0 = k)) as [->|Hne].
  - rewrite bool_decide_eq_true_2 by reflexivity.
    assert (Hz : sum_Z (map (fun k' => if bool_decide (k = k') then 1 else 0) ks) = 0).
    { clear IH Hnd Hin. induction ks as [|k' ks IHk]; [reflexivity|].
      cbn [map sum_Z fold_right]. apply not_elem_of_cons in Hk as [Hne Hk].
      rewrite (bool_decide_eq_false_2 _ Hne). unfold sum_Z in IHk.
      rewrite (IHk Hk). reflexivity. }
    rewrite Hz. reflexivity.
  - rewrite (bool_decide_eq_false_2 _ Hne).
    apply elem_of_cons in Hin as [?|Hin]; [contradiction|].
    rewrite (IH Hin). reflexivity.
Qed.

Lemma sum_over_keys (f : A -> Z) (ks : list K) (rows : list A) :
  NoDup ks ->
  (forall r, r ∈ rows -> key r ∈ ks) ->
  sum_Z (map (fun k =>
                sum_Z (map f (List.filter (fun r => bool_decide (key r = k)) rows)))
             ks)
  = sum_Z (map f rows).
Proof.
  intros Hnd. induction rows as [|r rows IH]; intros Hin.
  - rewrite (map_ext _ (fun _ => 0 * 0)) by reflexivity.
    rewrite sum_Z_scale. reflexivity.
  - rewrite (map_ext _ (fun k =>
               f r * (if bool_decide (key r = k) then 1 else 0)
               + sum_Z (map f (List.filter (fun r => bool_decide (key r = k)) rows)))).
    2:{ intros k. cbn [List.filter].
        destruct (bool_decide (key r = k)); unfold sum_Z;
          cbn [map fold_right]; lia. }
    rewrite sum_Z_plus, sum_Z_scale, IH
      by (intros r' Hr'; apply Hin, list_elem_of_further, Hr').
    rewrite (sum_indicator (key r) ks Hnd) by (apply Hin, list_elem_of_here).
    unfold sum_Z. cbn [map fold_right]. lia.
Qed.

(** Grouping loses no row and duplicates none: summing a quantity over
    the groups is summing it over the rows. *)
Lemma group_by_sum (f : A -> Z) (rows : list A) :
  sum_Z (map (fun g => sum_Z (map f (snd g))) (group_by key rows))
  = sum_Z (map f rows).
Proof.
  unfold group_by. rewrite map_map. cbn [snd].
  apply sum_over_keys.
  - apply NoDup_remove_dups.
  - intros r Hr. apply elem_of_remove_dups, list_elem_of_In, in_map.
    apply list_elem_of_In. exact Hr.
Qed.

Lemma group_by_groups (rows : list A) :
  Forall (fun g => snd g <> [] /\ Forall (fun r => key r = fst g) (snd g) /\
                   snd g = List.filter (fun r => bool_decide (key r = fst g)) rows)
         (group_by key rows).
Proof.
  unfold group_by. apply Forall_forall. intros g Hg.
  apply list_elem_of_In, in_map_iff in Hg as (k & <- & Hk). cbn [fst snd].
  apply list_elem_of_In, elem_of_remove_dups, list_elem_of_In, in_map_iff in Hk
    as (r & Hkr & Hr).
  split; [|split; [|reflexivity]].
  - intros Hnil.
    assert (Hin : In r (List.filter (fun r => bool_decide (key r = k)) rows)).
    { apply filter_In. split; [exact Hr|]. apply bool_decide_eq_true. exact Hkr. }
    rewrite Hnil in Hin. exact Hin.
  - apply Forall_forall. intros r' Hr'.
    apply list_elem_of_In, filter_In in Hr' as [_ Hr'].
    apply bool_decide_eq_true in Hr'. exact Hr'.
Qed.

End GroupBy.

Lemma sum_Z_ones {A : Type} (l : list A) :
  sum_Z (map (fun _ => 1) l) = Z.of_nat (length l).
Proof.
  induction l as [|a l IH]; [reflexivity|].
  cbn [map sum_Z fold_right length]. unfold sum_Z in IH. rewrite IH. lia.
Qed.


Section Tables.
Variable cast_date : Z -> Date.
Variable strftime_A : Z -> string.
Variable extract_hour : Z -> Z.
Variable sla : Q.

Abbreviation daily_key :=
  (fun t : Ticket => (option_map cast_date (created_dt t), borough t,
                      complaint_type t)).
Abbreviation dow_key :=
  (fun t : Ticket => (option_map strftime_A (created_dt t),
                      option_map extract_hour (created_dt t),
                      borough t, complaint_type t)).
Abbreviation ct_key := (fun d : DailyRow => (dy_complaint_type d, dy_borough d)).

(** The tables, group by group. *)
Lemma sql_daily_groups (rows : list Ticket) :
  map (fun d => (dy_date d, dy_borough d, dy_complaint_type d, dy_tickets d,
                 dy_pct_within d))
      (sql_daily cast_date sla rows)
  = map (fun g => (fst g, Z.of_nat (length (snd g)), pct_within_of sla (snd g)))
        (group_by daily_key (scanned rows)).
Proof.
  unfold sql_daily. rewrite map_map. apply map_ext.
  intros [[[d b] c] l]. reflexivity.
Qed.

Lemma sql_dow_groups (rows : list Ticket) :
  map (fun d => (dh_dow_name d, dh_hour d, dh_borough d, dh_complaint_type d,
                 dh_tickets d, dh_breach_rate d))
      (sql_dow strftime_A extract_hour sla rows)
  = map (fun g => (fst g, Z.of_nat (length (snd g)), breach_rate_of sla (snd g)))
        (group_by dow_key (scanned rows)).
Proof.
  unfold sql_dow. rewrite map_map. apply map_ext.
  intros [[[[n h] b] c] l]. reflexivity.
Qed.

Lemma map_proj {A B D : Type} (f : A -> B) (g : B -> D) (h : A -> D)
    (l : list A) (l' : list B) :
  map f l = l' -> (forall a, h a = g (f a)) -> map h l = map g l'.
Proof.
  intros <- Hh. rewrite map_map. apply map_ext. exact Hh.
Qed.

(** Every ticket that has a creation timestamp is counted once in each
    summary: the [tickets] of the daily table, of the day-of-week table
    and of the complaint-type table each add up to the number of such
    tickets. *)
Theorem tickets_add_up (rows : list Ticket) :
  sum_Z (map dy_tickets (sql_daily cast_date sla rows))
  = Z.of_nat (length (scanned rows)) /\
  sum_Z (map dh_tickets (sql_dow strftime_A extract_hour sla rows))
  = Z.of_nat (length (scanned rows)) /\
  (forall cts,
     complaint_type_summary (sql_daily cast_date sla rows) = Some cts ->
     sum_Z (map ct_tickets cts) = Z.of_nat (length (scanned rows))).
Proof.
  assert (Hd : sum_Z (map dy_tickets (sql_daily cast_date sla rows))
               = Z.of_nat (length (scanned rows))).
  { rewrite (map_proj _ (fun x => snd (fst x)) _ _ _ (sql_daily_groups rows))
      by reflexivity.
    rewrite map_map. cbn [fst snd].
    rewrite <- sum_Z_ones, <- (group_by_sum daily_key (fun _ => 1)).
    f_equal. apply map_ext. intros g. rewrite sum_Z_ones. reflexivity. }
  split; [exact Hd|]. split.
  - rewrite (map_proj _ (fun x => snd (fst x)) _ _ _ (sql_dow_groups rows))
      by reflexivity.
    rewrite map_map. cbn [fst snd].
    rewrite <- sum_Z_ones, <- (group_by_sum dow_key (fun _ => 1)).
    f_equal. apply map_ext. intros g. rewrite sum_Z_ones. reflexivity.
  - intros cts. unfold complaint_type_summary.
    destruct (sql_daily cast_date sla rows) as [|d ds] eqn:Hdaily;
      [discriminate|].
    intros [= <-]. rewrite map_map. cbn [ct_tickets].
    rewrite (group_by_sum ct_key dy_tickets). exact Hd.
Qed.

Lemma sum_Z_range (xs : list Z) :
  Forall (fun x => 0 <= x <= 1) xs -> 0 <= sum_Z xs <= Z.of_nat (length xs).
Proof.
  induction 1 as [|x xs Hx _ IH]; cbn [sum_Z fold_right length]; [lia|].
  unfold sum_Z in IH. lia.
Qed.

Lemma avg_proportion (xs : list Z) :
  xs <> [] -> Forall (fun x => 0 <= x <= 1) xs ->
  exists p, avg xs = Some p /\ (0 <= p <= 1)%Q.
Proof.
  intros Hne Hall. pose proof (sum_Z_range xs Hall) as Hsum.
  destruct xs as [|x xs]; [contradiction|].
  unfold avg. eexists. split; [reflexivity|].
  assert (Hn : Z.pos (Pos.of_nat (length (x :: xs)))
               = Z.of_nat (length (x :: xs))).
  { cbn [length]. rewrite <- Pos.of_nat_succ. lia. }
  unfold Qle. cbn [Qnum Qden]. rewrite Hn. lia.
Qed.

Lemma case_when_range (c : option bool) : 0 <= case_when_1_else_0 c <= 1.
Proof. destruct c as [[|]|]; cbn; lia. Qed.

Lemma rate_proportion (group : list Ticket) :
  group <> [] ->
  (exists p, pct_within_of sla group = Some p /\ (0 <= p <= 1)%Q) /\
  (exists b, breach_rate_of sla group = Some b /\ (0 <= b <= 1)%Q).
Proof.
  intros Hne. unfold pct_within_of, breach_rate_of.
  split; apply avg_proportion;
    try (destruct group; [contradiction|discriminate]);
    apply Forall_forall; intros x Hx;
    apply list_elem_of_In, in_map_iff in Hx as (t & <- & _);
    apply case_when_range.
Qed.

(** Every row of the daily table counts at least one ticket and has a
    [pct_within] that is not null and lies between 0 and 1; the same holds
    for the [breach_rate] of the day-of-week table. *)
Theorem rates_are_proportions (rows : list Ticket) :
  Forall (fun d => 1 <= dy_tickets d /\
                   exists p, dy_pct_within d = Some p /\ (0 <= p <= 1)%Q)
         (sql_daily cast_date sla rows) /\
  Forall (fun d => 1 <= dh_tickets d /\
                   exists b, dh_breach_rate d = Some b /\ (0 <= b <= 1)%Q)
         (sql_dow strftime_A extract_hour sla rows).
Proof.
  split.
  - unfold sql_daily. apply Forall_forall. intros d Hd.
    apply list_elem_of_In, in_map_iff in Hd as (g & <- & Hg).
    pose proof (group_by_groups daily_key (scanned rows)) as Hall.
    rewrite Forall_forall in Hall.
    destruct (Hall g (proj2 (list_elem_of_In _ _) Hg)) as (Hne & _).
    destruct g as [[[dd b] c] l]. cbn [fst snd dy_tickets dy_pct_within] in *.
    split; [destruct l; [contradiction|cbn [length]; lia]|].
    apply rate_proportion. exact Hne.
  - unfold sql_dow. apply Forall_forall. intros d Hd.
    apply list_elem_of_In, in_map_iff in Hd as (g & <- & Hg).
    pose proof (group_by_groups dow_key (scanned rows)) as Hall.
    rewrite Forall_forall in Hall.
    destruct (Hall g (proj2 (list_elem_of_In _ _) Hg)) as (Hne & _).
    destruct g as [[[[n h] b] c] l]. cbn [fst snd dh_tickets dh_breach_rate] in *.
    split; [destruct l; [contradiction|cbn [length]; lia]|].
    apply rate_proportion. exact Hne.
Qed.

Lemma eligible_sum (group : list Ticket) :
  sum_Z (map (fun t => case_when_1_else_0 (sql_le (response_hours t) sla)) group)
  + sum_Z (map (fun t => case_when_1_else_0 (sql_gt (response_hours t) sla)) group)
  = Z.of_nat (length (omap response_hours group)).
Proof.
  induction group as [|t group IH]; [reflexivity|].
  cbn [map sum_Z fold_right omap list_omap]. unfold sum_Z in IH.
  destruct (response_hours t) as [h|]; cbn [sql_le sql_gt option_map].
  - destruct (Qle_bool h sla); cbn [negb case_when_1_else_0 length]; lia.
  - cbn [case_when_1_else_0]. lia.
Qed.

(** The within-SLA rate and the breach rate of one group add up to the
    share of its tickets that have a response time: to 1 when all have
    one, to less as soon as one has none. *)
Theorem rates_add_up_to_eligible_share (group : list Ticket) :
  group <> [] ->
  exists p b,
    pct_within_of sla group = Some p /\
    breach_rate_of sla group = Some b /\
    (p + b == Z.of_nat (length (omap response_hours group))
              # Pos.of_nat (length group))%Q /\
    ((p + b == 1)%Q <-> Forall (fun t => is_Some (response_hours t)) group).
Proof.
  intros Hne. pose proof (eligible_sum group) as Hsum.
  assert (Hle : (length (omap response_hours group) <= length group)%nat).
  { clear. induction group as [|t group IH]; [reflexivity|].
    cbn [omap list_omap]. destruct (response_hours t); cbn [length]; lia. }
  assert (Hall : length (omap response_hours group) = length group <->
                 Forall (fun t => is_Some (response_hours t)) group).
  { clear. induction group as [|t group IH]; [split; [constructor|reflexivity]|].
    assert (Hle : (length (omap response_hours group) <= length group)%nat).
    { clear. induction group as [|t group IH]; [reflexivity|].
      cbn [omap list_omap]. destruct (response_hours t); cbn [length]; lia. }
    cbn [omap list_omap]. destruct (response_hours t) as [h|] eqn:Ht;
      cbn [length]; split.
    - intros H. constructor; [rewrite Ht; eauto|]. apply IH. lia.
    - intros H. inversion H; subst. f_equal. apply IH. assumption.
    - intros H. lia.
    - intros H. inversion H as [|? ? [h Hh]]; subst. congruence. }
  unfold pct_within_of, breach_rate_of in *.
  destruct group as [|t group]; [contradiction|].
  cbn [map] in *. unfold avg. cbn [length] in *. rewrite !length_map.
  eexists. eexists. split; [reflexivity|]. split; [reflexivity|].
  assert (Hn : Z.pos (Pos.of_nat (S (length group)))
               = Z.of_nat (S (length group))).
  { rewrite <- Pos.of_nat_succ. lia. }
  split.
  - unfold Qeq, Qplus. cbn [Qnum Qden]. rewrite Pos2Z.inj_mul, Hn. nia.
  - rewrite <- Hall. unfold Qeq, Qplus. cbn [Qnum Qden].
    rewrite Pos2Z.inj_mul, Hn. split; intros H; nia.
Qed.

Lemma group_by_nil {A K : Type} `{EqDecision K} (key : A -> K) (rows : list A) :
  group_by key rows = [] <-> rows = [].
Proof.
  split; [|intros ->; reflexivity].
  destruct rows as [|r rows]; [reflexivity|]. intros H. exfalso.
  assert (Hin : key r ∈ remove_dups (map key (r :: rows))).
  { apply elem_of_remove_dups. apply list_elem_of_here. }
  unfold group_by in H. apply map_eq_nil in H. rewrite H in Hin.
  inversion Hin.
Qed.

(** The complaint-type summary is computed exactly when some ticket has a
    creation timestamp; otherwise the two SQL summaries are empty. *)
Lemma no_ticket_no_summary (rows : list Ticket) :
  (scanned rows = [] <->
   complaint_type_summary (sql_daily cast_date sla rows) = None) /\
  (scanned rows = [] <-> sql_daily cast_date sla rows = []) /\
  (scanned rows = [] <-> sql_dow strftime_A extract_hour sla rows = []).
Proof.
  assert (Hd : scanned rows = [] <-> sql_daily cast_date sla rows = []).
  { rewrite <- (group_by_nil daily_key). unfold sql_daily.
    split; [intros ->; reflexivity|apply map_eq_nil]. }
  split; [|split; [exact Hd|]].
  - rewrite Hd. unfold complaint_type_summary.
    destruct (sql_daily cast_date sla rows); split; congruence.
  - rewrite <- (group_by_nil dow_key). unfold sql_dow.
    split; [intros ->; reflexivity|apply map_eq_nil].
Qed.

Lemma scanned_nil_iff (rows : list Ticket) :
  scanned rows = [] <-> forall t, t ∈ rows -> created_dt t = None.
Proof.
  unfold scanned. rewrite ProcessFacts.filter_nil_iff. split.
  - intros H t Ht. specialize (H t Ht).
    apply bool_decide_eq_false in H.
    destruct (created_dt t); [exfalso; apply H; eauto|reflexivity].
  - intros H t Ht. rewrite (H t Ht). apply bool_decide_eq_false.
    intros [x Hx]. discriminate.
Qed.

(** With no partition file the script stops at its first query with
    DuckDB's IO error, having only created the output directory.  With
    partition files it ends normally and writes the daily and the
    day-of-week summaries of their rows; it writes the complaint-type
    summary when some ticket has a creation timestamp, and when none has,
    the two summaries are empty and the complaint-type file is left as it
    was. *)
Theorem precompute_summaries_outcome (files : list (list Ticket)) (out : Out) :
  let run := precompute_summaries cast_date strftime_A extract_hour sla in
  (files = [] ->
   exists e,
     run files out
     = (mkOut true (daily_summary out) (complaint_type_summary_file out)
          (dow_hour_summary out), Raise e)) /\
  (files <> [] ->
   let rows := concat files in
   snd (run files out) = Ok tt /\
   out_dir (fst (run files out)) = true /\
   daily_summary (fst (run files out)) = Some (sql_daily cast_date sla rows) /\
   dow_hour_summary (fst (run files out))
   = Some (sql_dow strftime_A extract_hour sla rows) /\
   ((exists t, t ∈ rows /\ is_Some (created_dt t)) ->
    exists df_ct,
      complaint_type_summary (sql_daily cast_date sla rows) = Some df_ct /\
      complaint_type_summary_file (fst (run files out)) = Some df_ct) /\
   ((forall t, t ∈ rows -> created_dt t = None) ->
    complaint_type_summary_file (fst (run files out))
    = complaint_type_summary_file out /\
    sql_daily cast_date sla rows = [] /\
    sql_dow strftime_A extract_hour sla rows = [])).
Proof.
  cbv zeta. split.
  - intros ->. eexists. reflexivity.
  - intros Hne. unfold precompute_summaries.
    destruct files as [|f files]; [contradiction|].
    cbn [parquet_scan]. set (rows := concat (f :: files)).
    destruct (no_ticket_no_summary rows) as (Hct & Hd & Hw).
    destruct (complaint_type_summary (sql_daily cast_date sla rows))
      as [df_ct|] eqn:Hsum; cbn [fst snd out_dir daily_summary dow_hour_summary
                                  complaint_type_summary_file].
    + do 4 (split; [reflexivity|]). split.
      * intros _. exists df_ct. split; reflexivity.
      * intros Hnone. apply scanned_nil_iff in Hnone.
        apply Hct in Hnone. discriminate.
    + do 4 (split; [reflexivity|]). split.
      * intros (t & Ht & Hsome). exfalso.
        assert (Hnil : scanned rows = []) by (apply Hct; reflexivity).
        pose proof (proj1 (scanned_nil_iff rows) Hnil t Ht) as Hn.
        rewrite Hn in Hsome. destruct Hsome as [x Hx]. discriminate.
      * intros Hnone. apply scanned_nil_iff in Hnone.
        split; [reflexivity|]. split; [apply Hd|apply Hw]; exact Hnone.
Qed.

(** *** The complaint-type table, down to the tickets *)

Lemma sum_Z_filter {A : Type} (P : A -> bool) (f : A -> Z) (l : list A) :
  sum_Z (map f (List.filter P l))
  = sum_Z (map (fun x => if P x then f x else 0) l).
Proof.
  induction l as [|a l IH]; [reflexivity|].
  cbn [List.filter map]. unfold sum_Z in *.
  destruct (P a); cbn [map fold_right]; rewrite IH; reflexivity.
Qed.

Lemma sum_Z_ext_in {A : Type} (f g : A -> Z) (l : list A) :
  Forall (fun x => f x = g x) l -> sum_Z (map f l) = sum_Z (map g l).
Proof.
  induction 1 as [|a l Ha _ IH]; [reflexivity|].
  cbn [map sum_Z fold_right]. unfold sum_Z in IH. rewrite Ha, IH. reflexivity.
Qed.

Lemma sum_Z_complement {A : Type} (f : A -> Z) (l : list A) :
  sum_Z (map (fun t => 1 - f t) l) = Z.of_nat (length l) - sum_Z (map f l).
Proof.
  induction l as [|a l IH]; [reflexivity|].
  unfold sum_Z in *. cbn [map fold_right length]. lia.
Qed.

Lemma filter_map_comm {A B : Type} (P : B -> bool) (m : A -> B) (l : list A) :
  List.filter P (map m l) = map m (List.filter (fun a => P (m a)) l).
Proof.
  induction l as [|a l IH]; [reflexivity|].
  cbn [map List.filter]. destruct (P (m a)); cbn [map]; rewrite IH; reflexivity.
Qed.

(** Summing over the tickets of the daily groups of one complaint type
    and borough is summing over the tickets of that complaint type and
    borough. *)
Lemma nested_group_sum (f : Ticket -> Z) (k2 : option string * option string)
    (rows : list Ticket) :
  sum_Z (map (fun g => sum_Z (map f (snd g)))
             (List.filter
                (fun g => bool_decide ((snd (fst g), snd (fst (fst g))) = k2))
                (group_by daily_key rows)))
  = sum_Z (map f (List.filter
                    (fun t => bool_decide ((complaint_type t, borough t) = k2))
                    rows)).
Proof.
  rewrite !sum_Z_filter.
  rewrite <- (group_by_sum daily_key
                (fun t => if bool_decide ((complaint_type t, borough t) = k2)
                          then f t else 0)).
  apply sum_Z_ext_in.
  pose proof (group_by_groups daily_key rows) as Hall.
  eapply Forall_impl; [exact Hall|]. cbn beta.
  intros [[[d b] c] l] (_ & Hkeys & _). cbn [fst snd] in *.
  destruct (bool_decide ((c, b) = k2)) eqn:Hk.
  - apply sum_Z_ext_in. eapply Forall_impl; [exact Hkeys|]. cbn beta.
    intros t [= _ Hb Hc]. rewrite Hb, Hc, Hk. reflexivity.
  - rewrite (sum_Z_ext_in _ (fun _ => 0 * 0)).
    + rewrite sum_Z_scale. reflexivity.
    + eapply Forall_impl; [exact Hkeys|]. cbn beta.
      intros t [= _ Hb Hc]. rewrite Hb, Hc, Hk. reflexivity.
Qed.

Lemma breach_count (n : nat) (w : Z) :
  (1 <= n)%nat ->
  (inject_Z (Z.of_nat n) * (1 - (w # Pos.of_nat n)) == inject_Z (Z.of_nat n - w))%Q.
Proof.
  intros Hn.
  assert (Hp : Z.pos (Pos.of_nat n) = Z.of_nat n).
  { destruct n; [lia|]. rewrite <- Pos.of_nat_succ. lia. }
  unfold Qeq, Qmult, Qminus, Qplus, Qopp, inject_Z. cbn [Qnum Qden].
  rewrite !Pos2Z.inj_mul, Hp. ring.
Qed.

Lemma daily_row_breaches (g : option Date * option string * option string
                              * list Ticket) :
  snd g <> [] ->
  exists q,
    breaches (let '(d, b, c) := fst g in
              {| dy_date := d; dy_borough := b; dy_complaint_type := c;
                 dy_tickets := Z.of_nat (length (snd g));
                 dy_median_response := median (map response_hours (snd g));
                 dy_pct_within := pct_within_of sla (snd g) |}) = Some q /\
    (q == inject_Z
            (Z.of_nat (length (snd g))
             - sum_Z (map (fun t => case_when_1_else_0
                                      (sql_le (response_hours t) sla)) (snd g))))%Q.
Proof.
  destruct g as [[[d b] c] l]. cbn [fst snd]. intros Hne.
  unfold breaches. cbn [dy_tickets dy_pct_within].
  unfold pct_within_of, avg.
  destruct l as [|t l]; [contradiction|].
  cbn [map length]. rewrite !length_map.
  eexists. split; [reflexivity|].
  apply (breach_count (S (length l))). lia.
Qed.

Lemma sum_Q_breaches
    (gs : list (option Date * option string * option string * list Ticket)) :
  Forall (fun g => snd g <> []) gs ->
  (sum_Q (omap breaches
            (map (fun g =>
                    let '(d, b, c) := fst g in
                    {| dy_date := d; dy_borough := b; dy_complaint_type := c;
                       dy_tickets := Z.of_nat (length (snd g));
                       dy_median_response := median (map response_hours (snd g));
                       dy_pct_within := pct_within_of sla (snd g) |}) gs))
   == inject_Z
        (sum_Z (map (fun g =>
                       sum_Z (map (fun t => (1
                                      - case_when_1_else_0
                                          (sql_le (response_hours t) sla))%Z)
                                  (snd g))) gs)))%Q.
Proof.
  induction 1 as [|g gs Hg _ IH]; [reflexivity|].
  cbn [map omap list_omap].
  destruct (daily_row_breaches g Hg) as (q & -> & Hq).
  cbn [sum_Q fold_right sum_Z]. fold (sum_Q (omap breaches
    (map (fun g => let '(d, b, c) := fst g in
                   {| dy_date := d; dy_borough := b; dy_complaint_type := c;
                      dy_tickets := Z.of_nat (length (snd g));
                      dy_median_response := median (map response_hours (snd g));
                      dy_pct_within := pct_within_of sla (snd g) |}) gs))).
  rewrite IH, Hq, inject_Z_plus.
  apply Qplus_comp; [|reflexivity].
  rewrite sum_Z_complement. reflexivity.
Qed.

(** A row of the complaint-type table counts the tickets of its complaint
    type and borough, and its [breach_rate] is the share of those tickets
    whose response time is not at most the threshold: a ticket without a
    response time counts as a breach. *)
Theorem complaint_type_breach_rate (rows : list Ticket)
    (cts : list ComplaintTypeRow) (r : ComplaintTypeRow) :
  complaint_type_summary (sql_daily cast_date sla rows) = Some cts ->
  r ∈ cts ->
  let group :=
    List.filter
      (fun t => bool_decide ((complaint_type t, borough t)
                             = (ct_complaint_type r, ct_borough r)))
      (scanned rows) in
  ct_tickets r = Z.of_nat (length group) /\
  1 <= ct_tickets r /\
  (ct_breach_rate r
   == (Z.of_nat (length group)
       - sum_Z (map (fun t => case_when_1_else_0 (sql_le (response_hours t) sla))
                    group))
      # Pos.of_nat (length group))%Q.
Proof.
  intros Hsum Hr. cbv zeta.
  unfold complaint_type_summary in Hsum.
  destruct (sql_daily cast_date sla rows) as [|d0 ds0] eqn:Hdaily;
    [discriminate|]. rewrite <- Hdaily in Hsum. clear d0 ds0 Hdaily.
  injection Hsum as <-.
  apply list_elem_of_In, in_map_iff in Hr as (g2 & <- & Hg2).
  cbn [ct_complaint_type ct_borough ct_tickets ct_breach_rate].
  pose proof (group_by_groups ct_key (sql_daily cast_date sla rows)) as Hall.
  rewrite Forall_forall in Hall.
  destruct (Hall g2 (proj2 (list_elem_of_In _ _) Hg2)) as (Hne & _ & Hds).
  destruct g2 as [[c b] ds]. cbn [fst snd] in *. clear Hall Hg2.
  set (k2 := (c, b)) in *.
  unfold sql_daily in Hds. rewrite filter_map_comm in Hds.
  set (gs := List.filter _ (group_by daily_key (scanned rows))) in Hds.
  assert (Hgs : gs = List.filter
                       (fun g => bool_decide ((snd (fst g), snd (fst (fst g))) = k2))
                       (group_by daily_key (scanned rows))).
  { unfold gs. apply filter_ext. intros [[[dd bb] cc] l]. reflexivity. }
  assert (Hnon : Forall (fun g => snd g <> []) gs).
  { unfold gs. apply Forall_forall. intros g Hg.
    apply list_elem_of_In, filter_In in Hg as [Hg _].
    pose proof (group_by_groups daily_key (scanned rows)) as Hall.
    rewrite Forall_forall in Hall.
    apply (Hall g (proj2 (list_elem_of_In _ _) Hg)). }
  set (group := List.filter
                  (fun t => bool_decide ((complaint_type t, borough t) = k2))
                  (scanned rows)).
  assert (HT : sum_Z (map dy_tickets ds) = Z.of_nat (length group)).
  { rewrite Hds, map_map.
    rewrite (map_ext _ (fun g => sum_Z (map (fun _ => 1) (snd g))))
      by (intros [[[dd bb] cc] l]; cbn [dy_tickets snd];
          rewrite sum_Z_ones; reflexivity).
    rewrite Hgs, (nested_group_sum (fun _ => 1) k2). apply sum_Z_ones. }
  assert (Hpos : 1 <= Z.of_nat (length group)).
  { rewrite <- HT, Hds.
    destruct gs as [|g gs']; [rewrite Hds in Hne; contradiction|].
    inversion Hnon as [|? ? Hg Hrest]; subst.
    cbn [map sum_Z fold_right]. destruct g as [[[dd bb] cc] l].
    cbn [fst snd dy_tickets] in *.
    assert (0 <= fold_right Z.add 0 (map dy_tickets
              (map (fun g => let '(d, b0, c0) := fst g in
                 {| dy_date := d; dy_borough := b0; dy_complaint_type := c0;
                    dy_tickets := Z.of_nat (length (snd g));
                    dy_median_response := median (map response_hours (snd g));
                    dy_pct_within := pct_within_of sla (snd g) |}) gs'))).
    { clear. induction gs' as [|g gs IH]; cbn [map fold_right]; [lia|].
      destruct g as [[[dd bb] cc] l]. cbn [fst snd dy_tickets]. lia. }
    destruct l; [contradiction|]. cbn [length]. lia. }
  split; [exact HT|]. split; [lia|].
  rewrite HT.
  destruct (Z.eqb_spec (Z.of_nat (length group)) 0) as [H0|_]; [lia|].
  rewrite Hds, (sum_Q_breaches gs Hnon), Hgs.
  rewrite (nested_group_sum
             (fun t => 1 - case_when_1_else_0 (sql_le (response_hours t) sla)) k2).
  fold group. rewrite sum_Z_complement.
  rewrite (Qmake_Qdiv _ (Pos.of_nat (length group))).
  assert (Hp : Z.pos (Pos.of_nat (length group)) = Z.of_nat (length group)).
  { destruct (length group); [lia|]. rewrite <- Pos.of_nat_succ. lia. }
  rewrite Hp. reflexivity.
Qed.

End Tables.

Lemma rates_add_up_to_eligible_share_witness :
  exists p b,
    pct_within_of 24 [Samples.unanswered; Samples.answered 1] = Some p /\
    breach_rate_of 24 [Samples.unanswered; Samples.answered 1] = Some b /\
    (p + b == 1 # 2)%Q /\
    ((p + b == 1)%Q <->
     Forall (fun t => is_Some (response_hours t))
       [Samples.unanswered; Samples.answered 1]).
Proof.
  apply (rates_add_up_to_eligible_share 24
           [Samples.unanswered; Samples.answered 1]).
  discriminate.
Defined.

Lemma complaint_type_breach_rate_witness :
  exists cts r,
    complaint_type_summary
      (Samples.daily 24
         [Samples.unanswered; Samples.answered 1; Samples.answered 30])
    = Some cts /\
    r ∈ cts /\
    ct_tickets r = 3 /\
    1 <= ct_tickets r.
Proof.
  eexists. eexists. split; [vm_compute; reflexivity|].
  split; [apply list_elem_of_here|].
  split; [reflexivity|].
  eapply (complaint_type_breach_rate Samples.cast_date 24
            [Samples.unanswered; Samples.answered 1; Samples.answered 30]).
  - vm_compute. reflexivity.
  - apply list_elem_of_here.
Defined.

End SummariesMore.
